(** * Exam-paper ingestion and question renumbering

    A shallow embedding of [ExamPaperService] (exam-paper.service.ts) and of
    [ManualAssessmentService], with the properties of the upload, renumbering,
    publishing and projection workflows.

    Modelling conventions.
    - A JavaScript string is a [string] of 8-bit code units (code points up to
      U+00FF); the white-space classes are the ECMAScript ones restricted to
      that range.  A JavaScript number is an integer that a double holds,
      an infinity or NaN.
    - [JSON.parse] is modelled in full, as a lexer and a stack parser for the
      JSON grammar; moment's strict parsing is modelled for the one format the
      service uses.  The file system and the time-of-day arithmetic of moment
      are parameters of [uploadExamPaper].
    - A Prisma table is the list of its rows in insertion order; [findMany]
      with [orderBy] is a stable sort of the selected rows.  Generated ids come
      from a per-table sequence kept in the store.  Column types and
      constraints are declared in the Prisma schema, outside these sources:
      a write of a well-typed record is taken to be accepted.
    - The request objects are declared outside these sources as well: their
      fields have the types the services use them at, or are plain JavaScript
      values where the service only tests or copies them.
    - [async] code is sequential state passing with exceptions; a promise
      that never settles is the outcome [Pending]; a [$transaction] restores
      the store when its body throws. *)

From Stdlib Require Import ZArith List Bool Ascii String DecimalString Lia Permutation Sorted.
Import ListNotations.

Local Open Scope Z_scope.

Set Warnings "-register-all".

(* ================================================================== *)
(** ** JavaScript strings *)

Module JsString.

Definition code (c : ascii) : nat := nat_of_ascii c.

Definition chr (n : nat) : ascii := ascii_of_nat n.

Definition str1 (n : nat) : string := String (chr n) EmptyString.

(** The double quote, written by its code. *)
Definition dquote : string := str1 34.

(** WhiteSpace and LineTerminator code units: TAB, LF, VT, FF, CR, SP, NBSP. *)
Definition isWhiteSpace (c : ascii) : bool :=
  let n := code c in
  ((9 <=? n) && (n <=? 13) || (n =? 32) || (n =? 160))%nat.

Fixpoint trimStart (s : string) : string :=
  match s with
  | EmptyString => EmptyString
  | String c r => if isWhiteSpace c then trimStart r else s
  end.

Fixpoint trimEnd (s : string) : string :=
  match s with
  | EmptyString => EmptyString
  | String c r =>
      match trimEnd r with
      | EmptyString => if isWhiteSpace c then EmptyString else String c EmptyString
      | r' => String c r'
      end
  end.

(** [s.trim()] *)
Definition trim (s : string) : string := trimEnd (trimStart s).

(** [s.replace(/c/g, '')] for a single character [c]. *)
Fixpoint removeAll (c : ascii) (s : string) : string :=
  match s with
  | EmptyString => EmptyString
  | String d r => if Ascii.eqb d c then removeAll c r else String d (removeAll c r)
  end.

(** [s.startsWith(p)] *)
Definition startsWith (p s : string) : bool := String.prefix p s.

(** [s.endsWith(p)] *)
Fixpoint endsWith (p s : string) : bool :=
  String.eqb p s ||
  match s with
  | EmptyString => false
  | String _ r => endsWith p r
  end.

(** [parts.join('')] *)
Definition join (parts : list string) : string := String.concat EmptyString parts.

(** [s.split(sep)] for a single-character separator. *)
Fixpoint split (sep : ascii) (s : string) : list string :=
  match s with
  | EmptyString => [EmptyString]
  | String c r =>
      if Ascii.eqb c sep then EmptyString :: split sep r
      else match split sep r with
           | h :: t => String c h :: t
           | [] => [String c EmptyString]
           end
  end.

Definition isDigit (c : ascii) : bool := ((48 <=? code c) && (code c <=? 57))%nat.

Definition digitVal (c : ascii) : Z := Z.of_nat (code c) - 48.

(** Decimal rendering of one digit and zero-padded rendering of a number. *)
Definition digitChar (d : Z) : ascii := chr (Z.to_nat (48 + d mod 10)).

Fixpoint padDigits (width : nat) (n : Z) (acc : string) : string :=
  match width with
  | O => acc
  | S w => padDigits w (n / 10) (String (digitChar n) acc)
  end.

(** How many times a character occurs. *)
Fixpoint occurrences (c : ascii) (s : string) : nat :=
  match s with
  | EmptyString => O
  | String d r => if Ascii.eqb d c then S (occurrences c r) else occurrences c r
  end.

Definition backslash : ascii := chr 92.

End JsString.

(* ================================================================== *)
(** ** JavaScript values as they reach the services *)

Module Js.

(** Numbers: integers, the infinities and NaN (fractions are outside the
    model; the two zeros are one). *)
Inductive JsNumber :=
| NaN
| Num (z : Z)
| Infinity (negative : bool).

Inductive JsValue :=
| VUndefined
| VNull
| VBool (b : bool)
| VNum (n : JsNumber)
| VStr (s : string)
| VObject (text : string).

(** ToBoolean, the test behind [Boolean(x)], [!x], [x || y] and
    [filter(Boolean)].  An object (a Date, an array), given by its text, is
    truthy whatever it holds. *)
Definition truthy (v : JsValue) : bool :=
  match v with
  | VUndefined | VNull => false
  | VBool b => b
  | VNum NaN => false
  | VNum (Num z) => negb (z =? 0)
  | VNum (Infinity _) => true
  | VStr s => negb (String.eqb s EmptyString)
  | VObject _ => true
  end.

Definition Boolean (v : JsValue) : bool := truthy v.

(** [a || b] *)
Definition or (a b : JsValue) : JsValue := if truthy a then a else b.

(** An optional string property: [None] is [undefined]. *)
Definition truthyStr (o : option string) : bool :=
  match o with
  | Some s => negb (String.eqb s EmptyString)
  | None => false
  end.

(** [o || d] for an optional string and a string default. *)
Definition orStr (o : option string) (d : string) : string :=
  match o with
  | Some s => if String.eqb s EmptyString then d else s
  | None => d
  end.

(** [parseInt(s)]: leading white space, a sign, then the longest prefix of
    decimal digits (or of hex digits after [0x]); NaN when there is none. *)
Fixpoint digitsPrefix (acc : option Z) (s : string) : option Z :=
  match s with
  | String c r =>
      if JsString.isDigit c
      then digitsPrefix (Some (10 * match acc with Some a => a | None => 0 end
                               + JsString.digitVal c)) r
      else acc
  | EmptyString => acc
  end.

Definition hexVal (c : ascii) : option Z :=
  let n := JsString.code c in
  if JsString.isDigit c then Some (Z.of_nat n - 48)
  else if ((97 <=? n) && (n <=? 102))%nat then Some (Z.of_nat n - 87)
  else if ((65 <=? n) && (n <=? 70))%nat then Some (Z.of_nat n - 55)
  else None.

Fixpoint hexPrefix (acc : option Z) (s : string) : option Z :=
  match s with
  | String c r =>
      match hexVal c with
      | Some d => hexPrefix (Some (16 * match acc with Some a => a | None => 0 end + d)) r
      | None => acc
      end
  | EmptyString => acc
  end.

Definition parseMagnitude (s : string) : option Z :=
  match s with
  | String z (String x r) =>
      if ((JsString.code z =? 48) && ((JsString.code x =? 120) || (JsString.code x =? 88)))%nat
      then hexPrefix None r
      else digitsPrefix None s
  | _ => digitsPrefix None s
  end.

(** The Number value for a non-negative integer: the integer itself below
    2^53; above, the nearest integer with 53 significant bits, ties going to
    the even one; [None] (an infinity) from 2^1024 on. *)
Definition toDouble (m : Z) : option Z :=
  if m <? 2 ^ 53 then Some m
  else
    let k := Z.log2 m - 52 in
    let q := Z.shiftr m k in
    let r := m - Z.shiftl q k in
    let half := 2 ^ (k - 1) in
    let q' := if (half <? r) || ((r =? half) && Z.odd q) then q + 1 else q in
    let d := Z.shiftl q' k in
    if d <? 2 ^ 1024 then Some d else None.

Definition parseInt (s : string) : JsNumber :=
  let t := JsString.trimStart s in
  let '(neg, body) :=
    match t with
    | String c r =>
        if (JsString.code c =? 45)%nat then (true, r)
        else if (JsString.code c =? 43)%nat then (false, r)
        else (false, t)
    | EmptyString => (false, t)
    end in
  match parseMagnitude body with
  | Some m =>
      match toDouble m with
      | Some d => Num (if neg then - d else d)
      | None => Infinity neg
      end
  | None => NaN
  end.

End Js.

(* ================================================================== *)
(** ** JSON.parse and JSON.stringify *)

Module Json.

Inductive JSON :=
| JNull
| JBool (b : bool)
| JNumber (lexeme : string)
| JString (s : string)
| JArray (elems : list JSON)
| JObject (members : list (string * JSON)).

Inductive token :=
| TLBracket | TRBracket | TLBrace | TRBrace | TComma | TColon
| TString (s : string)
| TNumber (lexeme : string)
| TLit (v : JSON).

(** *** Lexer: one pass over the code units, one state per lexical context *)

Inductive lexstate :=
| LIdle
| LStr (acc : list ascii)
| LEsc (acc : list ascii)
| LUni (acc : list ascii) (hex : list Z)
| LNum (acc : list ascii)
| LWord (rest : list ascii) (v : JSON).

Definition isJsonSpace (c : ascii) : bool :=
  let n := JsString.code c in ((n =? 9) || (n =? 10) || (n =? 13) || (n =? 32))%nat.

Definition isNumberChar (c : ascii) : bool :=
  let n := JsString.code c in
  (JsString.isDigit c || (n =? 45) || (n =? 43) || (n =? 46) || (n =? 101) || (n =? 69))%nat.

Definition ofRev (acc : list ascii) : string := string_of_list_ascii (rev acc).

(** The number grammar: an optional minus sign; a zero, or a non-zero digit
    followed by digits; an optional fraction (a dot and one or more digits);
    an optional exponent (e or E, an optional sign, one or more digits). *)
Fixpoint dropDigits (l : list ascii) : list ascii :=
  match l with
  | c :: r => if JsString.isDigit c then dropDigits r else l
  | [] => []
  end.

Definition digits1 (l : list ascii) : option (list ascii) :=
  match l with
  | c :: r => if JsString.isDigit c then Some (dropDigits r) else None
  | [] => None
  end.

Definition intPart (l : list ascii) : option (list ascii) :=
  match l with
  | c :: r =>
      if (JsString.code c =? 48)%nat then Some r
      else if JsString.isDigit c then Some (dropDigits r)
      else None
  | [] => None
  end.

Definition fracPart (l : list ascii) : option (list ascii) :=
  match l with
  | c :: r => if (JsString.code c =? 46)%nat then digits1 r else Some l
  | [] => Some l
  end.

Definition expPart (l : list ascii) : option (list ascii) :=
  match l with
  | c :: r =>
      if ((JsString.code c =? 101) || (JsString.code c =? 69))%nat then
        match r with
        | s :: r' =>
            if ((JsString.code s =? 43) || (JsString.code s =? 45))%nat
            then digits1 r' else digits1 r
        | [] => None
        end
      else Some l
  | [] => Some l
  end.

Definition validNumber (l : list ascii) : bool :=
  let body :=
    match l with
    | c :: r => if (JsString.code c =? 45)%nat then r else l
    | [] => l
    end in
  match intPart body with
  | Some r1 =>
      match fracPart r1 with
      | Some r2 =>
          match expPart r2 with
          | Some [] => true
          | _ => false
          end
      | None => false
      end
  | None => false
  end.

Definition word (s : string) : list ascii := list_ascii_of_string s.

(** A code unit met between tokens. *)
Definition idle (c : ascii) : option (list token * lexstate) :=
  let n := JsString.code c in
  if isJsonSpace c then Some ([], LIdle)
  else if (n =? 91)%nat then Some ([TLBracket], LIdle)
  else if (n =? 93)%nat then Some ([TRBracket], LIdle)
  else if (n =? 123)%nat then Some ([TLBrace], LIdle)
  else if (n =? 125)%nat then Some ([TRBrace], LIdle)
  else if (n =? 44)%nat then Some ([TComma], LIdle)
  else if (n =? 58)%nat then Some ([TColon], LIdle)
  else if (n =? 34)%nat then Some ([], LStr [])
  else if ((n =? 45) || JsString.isDigit c)%nat then Some ([], LNum [c])
  else if (n =? 116)%nat then Some ([], LWord (word "rue") (JBool true))
  else if (n =? 102)%nat then Some ([], LWord (word "alse") (JBool false))
  else if (n =? 110)%nat then Some ([], LWord (word "ull") JNull)
  else None.

Definition escape (c : ascii) : option ascii :=
  let n := JsString.code c in
  if ((n =? 34) || (n =? 92) || (n =? 47))%nat then Some c
  else if (n =? 98)%nat then Some (JsString.chr 8)
  else if (n =? 102)%nat then Some (JsString.chr 12)
  else if (n =? 110)%nat then Some (JsString.chr 10)
  else if (n =? 114)%nat then Some (JsString.chr 13)
  else if (n =? 116)%nat then Some (JsString.chr 9)
  else None.

Definition step (st : lexstate) (c : ascii) : option (list token * lexstate) :=
  let n := JsString.code c in
  match st with
  | LIdle => idle c
  | LStr acc =>
      if (n =? 34)%nat then Some ([TString (ofRev acc)], LIdle)
      else if (n =? 92)%nat then Some ([], LEsc acc)
      else if (n <? 32)%nat then None
      else Some ([], LStr (c :: acc))
  | LEsc acc =>
      if (n =? 117)%nat then Some ([], LUni acc [])
      else match escape c with
           | Some d => Some ([], LStr (d :: acc))
           | None => None
           end
  | LUni acc hex =>
      match Js.hexVal c with
      | Some d =>
          match hex with
          | [a; b; e] =>
              (* a code unit above 0xFF has no representation here *)
              let u := ((a * 16 + b) * 16 + e) * 16 + d in
              if u <? 256 then Some ([], LStr (JsString.chr (Z.to_nat u) :: acc)) else None
          | _ => Some ([], LUni acc (hex ++ [d]))
          end
      | None => None
      end
  | LNum acc =>
      if isNumberChar c then Some ([], LNum (c :: acc))
      else if validNumber (rev acc) then
        match idle c with
        | Some (toks, st') => Some (TNumber (ofRev acc) :: toks, st')
        | None => None
        end
      else None
  | LWord rest v =>
      match rest with
      | r :: rest' =>
          if Ascii.eqb c r then
            match rest' with
            | [] => Some ([TLit v], LIdle)
            | _ => Some ([], LWord rest' v)
            end
          else None
      | [] => None
      end
  end.

Definition finish (st : lexstate) : option (list token) :=
  match st with
  | LIdle => Some []
  | LNum acc => if validNumber (rev acc) then Some [TNumber (ofRev acc)] else None
  | _ => None
  end.

Fixpoint lexFrom (st : lexstate) (cs : list ascii) : option (list token) :=
  match cs with
  | [] => finish st
  | c :: cs' =>
      match step st c with
      | Some (toks, st') =>
          match lexFrom st' cs' with
          | Some rest => Some (toks ++ rest)
          | None => None
          end
      | None => None
      end
  end.

Definition lex (s : string) : option (list token) :=
  lexFrom LIdle (list_ascii_of_string s).

(** *** Parser: a stack of open containers *)

Inductive frame :=
| FArr (acc : list JSON)
| FObj (acc : list (string * JSON))
| FObjV (acc : list (string * JSON)) (key : string).

Inductive pstate :=
| SValue (stk : list frame)
| SArrOpen (stk : list frame)
| SObjOpen (stk : list frame)
| SAfter (stk : list frame)
| SKey (stk : list frame)
| SColon (stk : list frame)
| SDone (v : JSON).

(** A complete value goes to the innermost open container. *)
Definition pushValue (v : JSON) (stk : list frame) : option pstate :=
  match stk with
  | [] => Some (SDone v)
  | FArr acc :: stk' => Some (SAfter (FArr (v :: acc) :: stk'))
  | FObjV acc k :: stk' => Some (SAfter (FObj ((k, v) :: acc) :: stk'))
  | FObj _ :: _ => None
  end.

Definition startValue (t : token) (stk : list frame) : option pstate :=
  match t with
  | TLBracket => Some (SArrOpen (FArr [] :: stk))
  | TLBrace => Some (SObjOpen (FObj [] :: stk))
  | TString s => pushValue (JString s) stk
  | TNumber n => pushValue (JNumber n) stk
  | TLit v => pushValue v stk
  | _ => None
  end.

Definition startKey (t : token) (stk : list frame) : option pstate :=
  match t, stk with
  | TString k, FObj acc :: stk' => Some (SColon (FObjV acc k :: stk'))
  | _, _ => None
  end.

Definition pstep (st : pstate) (t : token) : option pstate :=
  match st with
  | SValue stk => startValue t stk
  | SArrOpen stk =>
      match t, stk with
      | TRBracket, FArr acc :: stk' => pushValue (JArray (rev acc)) stk'
      | _, _ => startValue t stk
      end
  | SObjOpen stk =>
      match t, stk with
      | TRBrace, FObj acc :: stk' => pushValue (JObject (rev acc)) stk'
      | _, _ => startKey t stk
      end
  | SAfter stk =>
      match t, stk with
      | TComma, FArr _ :: _ => Some (SValue stk)
      | TRBracket, FArr acc :: stk' => pushValue (JArray (rev acc)) stk'
      | TComma, FObj _ :: _ => Some (SKey stk)
      | TRBrace, FObj acc :: stk' => pushValue (JObject (rev acc)) stk'
      | _, _ => None
      end
  | SKey stk => startKey t stk
  | SColon stk =>
      match t with
      | TColon => Some (SValue stk)
      | _ => None
      end
  | SDone _ => None
  end.

Fixpoint run (st : pstate) (ts : list token) : option JSON :=
  match ts with
  | [] => match st with SDone v => Some v | _ => None end
  | t :: ts' =>
      match pstep st t with
      | Some st' => run st' ts'
      | None => None
      end
  end.

(** [JSON.parse(text)]; [None] is the [SyntaxError]. *)
Definition parse (text : string) : option JSON :=
  match lex text with
  | Some ts => run (SValue []) ts
  | None => None
  end.

(** The outermost open container is an array: the invariant of a parse
    whose first token is an opening bracket. *)
Fixpoint bottomIsArray (stk : list frame) : bool :=
  match stk with
  | [] => false
  | f :: rest =>
      match rest with
      | [] => match f with FArr _ => true | _ => false end
      | _ :: _ => bottomIsArray rest
      end
  end.

Definition insideArray (st : pstate) : bool :=
  match st with
  | SDone (JArray _) => true
  | SDone _ => false
  | SValue stk | SArrOpen stk | SObjOpen stk | SAfter stk | SKey stk | SColon stk =>
      bottomIsArray stk
  end.

(** *** [JSON.stringify] of an array of strings *)

Definition hexDigit (d : nat) : ascii :=
  JsString.chr (if (d <? 10)%nat then 48 + d else 87 + d).

Definition quoteChar (c : ascii) : string :=
  let n := JsString.code c in
  let bs := String JsString.backslash EmptyString in
  if (n =? 34)%nat then (bs ++ JsString.dquote)%string
  else if (n =? 92)%nat then (bs ++ bs)%string
  else if (n =? 8)%nat then (bs ++ "b")%string
  else if (n =? 12)%nat then (bs ++ "f")%string
  else if (n =? 10)%nat then (bs ++ "n")%string
  else if (n =? 13)%nat then (bs ++ "r")%string
  else if (n =? 9)%nat then (bs ++ "t")%string
  else if (n <? 32)%nat then
    (bs ++ "u00" ++ String (hexDigit (n / 16)) (String (hexDigit (n mod 16)) EmptyString))%string
  else String c EmptyString.

Fixpoint quoteBody (s : string) : string :=
  match s with
  | EmptyString => EmptyString
  | String c r => (quoteChar c ++ quoteBody r)%string
  end.

Definition quote (s : string) : string :=
  (JsString.dquote ++ quoteBody s ++ JsString.dquote)%string.

Definition stringifyStrings (l : list string) : string :=
  ("[" ++ String.concat "," (map quote l) ++ "]")%string.

(** A string that [JSON.stringify] writes as it is: no quote, no backslash,
    no control character. *)
Definition plainChar (c : ascii) : bool :=
  let n := JsString.code c in
  ((32 <=? n) && negb (n =? 34) && negb (n =? 92))%nat.

Fixpoint plain (s : string) : bool :=
  match s with
  | EmptyString => true
  | String c r => plainChar c && plain r
  end.

End Json.

(* ================================================================== *)
(** ** moment: strict parsing against YYYY-MM-DD HH:mm:ss *)

Module Moment.

(** A local wall-clock date and time; [month] counts from 1. *)
Record DateTime := mkDateTime {
  year : Z; month : Z; day : Z; hour : Z; minute : Z; second : Z }.

Definition isLeapYear (y : Z) : bool :=
  ((y mod 4 =? 0) && negb (y mod 100 =? 0)) || (y mod 400 =? 0).

Definition daysInMonth (y m : Z) : Z :=
  if m =? 2 then (if isLeapYear y then 29 else 28)
  else 31 - ((m - 1) mod 7) mod 2.

Definition num2 (a b : ascii) : option Z :=
  if JsString.isDigit a && JsString.isDigit b
  then Some (10 * JsString.digitVal a + JsString.digitVal b)
  else None.

Definition num4 (a b c d : ascii) : option Z :=
  match num2 a b, num2 c d with
  | Some h, Some l => Some (100 * h + l)
  | _, _ => None
  end.

Definition isChar (n : nat) (c : ascii) : bool := (JsString.code c =? n)%nat.

(** The six numeric fields, when the text has exactly the shape
    dddd-dd-dd dd:dd:dd (strict mode leaves no character unparsed). *)
Definition fields (s : string) : option (Z * Z * Z * Z * Z * Z) :=
  match list_ascii_of_string s with
  | [y1; y2; y3; y4; p1; m1; m2; p2; d1; d2; p3; h1; h2; p4; i1; i2; p5; s1; s2] =>
      if isChar 45 p1 && isChar 45 p2 && isChar 32 p3 && isChar 58 p4 && isChar 58 p5 then
        match num4 y1 y2 y3 y4, num2 m1 m2, num2 d1 d2, num2 h1 h2, num2 i1 i2, num2 s1 s2 with
        | Some y, Some m, Some d, Some h, Some i, Some sc => Some (y, m, d, h, i, sc)
        | _, _, _, _, _, _ => None
        end
      else None
  | _ => None
  end.

(** The overflow check of moment: a field out of its range invalidates the
    date; hour 24 is accepted only as 24:00:00. *)
Definition inRange (f : Z * Z * Z * Z * Z * Z) : bool :=
  let '(y, m, d, h, i, sc) := f in
  (1 <=? m) && (m <=? 12) &&
  (1 <=? d) && (d <=? daysInMonth y m) &&
  ((h <=? 23) || ((h =? 24) && (i =? 0) && (sc =? 0))) &&
  (i <=? 59) && (sc <=? 59).

Definition nextDay (y m d : Z) : Z * Z * Z :=
  if d <? daysInMonth y m then (y, m, d + 1)
  else if m <? 12 then (y, m + 1, 1)
  else (y + 1, 1, 1).

(** [moment(s, 'YYYY-MM-DD HH:mm:ss', true)]: [None] when [isValid()] is
    false, otherwise the date it denotes. *)
Definition parseStrict (s : string) : option DateTime :=
  match fields s with
  | Some (y, m, d, h, i, sc) =>
      if inRange (y, m, d, h, i, sc) then
        if h =? 24 then
          let '(y', m', d') := nextDay y m d in Some (mkDateTime y' m' d' 0 0 0)
        else Some (mkDateTime y m d h i sc)
      else None
  | None => None
  end.

Definition two (n : Z) : string := JsString.padDigits 2 n EmptyString.

(** The token YYYY: the year filled with zeros to four digits, longer
    when it has more; a minus sign before the digits of a negative year. *)
Definition zeroFill4 (n : Z) : string :=
  if n <=? 9999 then JsString.padDigits 4 n EmptyString
  else NilZero.string_of_uint (N.to_uint (Z.to_N n)).

Definition yearText (y : Z) : string :=
  if 0 <=? y then zeroFill4 y else ("-" ++ zeroFill4 (- y))%string.

(** [format('HH:mm:ss')] *)
Definition formatTime (t : DateTime) : string :=
  (two (hour t) ++ ":" ++ two (minute t) ++ ":" ++ two (second t))%string.

(** [format('YYYY-MM-DD HH:mm:ss')] *)
Definition formatDateTime (t : DateTime) : string :=
  (yearText (year t) ++ "-" ++ two (month t) ++ "-" ++ two (day t) ++ " " ++ formatTime t)%string.

(** Dates as instants, for the comparisons the store makes ([gt], [lte],
    [gte]): the order of the calendar fields, read in one time zone. *)
Definition compare (a b : DateTime) : comparison :=
  match year a ?= year b with
  | Eq =>
      match month a ?= month b with
      | Eq =>
          match day a ?= day b with
          | Eq =>
              match hour a ?= hour b with
              | Eq =>
                  match minute a ?= minute b with
                  | Eq => second a ?= second b
                  | c => c
                  end
              | c => c
              end
          | c => c
          end
      | c => c
      end
  | c => c
  end.

Definition ltb (a b : DateTime) : bool :=
  match compare a b with Lt => true | _ => false end.

Definition leb (a b : DateTime) : bool :=
  match compare a b with Gt => false | _ => true end.

(** The dates the strict format can write: a four-digit year, fields in
    their calendar ranges. *)
Definition inCalendar (t : DateTime) : bool :=
  (0 <=? year t) && (year t <=? 9999)
  && (1 <=? month t) && (month t <=? 12)
  && (1 <=? day t) && (day t <=? daysInMonth (year t) (month t))
  && (0 <=? hour t) && (hour t <=? 23)
  && (0 <=? minute t) && (minute t <=? 59)
  && (0 <=? second t) && (second t <=? 59).

End Moment.

(* ================================================================== *)
(** ** Exceptions and the state-and-exception monad of the services *)

Inductive Exception :=
| NotFoundException (message : string)
| BadRequestException (message : string)
| ConflictException (message : string)
| TypeError (message : string)
| PrismaNotFound (message : string).

(** The outcome of awaiting a call: its value, the exception it threw, or
    nothing at all when its promise never settles. *)
Inductive Result (A : Type) :=
| Ok (a : A)
| Throw (e : Exception)
| Pending.

Arguments Ok {A} a.
Arguments Throw {A} e.
Arguments Pending {A}.

Section Effects.

Context {S : Type}.

Definition M (A : Type) : Type := S -> Result A * S.

Definition ret {A} (a : A) : M A := fun s => (Ok a, s).

Definition throw {A} (e : Exception) : M A := fun s => (Throw e, s).

Definition bind {A B} (m : M A) (k : A -> M B) : M B :=
  fun s =>
    match m s with
    | (Ok a, s') => k a s'
    | (Throw e, s') => (Throw e, s')
    | (Pending, s') => (Pending, s')
    end.

Definition gets {A} (f : S -> A) : M A := fun s => (Ok (f s), s).

(** [prisma.$transaction(body)]: the writes of a body that throws are
    rolled back; those of a body that never settles are never committed. *)
Definition transaction {A} (body : M A) : M A :=
  fun s =>
    match body s with
    | (Ok a, s') => (Ok a, s')
    | (Throw e, _) => (Throw e, s)
    | (Pending, _) => (Pending, s)
    end.

End Effects.

Notation "x <- m ;; k" := (bind m (fun x => k))
  (at level 61, m at next level, right associativity).

(* ================================================================== *)
(** ** Tables *)

Section Table.

Context {R : Type} (key : R -> Z).

Definition findById (i : Z) (rows : list R) : option R :=
  find (fun r => key r =? i) rows.

Definition updateById (i : Z) (f : R -> R) (rows : list R) : list R :=
  map (fun r => if key r =? i then f r else r) rows.

Definition deleteById (i : Z) (rows : list R) : list R :=
  filter (fun r => negb (key r =? i)) rows.

(** Stable insertion sort, ascending in [key]: the order of [orderBy: asc]
    and of [Array.prototype.sort((a, b) => key(a) - key(b))]. *)
Fixpoint insertBy (x : R) (l : list R) : list R :=
  match l with
  | [] => [x]
  | y :: l' => if key x <=? key y then x :: l else y :: insertBy x l'
  end.

Fixpoint sortBy (l : list R) : list R :=
  match l with
  | [] => []
  | x :: l' => insertBy x (sortBy l')
  end.

(** The two orders on rows that sorting is about. *)
Definition keyLe (a b : R) : Prop := key a <= key b.

Definition keyLt (a b : R) : Prop := key a < key b.

(** Primary-key uniqueness, as a check. *)
Fixpoint uniqueKeys (rows : list R) : bool :=
  match rows with
  | [] => true
  | r :: rows' => negb (existsb (fun r' => key r' =? key r) rows') && uniqueKeys rows'
  end.

End Table.

(* ================================================================== *)
(** ** The exam-paper service: data *)

Module Assessment.

(** A row of [addAssessment]. *)
Record t := mk {
  id : Z;
  title : string;
  description : string;
  courseUnit : string;
  courseUnitCode : string;
  duration : Js.JsValue;
  scheduledDate : Moment.DateTime;
  startTime : Moment.DateTime;
  endTime : Moment.DateTime;
  createdBy : string;
  courseId : Js.JsNumber;
  isDraft : bool }.

Definition setIsDraft (b : bool) (a : t) : t :=
  mk (id a) (title a) (description a) (courseUnit a) (courseUnitCode a) (duration a)
     (scheduledDate a) (startTime a) (endTime a) (createdBy a) (courseId a) b.

End Assessment.

Module Question.

(** A row of [question]; [content] is [None] when the CSV row had no such
    column. *)
Record t := mk {
  id : Z;
  questionNumber : Z;
  content : option string;
  answer : string;
  options : Json.JSON;
  assessmentId : Z }.

Definition setQuestionNumber (n : Z) (q : t) : t :=
  mk (id q) n (content q) (answer q) (options q) (assessmentId q).

(** A row as the JavaScript object the service is handed: its own
    properties, in column order, each with its value. *)
Inductive Value :=
| VInt (z : Z)
| VText (s : option string)
| VString (s : string)
| VJson (j : Json.JSON).

Definition Object := list (string * Value).

Definition object (q : t) : Object :=
  [("id", VInt (id q));
   ("questionNumber", VInt (questionNumber q));
   ("content", VText (content q));
   ("answer", VString (answer q));
   ("options", VJson (options q));
   ("assessmentId", VInt (assessmentId q))]%string.

(** [obj[name]] *)
Fixpoint get (name : string) (o : Object) : option Value :=
  match o with
  | [] => None
  | (k, v) :: rest => if String.eqb k name then Some v else get name rest
  end.

(** The object left by the rest pattern [({ answer, ...rest }) => rest]: the
    own properties other than [answer], in their order. *)
Definition WithoutAnswer := Object.

Definition withoutAnswer (q : t) : WithoutAnswer :=
  filter (fun p => negb (String.eqb (fst p) "answer")) (object q).

End Question.

Module UploadExamPaperDto.

Record t := mk {
  title : string;
  description : string;
  courseId : string;
  courseUnit : string;
  courseUnitCode : string;
  duration : Js.JsValue;
  scheduledDate : string;
  startTime : string;
  endTime : string;
  createdBy : string;
  isDraft : Js.JsValue }.

End UploadExamPaperDto.

Module Csv.

(** A row object emitted by csv-parser: column name to cell text. *)
Definition Row := list (string * string).

(** [data[name]]; [None] is [undefined]. *)
Fixpoint prop (data : Row) (name : string) : option string :=
  match data with
  | [] => None
  | (k, v) :: rest => if String.eqb k name then Some v else prop rest name
  end.

(** What [fs.createReadStream(path).pipe(csvParser())] does.  The listeners
    are on the csv-parser stream, the one [pipe] returns: it emits rows and
    then [end], or rows and then an [error] of its own.  An error of the
    read stream (a missing or unreadable file) is emitted on the read
    stream, which [pipe] does not forward and no listener hears: the parser
    stream then neither ends nor errors. *)
Inductive Stream :=
| End_ (rows : list Row)
| Error_ (rows : list Row) (message : string)
| ReadFailure_ (rows : list Row).

(** An uploaded file as Multer hands it over. *)
Record File := mkFile { originalname : string; path : string }.

(** The record pushed for a row that parsed. *)
Record Parsed := mkParsed {
  content : option string;
  answer : string;
  options : Json.JSON }.

End Csv.

Module Course.

(** A row of [courses], with the columns the service selects. *)
Record t := mk {
  id : Z;
  courseName : string;
  courseUnits : list string;
  courseUnitCode : Js.JsValue }.

(** [{ id, unitName, unitCode }] *)
Record Unit := mkUnit {
  u_id : Z;
  unitName : string;
  unitCode : Js.JsValue }.

End Course.

Module UpdateQuestionDto.

(** The body of a question update; [None] is [undefined], which a Prisma
    update leaves out of the write. *)
Record t := mk {
  content : option string;
  options : option Json.JSON;
  answer : option string }.

End UpdateQuestionDto.

(* ================================================================== *)
(** ** The exam-paper service: operations *)

Module ExamPaperService.

Import Csv.

Record Store := mkStore {
  addAssessment : list Assessment.t;
  question : list Question.t;
  addAssessmentSeq : Z;
  questionSeq : Z }.

Definition setQuestion (qs : list Question.t) (st : Store) : Store :=
  mkStore (addAssessment st) qs (addAssessmentSeq st) (questionSeq st).

Definition setAddAssessment (rows : list Assessment.t) (st : Store) : Store :=
  mkStore rows (question st) (addAssessmentSeq st) (questionSeq st).

(** *** The Prisma calls the service makes *)

(** [question.findMany({ where: { assessmentId }, orderBy: { questionNumber: 'asc' } })],
    also the [include: { questions: { orderBy } }] of an assessment. *)
Definition questionsOf (assessmentId : Z) (st : Store) : list Question.t :=
  sortBy Question.questionNumber
    (filter (fun q => Question.assessmentId q =? assessmentId) (question st)).

Definition question_findMany (assessmentId : Z) : M (list Question.t) :=
  gets (questionsOf assessmentId).

Definition addAssessment_findUnique (id : Z) : M (option Assessment.t) :=
  gets (fun st => findById Assessment.id id (addAssessment st)).

Definition addAssessment_findUnique_questions (id : Z)
  : M (option (Assessment.t * list Question.t)) :=
  gets (fun st =>
          match findById Assessment.id id (addAssessment st) with
          | Some a => Some (a, questionsOf id st)
          | None => None
          end).

Definition question_delete (id : Z) : M Question.t :=
  fun st =>
    match findById Question.id id (question st) with
    | Some q => (Ok q, setQuestion (deleteById Question.id id (question st)) st)
    | None => (Throw (PrismaNotFound "Record to delete does not exist."), st)
    end.

Definition question_update (id : Z) (data : Question.t -> Question.t) : M Question.t :=
  fun st =>
    match findById Question.id id (question st) with
    | Some q => (Ok (data q), setQuestion (updateById Question.id id data (question st)) st)
    | None => (Throw (PrismaNotFound "Record to update not found."), st)
    end.

Definition addAssessment_update (id : Z) (data : Assessment.t -> Assessment.t)
  : M Assessment.t :=
  fun st =>
    match findById Assessment.id id (addAssessment st) with
    | Some a =>
        (Ok (data a), setAddAssessment (updateById Assessment.id id data (addAssessment st)) st)
    | None => (Throw (PrismaNotFound "Record to update not found."), st)
    end.

(** [create]: the row gets the next value of the table's id sequence. *)
Definition addAssessment_create (data : Z -> Assessment.t) : M Assessment.t :=
  fun st =>
    let row := data (addAssessmentSeq st) in
    (Ok row, mkStore (addAssessment st ++ [row]) (question st)
                     (addAssessmentSeq st + 1) (questionSeq st)).

Definition question_create (data : Z -> Question.t) : M Question.t :=
  fun st =>
    let row := data (questionSeq st) in
    (Ok row, mkStore (addAssessment st) (question st ++ [row])
                     (addAssessmentSeq st) (questionSeq st + 1)).

(** *** deleteQuestionById *)

(** The [for] loop of the transaction, from index [i] on. *)
Fixpoint renumberFrom (i : Z) (remainingQuestions : list Question.t) : M unit :=
  match remainingQuestions with
  | [] => ret tt
  | q :: rest =>
      _ <- question_update (Question.id q) (Question.setQuestionNumber (i + 1)) ;;
      renumberFrom (i + 1) rest
  end.

Definition deleteQuestionById (questionId examPaperId : Z) : M string :=
  examPaper <- addAssessment_findUnique_questions examPaperId ;;
  match examPaper with
  | None => throw (NotFoundException "Exam paper not found")
  | Some (_, questions) =>
      match find (fun q => Question.id q =? questionId) questions with
      | None => throw (NotFoundException "Question not found in this exam paper")
      | Some _ =>
          _ <- transaction (
                 _ <- question_delete questionId ;;
                 let remainingQuestions :=
                   sortBy Question.questionNumber
                     (filter (fun q => negb (Question.id q =? questionId)) questions) in
                 renumberFrom 0 remainingQuestions) ;;
          ret "Question deleted successfully and questions renumbered"%string
      end
  end.

(** *** publishExamPaper *)

Definition publishExamPaper (id : Z) : M Assessment.t :=
  examPaper <- addAssessment_findUnique id ;;
  match examPaper with
  | None => throw (NotFoundException "Exam paper not found")
  | Some _ => addAssessment_update id (Assessment.setIsDraft false)
  end.

(** *** allQuestionsNoAnswer *)

Definition allQuestionsNoAnswer (assessmentId : Z) : M (list Question.WithoutAnswer) :=
  questions <- question_findMany assessmentId ;;
  if (List.length questions =? 0)%nat
  then throw (NotFoundException "No questions found for this assessment")
  else ret (map Question.withoutAnswer questions).

(** *** The other calls on the question and assessment tables *)

(** [question.findMany({ where: { assessmentId } })], in table order. *)
Definition question_findMany_where (assessmentId : Z) : M (list Question.t) :=
  gets (fun st => filter (fun q => Question.assessmentId q =? assessmentId) (question st)).

(** [question.findFirst({ where: { id, assessmentId } })] *)
Definition question_findFirst (id assessmentId : Z) : M (option Question.t) :=
  gets (fun st =>
          find (fun q => (Question.id q =? id) && (Question.assessmentId q =? assessmentId))
               (question st)).

Definition question_findUnique (id : Z) : M (option Question.t) :=
  gets (fun st => findById Question.id id (question st)).

(** [question.deleteMany({ where: { assessmentId } })] *)
Definition question_deleteMany (assessmentId : Z) : M unit :=
  fun st =>
    (Ok tt,
     setQuestion
       (filter (fun q => negb (Question.assessmentId q =? assessmentId)) (question st)) st).

Definition addAssessment_delete (id : Z) : M Assessment.t :=
  fun st =>
    match findById Assessment.id id (addAssessment st) with
    | Some a => (Ok a, setAddAssessment (deleteById Assessment.id id (addAssessment st)) st)
    | None => (Throw (PrismaNotFound "Record to delete does not exist."), st)
    end.

(** *** getAllExamPapers *)

Definition getAllExamPapers : M (list (Assessment.t * list Question.t)) :=
  gets (fun st => map (fun a => (a, questionsOf (Assessment.id a) st)) (addAssessment st)).

(** *** deleteExamPaper *)

Definition deleteExamPaper (id : Z) : M string :=
  examPaper <- addAssessment_findUnique id ;;
  match examPaper with
  | None => throw (NotFoundException "Exam paper not found")
  | Some _ =>
      questions <- question_findMany_where id ;;
      if (0 <? List.length questions)%nat
      then throw (ConflictException "Delete all questions within and try again☠️")
      else
        _ <- addAssessment_delete id ;;
        ret "Exam paper deleted successfully"%string
  end.

(** *** updateExamPaper *)

(** The six columns of the [data] of the update; an undefined [duration] is
    left out of the write. *)
Definition updatedPaper (updateData : UploadExamPaperDto.t) (a : Assessment.t) : Assessment.t :=
  Assessment.mk (Assessment.id a)
    (UploadExamPaperDto.title updateData)
    (UploadExamPaperDto.description updateData)
    (UploadExamPaperDto.courseUnit updateData)
    (UploadExamPaperDto.courseUnitCode updateData)
    (match UploadExamPaperDto.duration updateData with
     | Js.VUndefined => Assessment.duration a
     | v => v
     end)
    (Assessment.scheduledDate a) (Assessment.startTime a) (Assessment.endTime a)
    (UploadExamPaperDto.createdBy updateData)
    (Assessment.courseId a) (Assessment.isDraft a).

Definition updateExamPaper (id : Z) (updateData : UploadExamPaperDto.t) : M Assessment.t :=
  examPaper <- addAssessment_findUnique id ;;
  match examPaper with
  | None => throw (NotFoundException "Exam paper not found")
  | Some _ => addAssessment_update id (updatedPaper updateData)
  end.

(** *** getQuestionById *)

Definition getQuestionById (examPaperId questionId : Z) : M Question.t :=
  examPaper <- addAssessment_findUnique_questions examPaperId ;;
  match examPaper with
  | None => throw (NotFoundException "Exam paper not found")
  | Some _ =>
      question <- question_findFirst questionId examPaperId ;;
      match question with
      | None => throw (NotFoundException "Question not found in this exam paper")
      | Some q => ret q
      end
  end.

(** *** updateQuestion *)

Definition updatedQuestion (updateQuestionDto : UpdateQuestionDto.t) (q : Question.t)
  : Question.t :=
  Question.mk (Question.id q) (Question.questionNumber q)
    (match UpdateQuestionDto.content updateQuestionDto with
     | Some c => Some c
     | None => Question.content q
     end)
    (Js.orStr (UpdateQuestionDto.answer updateQuestionDto) EmptyString)
    (match UpdateQuestionDto.options updateQuestionDto with
     | Some o => o
     | None => Question.options q
     end)
    (Question.assessmentId q).

(** The first parameter, the id of the exam paper, is not used. *)
Definition updateQuestion (id questionId : Z) (updateQuestionDto : UpdateQuestionDto.t)
  : M Question.t :=
  question <- question_findUnique questionId ;;
  match question with
  | None => throw (NotFoundException "Question not found")
  | Some _ => question_update questionId (updatedQuestion updateQuestionDto)
  end.

(** *** previewExamPaper *)

Definition previewExamPaper (id : Z) : M (Assessment.t * list Question.t) :=
  examPaper <- addAssessment_findUnique_questions id ;;
  match examPaper with
  | None => throw (NotFoundException "Exam paper not found")
  | Some paper => ret paper
  end.

(** *** deleteAllQuestions *)

Definition deleteAllQuestions (assessmentId : Z) : M string :=
  assessment <- addAssessment_findUnique assessmentId ;;
  match assessment with
  | None => throw (NotFoundException "Assessment not found")
  | Some _ =>
      _ <- question_deleteMany assessmentId ;;
      ret "All questions deleted successfully"%string
  end.

(** *** previewAllQuestions *)

Definition previewAllQuestions (assessmentId : Z) : M (list Question.t) :=
  questions <- question_findMany assessmentId ;;
  if (List.length questions =? 0)%nat
  then throw (NotFoundException "No questions found for this assessment")
  else ret questions.

(** *** The counts; [now] is the [new Date()] of the call *)

Definition ongoing (now : Moment.DateTime) (a : Assessment.t) : bool :=
  negb (Assessment.isDraft a)
  && Moment.leb (Assessment.startTime a) now
  && Moment.leb now (Assessment.endTime a).

Definition upcoming (now : Moment.DateTime) (a : Assessment.t) : bool :=
  negb (Assessment.isDraft a) && Moment.ltb now (Assessment.scheduledDate a).

Definition getOngoingAssessmentsCount (now : Moment.DateTime) : M nat :=
  gets (fun st => List.length (filter (ongoing now) (addAssessment st))).

Definition getUpcomingAssessmentsCount (now : Moment.DateTime) : M nat :=
  gets (fun st => List.length (filter (upcoming now) (addAssessment st))).

(** [countAllExamPapers]: the [courses] and [users] tables are not part of
    [Store]; the sizes their [count()] returns are given. *)
Record Counts := mkCounts {
  coursesCount : nat;
  studentsCount : nat;
  upcomingExamsCount : nat }.

Definition countAllExamPapers (courses users : nat) (now : Moment.DateTime) : M Counts :=
  gets (fun st =>
          mkCounts courses users
            (List.length
               (filter (fun a => Moment.ltb now (Assessment.scheduledDate a))
                       (addAssessment st)))).

(** *** getCourses and getCourseUnits, over the [courses] table *)

Definition getCourses : @M (list Course.t) (list (Z * string)) :=
  gets (map (fun c => (Course.id c, Course.courseName c))).

(** [course.courseUnits.map((unitName, index) => ...)], from [index] on. *)
Fixpoint formatUnits (index : Z) (code : Js.JsValue) (units : list string)
  : list Course.Unit :=
  match units with
  | [] => []
  | unitName :: rest =>
      Course.mkUnit (index + 1) unitName code :: formatUnits (index + 1) code rest
  end.

(** The [catch] logs and throws the error again. *)
Definition getCourseUnits (courseId : Z) : @M (list Course.t) (list Course.Unit) :=
  course <- gets (findById Course.id courseId) ;;
  match course with
  | None => throw (NotFoundException "Course not found")
  | Some course => ret (formatUnits 0 (Course.courseUnitCode course) (Course.courseUnits course))
  end.

(** *** parseCsv *)

Definition optionFields : list string := ["options"; "_3"; "_4"; "_5"; "_6"; "_7"]%string.

(** [Array.prototype.join] renders an element as its text. *)
Definition text (o : option string) : string :=
  match o with
  | Some s => s
  | None => EmptyString
  end.

Definition combinedOptions (data : Row) : string :=
  let combinedOptions :=
    JsString.trim
      (JsString.removeAll JsString.backslash
         (JsString.join (map text (filter Js.truthyStr (map (prop data) optionFields))))) in
  let combinedOptions :=
    if negb (JsString.startsWith "[" combinedOptions)
    then ("[" ++ combinedOptions)%string else combinedOptions in
  let combinedOptions :=
    if negb (JsString.endsWith "]" combinedOptions)
    then (combinedOptions ++ "]")%string else combinedOptions in
  combinedOptions.

(** The ['data'] handler: push the record, or catch the [SyntaxError] of
    [JSON.parse] and leave [results] as it is. *)
Definition onData (results : list Parsed) (data : Row) : list Parsed :=
  match Json.parse (combinedOptions data) with
  | Some parsedOptions =>
      results ++ [mkParsed (prop data "content") (Js.orStr (prop data "answer") EmptyString)
                           parsedOptions]
  | None => results
  end.

Definition parseRows (rows : list Row) : list Parsed := fold_left onData rows [].

Section Upload.

(** The file system: what reading a path as a CSV stream yields. *)
Variable fs : string -> Stream.

(** [moment(scheduledDate).set({ hour, minute, second })] over the three
    parts of a time string mapped through [Number]: [None] when the result
    [isValid()] is false, otherwise its [toDate()].  The numeric conversion
    and the date arithmetic of the library stay abstract. *)
Variable setTimeOfDay : Moment.DateTime -> list string -> option Moment.DateTime.

(** The promise resolves on [end], rejects on an [error] of the parser
    stream, and is left pending when the read stream fails. *)
Definition parseCsv (filePath : string) : @M Store (list Parsed) :=
  match fs filePath with
  | End_ rows => ret (parseRows rows)
  | Error_ _ message => throw (BadRequestException ("Error reading CSV: " ++ message))
  | ReadFailure_ _ => fun st => (Pending, st)
  end.

Definition InvalidFile : Exception :=
  BadRequestException "CSV file not provided or incorrect file type".

Definition EmptyQuestionSet : Exception :=
  BadRequestException "No valid questions found in CSV".

Definition InvalidScheduleFormat : Exception :=
  BadRequestException "Invalid scheduled date format. Use YYYY-MM-DD HH:mm:ss.".

Definition InvalidTimeFormat : Exception :=
  BadRequestException "Invalid time format for startTime or endTime. Use HH:MM:SS.".

(** [questions.map((question, index) => prisma.question.create(...))] awaited
    by [Promise.all]: one insert per record, issued in list order. *)
Fixpoint createQuestions (index : Z) (examPaperId : Z) (questions : list Parsed)
  : M (list Question.t) :=
  match questions with
  | [] => ret []
  | question :: rest =>
      row <- question_create (fun id =>
               Question.mk id (index + 1) (content question)
                 (Js.orStr (Some (answer question)) EmptyString)
                 (options question) examPaperId) ;;
      rows <- createQuestions (index + 1) examPaperId rest ;;
      ret (row :: rows)
  end.

Record UploadResponse := mkResponse {
  examPaper : Assessment.t;
  questions : list Question.t;
  scheduledDateText : string;
  startTimeText : string;
  endTimeText : string }.

Definition uploadExamPaper (file : option File) (dto : UploadExamPaperDto.t)
  : M UploadResponse :=
  match file with
  | None => throw InvalidFile
  | Some file =>
  if negb (JsString.endsWith ".csv" (originalname file)) then throw InvalidFile else
  questions <- parseCsv (path file) ;;
  if (List.length questions =? 0)%nat then throw EmptyQuestionSet else
  match Moment.parseStrict (UploadExamPaperDto.scheduledDate dto) with
  | None => throw InvalidScheduleFormat
  | Some scheduledDate =>
  let startTimeParts := JsString.split ":" (UploadExamPaperDto.startTime dto) in
  let endTimeParts := JsString.split ":" (UploadExamPaperDto.endTime dto) in
  if negb (List.length startTimeParts =? 3)%nat || negb (List.length endTimeParts =? 3)%nat
  then throw InvalidTimeFormat else
  match setTimeOfDay scheduledDate startTimeParts, setTimeOfDay scheduledDate endTimeParts with
  | Some startTime, Some endTime =>
      transaction (
        examPaper <- addAssessment_create (fun id =>
          Assessment.mk id
            (UploadExamPaperDto.title dto)
            (UploadExamPaperDto.description dto)
            (UploadExamPaperDto.courseUnit dto)
            (UploadExamPaperDto.courseUnitCode dto)
            (UploadExamPaperDto.duration dto)
            scheduledDate startTime endTime
            (UploadExamPaperDto.createdBy dto)
            (Js.parseInt (UploadExamPaperDto.courseId dto))
            (Js.Boolean (UploadExamPaperDto.isDraft dto))) ;;
        _ <- createQuestions 0 (Assessment.id examPaper) questions ;;
        completeExamPaper <- addAssessment_findUnique_questions (Assessment.id examPaper) ;;
        match completeExamPaper with
        | None => throw (TypeError "Cannot read properties of null")
        | Some (complete, completeQuestions) =>
            ret (mkResponse complete completeQuestions
                   (Moment.formatDateTime (Assessment.scheduledDate complete))
                   (Moment.formatTime (Assessment.startTime complete))
                   (Moment.formatTime (Assessment.endTime complete)))
        end)
  | _, _ => throw InvalidTimeFormat
  end
  end
  end.

End Upload.

End ExamPaperService.

(* ================================================================== *)
(** ** The manual-assessment service *)

Module ManualAssessment.

(** A row of [manualAssessment], its scalar columns as the JavaScript values
    the service reads and writes. *)
Record t := mk {
  id : Z;
  title : Js.JsValue;
  description : Js.JsValue;
  courseId : Js.JsValue;
  courseUnit : Js.JsValue;
  courseUnitCode : Js.JsValue;
  duration : Js.JsValue;
  scheduledDate : Js.JsValue;
  startTime : Js.JsValue;
  endTime : Js.JsValue;
  createdBy : Js.JsValue }.

End ManualAssessment.

Module QuestionManual.

(** The object built from one question of a request; [options] is [None]
    when [JSON.stringify] gave [undefined]. *)
Record Data := mkData {
  questions : string;
  options : option string;
  correctAnswer : string }.

(** A row of the question table of manual assessments. *)
Record t := mk {
  id : Z;
  data : Data;
  manualAssessmentId : Z }.

End QuestionManual.

Module ManualAssessmentDto.

(** [question.options] as the request gives it: left out, an array of
    strings, or any other value, given by the text that [JSON.stringify]
    writes for it. *)
Inductive Options :=
| Omitted
| Strings (l : list string)
| NotStrings (text : string).

Record Question := mkQuestion {
  questionText : string;
  options : Options;
  correctAnswer : string }.

(** The body of a create or update request; an omitted property is
    [VUndefined], an omitted [questions] is [None]. *)
Record t := mk {
  title : Js.JsValue;
  description : Js.JsValue;
  courseId : Js.JsValue;
  courseUnit : Js.JsValue;
  courseUnitCode : Js.JsValue;
  duration : Js.JsValue;
  scheduledDate : Js.JsValue;
  startTime : Js.JsValue;
  endTime : Js.JsValue;
  createdBy : Js.JsValue;
  questions : option (list Question) }.

End ManualAssessmentDto.

Module ManualAssessmentService.

Record Store := mkStore {
  manualAssessment : list ManualAssessment.t;
  questionManual : list QuestionManual.t;
  manualAssessmentSeq : Z;
  questionManualSeq : Z }.

(** [include: { questions: true }] *)
Definition questionsOf (id : Z) (st : Store) : list QuestionManual.t :=
  filter (fun q => QuestionManual.manualAssessmentId q =? id) (questionManual st).

(** The rows a nested [questions: { create: [...] }] inserts for assessment
    [owner], with ids from [seq] on. *)
Fixpoint nestedCreate (seq owner : Z) (questions : list QuestionManual.Data)
  : list QuestionManual.t :=
  match questions with
  | [] => []
  | d :: rest => QuestionManual.mk seq d owner :: nestedCreate (seq + 1) owner rest
  end.

(** [(question) => ({ questions: question.questionText,
                      options: JSON.stringify(question.options),
                      correctAnswer: question.correctAnswer })] *)
Definition stringify (options : ManualAssessmentDto.Options) : option string :=
  match options with
  | ManualAssessmentDto.Omitted => None
  | ManualAssessmentDto.Strings l => Some (Json.stringifyStrings l)
  | ManualAssessmentDto.NotStrings text => Some text
  end.

Definition toData (question : ManualAssessmentDto.Question) : QuestionManual.Data :=
  QuestionManual.mkData
    (ManualAssessmentDto.questionText question)
    (stringify (ManualAssessmentDto.options question))
    (ManualAssessmentDto.correctAnswer question).

(** [data.questions?.map(...) || []] *)
Definition mapQuestions (questions : option (list ManualAssessmentDto.Question))
  : list QuestionManual.Data :=
  match questions with
  | Some l => map toData l
  | None => []
  end.

Definition manualAssessment_create (data : Z -> ManualAssessment.t)
  (questions : list QuestionManual.Data) : M ManualAssessment.t :=
  fun st =>
    let row := data (manualAssessmentSeq st) in
    (Ok row,
     mkStore (manualAssessment st ++ [row])
             (questionManual st
                ++ nestedCreate (questionManualSeq st) (ManualAssessment.id row) questions)
             (manualAssessmentSeq st + 1)
             (questionManualSeq st + Z.of_nat (List.length questions))).

Definition manualAssessment_update (id : Z) (data : ManualAssessment.t -> ManualAssessment.t)
  (questions : list QuestionManual.Data) : M ManualAssessment.t :=
  fun st =>
    match findById ManualAssessment.id id (manualAssessment st) with
    | Some a =>
        (Ok (data a),
         mkStore (updateById ManualAssessment.id id data (manualAssessment st))
                 (questionManual st ++ nestedCreate (questionManualSeq st) id questions)
                 (manualAssessmentSeq st)
                 (questionManualSeq st + Z.of_nat (List.length questions)))
    | None => (Throw (PrismaNotFound "Record to update not found."), st)
    end.

Definition create (data : ManualAssessmentDto.t) : M ManualAssessment.t :=
  let questions := mapQuestions (ManualAssessmentDto.questions data) in
  manualAssessment_create (fun id =>
    ManualAssessment.mk id
      (ManualAssessmentDto.title data)
      (ManualAssessmentDto.description data)
      (ManualAssessmentDto.courseId data)
      (ManualAssessmentDto.courseUnit data)
      (ManualAssessmentDto.courseUnitCode data)
      (ManualAssessmentDto.duration data)
      (ManualAssessmentDto.scheduledDate data)
      (ManualAssessmentDto.startTime data)
      (ManualAssessmentDto.endTime data)
      (ManualAssessmentDto.createdBy data)) questions.

Definition idText (id : Z) : string := NilZero.string_of_int (Z.to_int id).

Definition findOne (id : Z) : M (ManualAssessment.t * list QuestionManual.t) :=
  fun st =>
    match findById ManualAssessment.id id (manualAssessment st) with
    | Some assessment => (Ok (assessment, questionsOf id st), st)
    | None =>
        (Throw (NotFoundException ("Assessment with ID " ++ idText id ++ " not found")), st)
    end.

Definition update (id : Z) (data : ManualAssessmentDto.t) : M ManualAssessment.t :=
  found <- findOne id ;;
  let assessment := fst found in
  let questions := mapQuestions (ManualAssessmentDto.questions data) in
  manualAssessment_update id (fun row =>
    ManualAssessment.mk (ManualAssessment.id row)
      (Js.or (ManualAssessmentDto.title data) (ManualAssessment.title assessment))
      (Js.or (ManualAssessmentDto.description data) (ManualAssessment.description assessment))
      (Js.or (ManualAssessmentDto.courseId data) (ManualAssessment.courseId assessment))
      (Js.or (ManualAssessmentDto.courseUnit data) (ManualAssessment.courseUnit assessment))
      (Js.or (ManualAssessmentDto.courseUnitCode data)
             (ManualAssessment.courseUnitCode assessment))
      (Js.or (ManualAssessmentDto.duration data) (ManualAssessment.duration assessment))
      (Js.or (ManualAssessmentDto.scheduledDate data)
             (ManualAssessment.scheduledDate assessment))
      (Js.or (ManualAssessmentDto.startTime data) (ManualAssessment.startTime assessment))
      (Js.or (ManualAssessmentDto.endTime data) (ManualAssessment.endTime assessment))
      (Js.or (ManualAssessmentDto.createdBy data) (ManualAssessment.createdBy assessment)))
    questions.

(** [findAll]: every assessment with its questions. *)
Definition findAll : M (list (ManualAssessment.t * list QuestionManual.t)) :=
  gets (fun st =>
          map (fun a => (a, questionsOf (ManualAssessment.id a) st)) (manualAssessment st)).

(** The ten scalar columns an update writes. *)
Inductive Field :=
| Title | Description | CourseId | CourseUnit | CourseUnitCode
| Duration | ScheduledDate | StartTime | EndTime | CreatedBy.

Definition stored (f : Field) (a : ManualAssessment.t) : Js.JsValue :=
  match f with
  | Title => ManualAssessment.title a
  | Description => ManualAssessment.description a
  | CourseId => ManualAssessment.courseId a
  | CourseUnit => ManualAssessment.courseUnit a
  | CourseUnitCode => ManualAssessment.courseUnitCode a
  | Duration => ManualAssessment.duration a
  | ScheduledDate => ManualAssessment.scheduledDate a
  | StartTime => ManualAssessment.startTime a
  | EndTime => ManualAssessment.endTime a
  | CreatedBy => ManualAssessment.createdBy a
  end.

Definition supplied (f : Field) (data : ManualAssessmentDto.t) : Js.JsValue :=
  match f with
  | Title => ManualAssessmentDto.title data
  | Description => ManualAssessmentDto.description data
  | CourseId => ManualAssessmentDto.courseId data
  | CourseUnit => ManualAssessmentDto.courseUnit data
  | CourseUnitCode => ManualAssessmentDto.courseUnitCode data
  | Duration => ManualAssessmentDto.duration data
  | ScheduledDate => ManualAssessmentDto.scheduledDate data
  | StartTime => ManualAssessmentDto.startTime data
  | EndTime => ManualAssessmentDto.endTime data
  | CreatedBy => ManualAssessmentDto.createdBy data
  end.

End ManualAssessmentService.

(* ================================================================== *)
(** ** Specification-side definitions *)

Module Spec.

Import Csv.

(** The numbers 1, ..., n. *)
Definition oneTo (n : nat) : list Z := map Z.of_nat (seq 1 n).

(** The pure renumbering of an ordered list of survivors: the k-th one
    (counting from 0) gets number [i + k + 1], nothing else changes. *)
Fixpoint renumber (i : Z) (survivors : list Question.t) : list Question.t :=
  match survivors with
  | [] => []
  | q :: rest => Question.setQuestionNumber (i + 1) q :: renumber (i + 1) rest
  end.

(** The question table after the writes of the renumbering loop, taken as
    plain table updates. *)
Fixpoint renumberTable (i : Z) (remaining table : list Question.t) : list Question.t :=
  match remaining with
  | [] => table
  | q :: rest =>
      renumberTable (i + 1) rest
        (updateById Question.id (Question.id q) (Question.setQuestionNumber (i + 1)) table)
  end.

(** [x] stands in [l] before an occurrence of [y]. *)
Fixpoint before {A : Type} (x y : A) (l : list A) : Prop :=
  match l with
  | [] => False
  | z :: l' => (z = x /\ In y l') \/ before x y l'
  end.

(** The order in which a delete numbers the survivors: by the number they
    had, and among equal numbers by their place in the table. *)
Definition precedes (table : list Question.t) (x y : Question.t) : Prop :=
  Question.questionNumber x < Question.questionNumber y
  \/ (Question.questionNumber x = Question.questionNumber y /\ before x y table).

(** The question rows of an upload: the k-th parsed record becomes the row
    with id [seq + k] and number [index + k + 1]. *)
Fixpoint createdRows (seq index examPaperId : Z) (parsed : list Parsed)
  : list Question.t :=
  match parsed with
  | [] => []
  | p :: rest =>
      Question.mk seq (index + 1) (content p) (answer p) (options p) examPaperId
      :: createdRows (seq + 1) (index + 1) examPaperId rest
  end.

(** The assessment row of an upload. *)
Definition createdAssessment (id : Z) (dto : UploadExamPaperDto.t)
  (scheduledDate startTime endTime : Moment.DateTime) : Assessment.t :=
  Assessment.mk id
    (UploadExamPaperDto.title dto)
    (UploadExamPaperDto.description dto)
    (UploadExamPaperDto.courseUnit dto)
    (UploadExamPaperDto.courseUnitCode dto)
    (UploadExamPaperDto.duration dto)
    scheduledDate startTime endTime
    (UploadExamPaperDto.createdBy dto)
    (Js.parseInt (UploadExamPaperDto.courseId dto))
    (Js.Boolean (UploadExamPaperDto.isDraft dto)).

(** The store an upload leaves behind. *)
Definition uploaded (st : ExamPaperService.Store) (row : Assessment.t) (parsed : list Parsed)
  : ExamPaperService.Store :=
  ExamPaperService.mkStore
    (ExamPaperService.addAssessment st ++ [row])
    (ExamPaperService.question st
       ++ createdRows (ExamPaperService.questionSeq st) 0
                      (ExamPaperService.addAssessmentSeq st) parsed)
    (ExamPaperService.addAssessmentSeq st + 1)
    (ExamPaperService.questionSeq st + Z.of_nat (List.length parsed)).

(** The CSV repair as the specification words it.  A cell that is absent
    counts as empty. *)
Definition cell (data : Row) (name : string) : string :=
  match prop data name with
  | Some s => s
  | None => EmptyString
  end.

(** The option-bearing fields in their fixed order, concatenated. *)
Definition concatenated (data : Row) : string :=
  (cell data "options" ++ cell data "_3" ++ cell data "_4"
   ++ cell data "_5" ++ cell data "_6" ++ cell data "_7")%string.

(** Backslashes stripped, white space trimmed. *)
Definition cleaned (data : Row) : string :=
  JsString.trim (JsString.removeAll JsString.backslash (concatenated data)).

(** A bracket is added on each side that lacks one. *)
Definition repaired (data : Row) : string :=
  let s := cleaned data in
  ((if JsString.startsWith "[" s then EmptyString else "[") ++ s
   ++ (if JsString.endsWith "]" s then EmptyString else "]"))%string.



(** The steps of the repair once more, each by what it must achieve and
    without the string functions the handler calls. *)

Definition chars (s : string) : list ascii := list_ascii_of_string s.

(** White space: TAB, LF, VT, FF, CR, SP, NBSP. *)
Definition whiteSpace (c : ascii) : Prop :=
  In (nat_of_ascii c) [9; 10; 11; 12; 13; 32; 160]%nat.

(** [t] is [s] without its backslashes: the other characters, in order. *)
Definition stripped (s t : string) : Prop :=
  chars t = filter (fun c => negb (nat_of_ascii c =? 92)%nat) (chars s).

(** [t] is [s] without the white space at its two ends. *)
Definition trimmed (s t : string) : Prop :=
  exists pre suf,
    s = (pre ++ t ++ suf)%string
    /\ Forall whiteSpace (chars pre)
    /\ Forall whiteSpace (chars suf)
    /\ (forall c r, t = String c r -> ~ whiteSpace c)
    /\ (forall r c, t = (r ++ String c EmptyString)%string -> ~ whiteSpace c).

Definition opens (t : string) : Prop := exists r, t = String "["%char r.

Definition closes (t : string) : Prop := exists r, t = (r ++ "]")%string.

(** [u] is [t] with a bracket added on each side that lacks one. *)
Definition bracketed (t u : string) : Prop :=
  exists l r,
    u = (l ++ t ++ r)%string
    /\ (opens t /\ l = EmptyString \/ ~ opens t /\ l = "["%string)
    /\ (closes t /\ r = EmptyString \/ ~ closes t /\ r = "]"%string).

(** Two questions that agree on every column but the answer. *)
Definition sameButAnswer (a b : Question.t) : Prop :=
  Question.id a = Question.id b
  /\ Question.questionNumber a = Question.questionNumber b
  /\ Question.content a = Question.content b
  /\ Question.options a = Question.options b
  /\ Question.assessmentId a = Question.assessmentId b.

(** The integrity constraints of the exam tables: primary keys are unique and
    below the sequences, every question belongs to a stored assessment. *)
Definition consistent (st : ExamPaperService.Store) : bool :=
  uniqueKeys Assessment.id (ExamPaperService.addAssessment st)
  && uniqueKeys Question.id (ExamPaperService.question st)
  && forallb (fun a => Assessment.id a <? ExamPaperService.addAssessmentSeq st)
       (ExamPaperService.addAssessment st)
  && forallb (fun q => Question.id q <? ExamPaperService.questionSeq st)
       (ExamPaperService.question st)
  && forallb (fun q => existsb (fun a => Assessment.id a =? Question.assessmentId q)
                         (ExamPaperService.addAssessment st))
       (ExamPaperService.question st).

(** A stored question row says what the question object of the request
    said: the same text and answer; no options text when the options were
    left out; for an array of strings, JSON text that reads back as that
    array; for any other value, the text [JSON.stringify] writes for it. *)
Definition asSupplied (row : QuestionManual.t) (q : ManualAssessmentDto.Question) : Prop :=
  QuestionManual.questions (QuestionManual.data row) = ManualAssessmentDto.questionText q
  /\ QuestionManual.correctAnswer (QuestionManual.data row)
     = ManualAssessmentDto.correctAnswer q
  /\ (ManualAssessmentDto.options q = ManualAssessmentDto.Omitted
      <-> QuestionManual.options (QuestionManual.data row) = None)
  /\ (forall l,
        ManualAssessmentDto.options q = ManualAssessmentDto.Strings l ->
        exists text,
          QuestionManual.options (QuestionManual.data row) = Some text
          /\ Json.parse text = Some (Json.JArray (map Json.JString l)))
  /\ (forall text,
        ManualAssessmentDto.options q = ManualAssessmentDto.NotStrings text ->
        QuestionManual.options (QuestionManual.data row) = Some text).

(** The integrity constraints of the manual-assessment tables. *)
Definition manualConsistent (st : ManualAssessmentService.Store) : bool :=
  uniqueKeys ManualAssessment.id (ManualAssessmentService.manualAssessment st)
  && forallb (fun a => ManualAssessment.id a <? ManualAssessmentService.manualAssessmentSeq st)
       (ManualAssessmentService.manualAssessment st)
  && forallb (fun q => existsb (fun a => ManualAssessment.id a
                                         =? QuestionManual.manualAssessmentId q)
                         (ManualAssessmentService.manualAssessment st))
       (ManualAssessmentService.questionManual st).

End Spec.

(* ================================================================== *)
(** ** Concrete data for the examples *)

Module Sample.

Import Csv.

Local Open Scope string_scope.

Definition q : string := JsString.dquote.

(** Three rows: a well-formed one, one whose options cannot be repaired into
    JSON, and one whose options lack both brackets. *)
Definition rows : list Row :=
  [ [("content", "Q1"); ("options", "[" ++ q ++ "A" ++ q ++ "," ++ q ++ "B" ++ q ++ "]")];
    [("content", "bad"); ("options", "[" ++ q ++ "A")];
    [("content", "Q2"); ("options", q ++ "C" ++ q); ("answer", "C")] ]%string.

(** A row whose options parse to an array of numbers. *)
Definition numericRow : Row := [("content", "Q"); ("options", "1,2")]%string.

Definition badRows : list Row :=
  [ [("content", "bad"); ("options", "[" ++ q ++ "A")] ]%string.

Definition fs (p : string) : Stream :=
  if String.eqb p "/tmp/upload.csv" then End_ rows
  else if String.eqb p "/tmp/bad.csv" then End_ badRows
  else ReadFailure_ [].

Definition file : File := mkFile "paper.csv" "/tmp/upload.csv".

Definition badFile : File := mkFile "bad.csv" "/tmp/bad.csv".

(** An instance of the time-of-day computation, exact on parts made of two
    decimal digits within the clock ranges and rejecting everything else. *)
Definition setTimeOfDay (d : Moment.DateTime) (parts : list string) : option Moment.DateTime :=
  match parts with
  | [h; m; s] =>
      match Moment.fields ("2000-01-01 " ++ h ++ ":" ++ m ++ ":" ++ s) with
      | Some (_, _, _, hh, mm, ss) =>
          if ((hh <=? 23) && (mm <=? 59) && (ss <=? 59))%Z
          then Some (Moment.mkDateTime (Moment.year d) (Moment.month d) (Moment.day d) hh mm ss)
          else None
      | None => None
      end
  | _ => None
  end.

(** The outcome of uploading [file]. *)
Definition upload (d : UploadExamPaperDto.t) (st : ExamPaperService.Store)
  : Result ExamPaperService.UploadResponse * ExamPaperService.Store :=
  ExamPaperService.uploadExamPaper fs setTimeOfDay (Some file) d st.

Definition dto : UploadExamPaperDto.t :=
  UploadExamPaperDto.mk "Midterm" "Chapters 1-3" "7" "Algebra" "MTH101"
    (Js.VNum (Js.Num 60)) "2025-01-01 00:00:00" "09:00:00" "11:00:00" "staff"
    Js.VUndefined.

Definition malformedDateDto : UploadExamPaperDto.t :=
  UploadExamPaperDto.mk "Midterm" "Chapters 1-3" "7" "Algebra" "MTH101"
    (Js.VNum (Js.Num 60)) "2025-13-40" "09:00:00" "11:00:00" "staff"
    Js.VUndefined.

Definition empty : ExamPaperService.Store := ExamPaperService.mkStore [] [] 1 1.

Definition when : Moment.DateTime := Moment.mkDateTime 2025 1 1 9 0 0.

Definition paper (draft : bool) : Assessment.t :=
  Assessment.mk 1 "Midterm" "Chapters 1-3" "Algebra" "MTH101" (Js.VNum (Js.Num 60))
    when when when "staff" (Js.Num 7) draft.

Definition question (id number : Z) (content answer : string) : Question.t :=
  Question.mk id number (Some content) answer (Json.JArray [Json.JString answer]) 1.

(** An assessment with three questions numbered 1, 2, 3. *)
Definition three : ExamPaperService.Store :=
  ExamPaperService.mkStore [paper true]
    [question 10 1 "Q1" "a"; question 11 2 "Q2" "b"; question 12 3 "Q3" "c"] 2 13.

(** The same assessment with its questions stored out of number order. *)
Definition shuffled : ExamPaperService.Store :=
  ExamPaperService.mkStore [paper true]
    [question 10 3 "Q3" "c"; question 11 1 "Q1" "a"; question 12 2 "Q2" "b"] 2 13.

(** The same questions with other stored answers. *)
Definition threeOtherAnswers : ExamPaperService.Store :=
  ExamPaperService.mkStore [paper true]
    [Question.mk 10 1 (Some "Q1") "x" (Json.JArray [Json.JString "a"]) 1;
     Question.mk 11 2 (Some "Q2") "y" (Json.JArray [Json.JString "b"]) 1;
     Question.mk 12 3 (Some "Q3") "z" (Json.JArray [Json.JString "c"]) 1] 2 13.

Definition published : ExamPaperService.Store :=
  ExamPaperService.mkStore [paper false] [] 2 1.

(** The response and the store of uploading [file] with [dto] into the
    empty store. *)
Definition response : ExamPaperService.UploadResponse :=
  Eval vm_compute in
    match fst (upload dto empty) with
    | Ok r => r
    | _ => ExamPaperService.mkResponse (paper true) [] EmptyString EmptyString EmptyString
    end.

Definition afterUpload : ExamPaperService.Store :=
  Eval vm_compute in snd (upload dto empty).

(** A manual assessment with one stored question. *)
Definition manualRow : ManualAssessment.t :=
  ManualAssessment.mk 1 (Js.VStr "Quiz") (Js.VStr "Week 1") (Js.VNum (Js.Num 7))
    (Js.VStr "Algebra") (Js.VStr "MTH101") (Js.VNum (Js.Num 60))
    (Js.VStr "2025-01-01") (Js.VStr "09:00") (Js.VStr "10:00") (Js.VStr "staff").

Definition manual : ManualAssessmentService.Store :=
  ManualAssessmentService.mkStore [manualRow]
    [QuestionManual.mk 1 (QuestionManual.mkData "old?" (Some "[]") "x") 1] 2 2.

Definition newQuestion : ManualAssessmentDto.Question :=
  ManualAssessmentDto.mkQuestion "new?" (ManualAssessmentDto.Strings ["yes"; "no"]%string) "yes".

(** An update that supplies one question, a zero duration and an empty
    description, and omits everything else. *)
Definition manualUpdate : ManualAssessmentDto.t :=
  ManualAssessmentDto.mk Js.VUndefined (Js.VStr EmptyString) Js.VUndefined Js.VUndefined
    Js.VUndefined (Js.VNum (Js.Num 0)) Js.VUndefined Js.VUndefined Js.VUndefined
    Js.VUndefined (Some [newQuestion]).

(** A course with three units. *)
Definition courses : list Course.t :=
  [Course.mk 7 "Algebra" ["Groups"; "Rings"; "Fields"] (Js.VStr "MTH101")].

(** A second assessment, published, with one question of its own. *)
Definition otherPaper : Assessment.t :=
  Assessment.mk 2 "Final" "All chapters" "Algebra" "MTH101" (Js.VNum (Js.Num 120))
    when when when "staff" (Js.Num 7) false.

Definition two : ExamPaperService.Store :=
  ExamPaperService.mkStore [paper true; otherPaper]
    [question 10 1 "Q1" "a"; Question.mk 20 1 (Some "R1") "r" (Json.JArray []) 2;
     question 11 2 "Q2" "b"] 3 21.

(** A store whose only assessment has no question. *)
Definition bare : ExamPaperService.Store := ExamPaperService.mkStore [paper true] [] 2 13.


Definition questionPatch : UpdateQuestionDto.t :=
  UpdateQuestionDto.mk (Some "Q2, reworded") None None.

Definition badTimeDto : UploadExamPaperDto.t :=
  UploadExamPaperDto.mk "Midterm" "Chapters 1-3" "7" "Algebra" "MTH101"
    (Js.VNum (Js.Num 60)) "2025-01-01 00:00:00" "09:00" "11:00:00" "staff"
    Js.VUndefined.

Definition textFile : File := mkFile "paper.txt" "/tmp/upload.csv".

Definition manualCreate : ManualAssessmentDto.t :=
  ManualAssessmentDto.mk (Js.VStr "Quiz 2") (Js.VStr EmptyString) (Js.VNum (Js.Num 7))
    (Js.VStr "Algebra") (Js.VStr "MTH101") (Js.VNum (Js.Num 0))
    (Js.VStr "2025-02-01") (Js.VStr "09:00") (Js.VStr "10:00") (Js.VStr "staff")
    (Some [newQuestion]).

(** A question that leaves its options out. *)
Definition openQuestion : ManualAssessmentDto.Question :=
  ManualAssessmentDto.mkQuestion "why?" ManualAssessmentDto.Omitted "because".

Definition emptyPatch : ManualAssessmentDto.t :=
  ManualAssessmentDto.mk Js.VUndefined Js.VUndefined Js.VUndefined Js.VUndefined
    Js.VUndefined Js.VUndefined Js.VUndefined Js.VUndefined Js.VUndefined
    Js.VUndefined None.

End Sample.

(* ================================================================== *)
(** * Properties *)

(* ================================================================== *)
(** ** Tables: finding, updating, deleting and sorting rows *)

Section TableFacts.

Context {R : Type} (key : R -> Z).

Lemma insertBy_permutation (x : R) (l : list R) :
  Permutation (insertBy key x l) (x :: l).
Proof.
  induction l as [|y l IH]; simpl.
  - apply Permutation_refl.
  - destruct (key x <=? key y).
    + apply Permutation_refl.
    + eapply perm_trans; [apply perm_skip, IH | apply perm_swap].
Qed.

Lemma sortBy_permutation (l : list R) : Permutation (sortBy key l) l.
Proof.
  induction l as [|x l IH]; simpl.
  - constructor.
  - eapply perm_trans; [apply insertBy_permutation | apply perm_skip, IH].
Qed.

Lemma insertBy_sorted (x : R) (l : list R) :
  StronglySorted (keyLe key) l -> StronglySorted (keyLe key) (insertBy key x l).
Proof.
  induction 1 as [|y l Hs IH Hall]; simpl.
  - repeat constructor.
  - destruct (key x <=? key y) eqn:E.
    + apply Z.leb_le in E. constructor.
      * constructor; assumption.
      * constructor; [exact E|].
        eapply Forall_impl; [|exact Hall].
        unfold keyLe; intros; lia.
    + apply Z.leb_gt in E. constructor; [exact IH|].
      eapply Permutation_Forall.
      * apply Permutation_sym, insertBy_permutation.
      * constructor; [unfold keyLe; lia | exact Hall].
Qed.

Lemma sortBy_sorted (l : list R) : StronglySorted (keyLe key) (sortBy key l).
Proof.
  induction l; simpl; [constructor | apply insertBy_sorted; assumption].
Qed.

(** Sorting a list that is already in order leaves it as it is. *)
Lemma sortBy_of_sorted (l : list R) : StronglySorted (keyLe key) l -> sortBy key l = l.
Proof.
  induction 1 as [|x l Hs IH Hall]; simpl; [reflexivity|].
  rewrite IH. destruct l as [|y l]; simpl; [reflexivity|].
  inversion Hall as [|? ? Hxy _]; subst. unfold keyLe in Hxy.
  apply Z.leb_le in Hxy. rewrite Hxy. reflexivity.
Qed.

(** An ordered list and a strictly ordered list with the same elements are
    the same list. *)
Lemma sorted_strict_unique (l2 : list R) :
  forall l1, StronglySorted (keyLe key) l1 -> StronglySorted (keyLt key) l2 ->
             Permutation l1 l2 -> l1 = l2.
Proof.
  induction l2 as [|x l2 IH]; intros l1 H1 H2 HP.
  - apply Permutation_sym, Permutation_nil in HP. exact HP.
  - destruct l1 as [|y l1].
    + apply Permutation_nil in HP. discriminate.
    + inversion H1 as [|? ? H1s H1all]; subst.
      inversion H2 as [|? ? H2s H2all]; subst.
      assert (Hyx : y = x).
      { assert (Hy : In y (x :: l2)) by (eapply Permutation_in; [exact HP | left; reflexivity]).
        assert (Hx : In x (y :: l1))
          by (eapply Permutation_in; [apply Permutation_sym; exact HP | left; reflexivity]).
        destruct Hy as [Hy | Hy]; [symmetry; exact Hy|].
        destruct Hx as [Hx | Hx]; [exact Hx|].
        rewrite Forall_forall in H1all, H2all.
        specialize (H1all _ Hx). specialize (H2all _ Hy).
        unfold keyLe, keyLt in *. lia. }
      subst y. f_equal. apply IH; try assumption.
      eapply Permutation_cons_inv; exact HP.
Qed.

Lemma filter_permutation (p : R -> bool) (l l' : list R) :
  Permutation l l' -> Permutation (filter p l) (filter p l').
Proof.
  induction 1 as [| x l l' _ IH | x y l | l l' l'' _ IH1 _ IH2]; simpl.
  - constructor.
  - destruct (p x); [apply perm_skip|]; exact IH.
  - destruct (p x), (p y); try apply Permutation_refl. apply perm_swap.
  - eapply perm_trans; eassumption.
Qed.

Lemma filter_sorted (rel : R -> R -> Prop) (p : R -> bool) (l : list R) :
  StronglySorted rel l -> StronglySorted rel (filter p l).
Proof.
  induction 1 as [|x l Hs IH Hall]; simpl; [constructor|].
  destruct (p x); [|exact IH].
  constructor; [exact IH|].
  rewrite Forall_forall in *. intros y Hy. apply filter_In in Hy. apply Hall, Hy.
Qed.

Lemma filter_comm (p q : R -> bool) (l : list R) :
  filter p (filter q l) = filter q (filter p l).
Proof.
  induction l as [|x l IH]; simpl; [reflexivity|].
  destruct (q x) eqn:Eq, (p x) eqn:Ep; simpl; rewrite ?Eq, ?Ep, IH; reflexivity.
Qed.

Lemma uniqueKeys_NoDup (rows : list R) :
  uniqueKeys key rows = true -> NoDup (map key rows).
Proof.
  induction rows as [|r rows IH]; simpl; intros H; [constructor|].
  apply andb_true_iff in H. destruct H as [Hn Hu].
  constructor; [|apply IH, Hu].
  intros Hin. apply in_map_iff in Hin. destruct Hin as [r' [Hk Hr']].
  apply negb_true_iff in Hn.
  assert (existsb (fun r' => key r' =? key r) rows = true).
  { apply existsb_exists. exists r'. split; [exact Hr'|]. apply Z.eqb_eq, Hk. }
  congruence.
Qed.

Lemma NoDup_keys_filter (p : R -> bool) (l : list R) :
  NoDup (map key l) -> NoDup (map key (filter p l)).
Proof.
  induction l as [|x l IH]; simpl; intros H; [constructor|].
  inversion H as [|? ? Hn Hd]; subst.
  destruct (p x); simpl; [|apply IH, Hd].
  constructor; [|apply IH, Hd].
  intros Hin. apply Hn. apply in_map_iff in Hin. destruct Hin as [y [Hy Hin]].
  apply filter_In in Hin. apply in_map_iff. exists y. tauto.
Qed.

Lemma findById_of_key (i : Z) (rows : list R) :
  In i (map key rows) -> exists r, findById key i rows = Some r.
Proof.
  unfold findById. induction rows as [|x rows IH]; simpl; [tauto|].
  intros [H | H].
  - subst i. rewrite Z.eqb_refl. eauto.
  - destruct (key x =? i); eauto.
Qed.

Lemma findById_some (i : Z) (rows : list R) (r : R) :
  findById key i rows = Some r -> In r rows /\ key r = i.
Proof.
  unfold findById. intros H. apply find_some in H. destruct H as [H1 H2].
  split; [exact H1 | apply Z.eqb_eq, H2].
Qed.

Lemma updateById_keys (i : Z) (f : R -> R) (rows : list R) :
  (forall r, key (f r) = key r) ->
  map key (updateById key i f rows) = map key rows.
Proof.
  intros Hf. unfold updateById. rewrite map_map. apply map_ext.
  intros r. destruct (key r =? i); [apply Hf | reflexivity].
Qed.

Lemma updateById_app (i : Z) (f : R -> R) (l1 l2 : list R) :
  updateById key i f (l1 ++ l2) = updateById key i f l1 ++ updateById key i f l2.
Proof. apply map_app. Qed.

(** An update by an id that no row carries changes nothing. *)
Lemma updateById_absent (i : Z) (f : R -> R) (rows : list R) :
  ~ In i (map key rows) -> updateById key i f rows = rows.
Proof.
  unfold updateById. induction rows as [|x rows IH]; simpl; intros H; [reflexivity|].
  destruct (key x =? i) eqn:E.
  - apply Z.eqb_eq in E. tauto.
  - f_equal. apply IH. tauto.
Qed.

Lemma updateById_filter (i : Z) (f : R -> R) (p : R -> bool) (rows : list R) :
  (forall r, p (f r) = p r) ->
  filter p (updateById key i f rows) = updateById key i f (filter p rows).
Proof.
  intros Hp. unfold updateById. induction rows as [|x rows IH]; simpl; [reflexivity|].
  destruct (key x =? i) eqn:E.
  - rewrite Hp. destruct (p x); simpl; rewrite ?E, IH; reflexivity.
  - destruct (p x); simpl; rewrite ?E, IH; reflexivity.
Qed.

(** Deleting the one row that carries a key shortens the table by one. *)
Lemma deleteById_length (x : R) (rows : list R) :
  NoDup (map key rows) -> In x rows ->
  S (List.length (deleteById key (key x) rows)) = List.length rows.
Proof.
  unfold deleteById. induction rows as [|y rows IH]; simpl; intros Hd Hin; [tauto|].
  inversion Hd as [|? ? Hn Hd']; subst.
  destruct (key y =? key x) eqn:E; simpl.
  - f_equal. apply Z.eqb_eq in E.
    assert (Hall : forall z, In z rows -> negb (key z =? key x) = true).
    { intros z Hz. apply negb_true_iff, Z.eqb_neq. intros Hzx. apply Hn.
      rewrite E, <- Hzx. apply in_map, Hz. }
    clear - Hall. induction rows as [|z rows IH]; simpl; [reflexivity|].
    rewrite (Hall z (or_introl eq_refl)). simpl. f_equal. apply IH.
    intros w Hw. apply Hall. right. exact Hw.
  - f_equal. apply IH; [exact Hd'|].
    destruct Hin as [Hin | Hin]; [|exact Hin].
    subst y. rewrite Z.eqb_refl in E. discriminate.
Qed.

Lemma findById_updateById (i : Z) (f : R -> R) (rows : list R) (a : R) :
  key (f a) = i ->
  findById key i rows = Some a ->
  findById key i (updateById key i f rows) = Some (f a).
Proof.
  intros Hf. unfold findById, updateById.
  induction rows as [|x rows IH]; simpl; [discriminate|].
  destruct (key x =? i) eqn:E.
  - intros H. injection H as ->. rewrite Hf, Z.eqb_refl. reflexivity.
  - intros H. rewrite E. apply IH, H.
Qed.

Lemma updateById_idempotent (i : Z) (f : R -> R) (rows : list R) :
  (forall r, key (f r) = key r) -> (forall r, f (f r) = f r) ->
  updateById key i f (updateById key i f rows) = updateById key i f rows.
Proof.
  intros Hk Hf. unfold updateById. rewrite map_map. apply map_ext. intros r.
  destruct (key r =? i) eqn:E; [|now rewrite E].
  rewrite Hk, E. apply Hf.
Qed.

Lemma unique_row (rows : list R) (a b : R) :
  NoDup (map key rows) -> In a rows -> In b rows -> key a = key b -> a = b.
Proof.
  induction rows as [|x rows IH]; simpl; intros Hd Ha Hb Hk; [tauto|].
  inversion Hd as [|? ? Hn Hd']; subst.
  destruct Ha as [-> | Ha], Hb as [-> | Hb]; auto.
  - exfalso. apply Hn. rewrite Hk. apply in_map, Hb.
  - exfalso. apply Hn. rewrite <- Hk. apply in_map, Ha.
Qed.

(** An update that leaves the one row with the key as it is changes
    nothing. *)
Lemma updateById_fixed (i : Z) (f : R -> R) (rows : list R) (a : R) :
  NoDup (map key rows) -> In a rows -> key a = i -> f a = a ->
  updateById key i f rows = rows.
Proof.
  intros Hd Ha Hk Hf. unfold updateById.
  rewrite <- (map_id rows) at 2. apply map_ext_in. intros r Hr.
  destruct (key r =? i) eqn:E; [|reflexivity].
  apply Z.eqb_eq in E.
  assert (r = a) by (eapply unique_row; eauto; congruence).
  subst r. exact Hf.
Qed.

Lemma map_sortBy {S : Type} (g : R -> S) (key' : S -> Z) (l : list R) :
  (forall r, key' (g r) = key r) ->
  map g (sortBy key l) = sortBy key' (map g l).
Proof.
  intros Hk.
  assert (Hins : forall x l, map g (insertBy key x l) = insertBy key' (g x) (map g l)).
  { intros x. induction l0 as [|y l0 IH]; simpl; [reflexivity|].
    rewrite !Hk. destruct (key x <=? key y); simpl; [reflexivity | now rewrite IH]. }
  induction l as [|x l IH]; simpl; [reflexivity|]. now rewrite Hins, IH.
Qed.

Lemma map_filter_along {S : Type} (g : R -> S) (p : R -> bool) (p' : S -> bool) (l : list R) :
  (forall r, p' (g r) = p r) ->
  map g (filter p l) = filter p' (map g l).
Proof.
  intros Hp. induction l as [|x l IH]; simpl; [reflexivity|].
  rewrite Hp. destruct (p x); simpl; now rewrite IH.
Qed.

Lemma NoDup_uniqueKeys (rows : list R) :
  NoDup (map key rows) -> uniqueKeys key rows = true.
Proof.
  induction rows as [|r rows IH]; simpl; intros H; [reflexivity|].
  inversion H as [|? ? Hn Hd]; subst. rewrite (IH Hd), andb_true_r.
  apply negb_true_iff. destruct (existsb _ rows) eqn:E; [|reflexivity].
  apply existsb_exists in E. destruct E as [r' [Hr' Hk]]. apply Z.eqb_eq in Hk.
  exfalso. apply Hn. rewrite <- Hk. apply in_map, Hr'.
Qed.

Lemma deleteById_absent (i : Z) (rows : list R) :
  ~ In i (map key rows) -> deleteById key i rows = rows.
Proof.
  unfold deleteById. induction rows as [|x rows IH]; simpl; intros H; [reflexivity|].
  destruct (key x =? i) eqn:E; simpl.
  - apply Z.eqb_eq in E. tauto.
  - f_equal. apply IH. tauto.
Qed.

Lemma updateById_map {B : Type} (g : R -> B) (i : Z) (f : R -> R) (rows : list R) :
  (forall r, g (f r) = g r) ->
  map g (updateById key i f rows) = map g rows.
Proof.
  intros Hf. unfold updateById. rewrite map_map. apply map_ext.
  intros r. destruct (key r =? i); [apply Hf | reflexivity].
Qed.

End TableFacts.

(* ================================================================== *)
(** ** JSON: a text that opens with a bracket parses to an array *)

Section JsonFacts.

Import Json.

Lemma bottomIsArray_cons f g stk :
  bottomIsArray (f :: g :: stk) = bottomIsArray (g :: stk).
Proof. reflexivity. Qed.

Lemma pushValue_insideArray v stk st :
  bottomIsArray stk = true -> pushValue v stk = Some st -> insideArray st = true.
Proof.
  destruct stk as [|f stk]; [discriminate|].
  destruct stk as [|g stk]; destruct f; simpl; intros Hb H;
    try discriminate; inversion H; subst; simpl; try reflexivity; exact Hb.
Qed.

(** Closing the innermost container: the value goes one level up, or is the
    result when the container was the outermost one. *)
Lemma close_insideArray v f stk st :
  bottomIsArray (f :: stk) = true ->
  (stk = [] -> exists elems, v = JArray elems) ->
  pushValue v stk = Some st -> insideArray st = true.
Proof.
  intros Hb Hroot H. destruct stk as [|g stk].
  - destruct (Hroot eq_refl) as [elems ->]. simpl in H. inversion H. reflexivity.
  - rewrite bottomIsArray_cons in Hb. eapply pushValue_insideArray; eassumption.
Qed.

Lemma pstep_insideArray st t st' :
  insideArray st = true -> pstep st t = Some st' -> insideArray st' = true.
Proof.
  intros Hin H.
  destruct st as [stk | stk | stk | stk | stk | stk | v]; simpl in Hin, H;
    [ | | | | | | discriminate ].
  - destruct t; simpl in H; try discriminate;
      try (eapply pushValue_insideArray; eassumption);
      inversion H; subst; simpl;
      destruct stk; try discriminate; exact Hin.
  - destruct t; simpl in H; try discriminate;
      try (eapply pushValue_insideArray; eassumption);
      try (inversion H; subst; simpl; destruct stk; try discriminate; exact Hin).
    destruct stk as [|[acc | acc | acc k] stk]; try discriminate.
    eapply close_insideArray; [exact Hin | | exact H]. eauto.
  - destruct t; simpl in H; try discriminate;
      destruct stk as [|[acc | acc | acc k] stk]; try discriminate.
    + eapply close_insideArray; [exact Hin | | exact H].
      intros ->. discriminate.
    + inversion H; subst. simpl. destruct stk; [discriminate | exact Hin].
  - destruct t; simpl in H; try discriminate;
      destruct stk as [|[acc | acc | acc k] stk]; try discriminate.
    + eapply close_insideArray; [exact Hin | | exact H]. eauto.
    + eapply close_insideArray; [exact Hin | | exact H]. intros ->. discriminate.
    + inversion H; subst. exact Hin.
    + inversion H; subst. exact Hin.
  - destruct t; simpl in H; try discriminate.
    destruct stk as [|[acc | acc | acc k] stk]; try discriminate.
    inversion H; subst. simpl. destruct stk; [discriminate | exact Hin].
  - destruct t; simpl in H; try discriminate. inversion H; subst. exact Hin.
Qed.

Lemma run_insideArray ts :
  forall st v, insideArray st = true -> run st ts = Some v -> exists elems, v = JArray elems.
Proof.
  induction ts as [|t ts IH]; intros st v Hin H; simpl in H.
  - destruct st; try discriminate. inversion H; subst.
    simpl in Hin. destruct v; try discriminate. eauto.
  - destruct (pstep st t) as [st'|] eqn:E; [|discriminate].
    eapply IH; [|exact H]. eapply pstep_insideArray; eassumption.
Qed.

Lemma parse_bracket_array (text : string) (v : JSON) :
  JsString.startsWith "[" text = true -> parse text = Some v ->
  exists elems, v = JArray elems.
Proof.
  unfold JsString.startsWith, parse, lex. intros Hs H.
  destruct text as [|c rest]; [discriminate|].
  cbn [prefix] in Hs.
  revert Hs. destruct (Ascii.ascii_dec "["%char c) as [<- | Hne]; [intros _|intros Hs; discriminate Hs].
  cbn [list_ascii_of_string lexFrom] in H.
  change (step LIdle "["%char) with (Some ([TLBracket], LIdle)) in H.
  cbv beta iota in H.
  destruct (lexFrom LIdle (list_ascii_of_string rest)) as [ts|]; [|discriminate].
  cbn [app run pstep startValue] in H.
  eapply run_insideArray; [|exact H]. reflexivity.
Qed.

End JsonFacts.

(* ================================================================== *)
(** ** The exam-paper service *)

Section ExamPaperFacts.

Import ExamPaperService.

(* ================================================================== *)
(** ** Deleting a question and renumbering the survivors *)

Lemma setQuestionNumber_id n q : Question.id (Question.setQuestionNumber n q) = Question.id q.
Proof. reflexivity. Qed.

Lemma renumber_length i l : List.length (Spec.renumber i l) = List.length l.
Proof. revert i; induction l; intros; simpl; congruence. Qed.

Lemma renumber_ids i l : map Question.id (Spec.renumber i l) = map Question.id l.
Proof. revert i; induction l as [|q l IH]; intros; simpl; [reflexivity|]. now rewrite IH. Qed.

Lemma renumber_numbers i l :
  map Question.questionNumber (Spec.renumber i l)
  = map (fun k => i + Z.of_nat k) (seq 1 (List.length l)).
Proof.
  revert i; induction l as [|q l IH]; intros i; simpl; [reflexivity|].
  f_equal.
  rewrite IH, <- (seq_shift _ 1), map_map. apply map_ext. intros k. lia.
Qed.

Lemma renumber_above i l :
  Forall (fun q => i < Question.questionNumber q) (Spec.renumber i l).
Proof.
  revert i; induction l as [|q l IH]; intros i; simpl; constructor.
  - simpl. lia.
  - eapply Forall_impl; [|apply IH]. simpl. intros; lia.
Qed.

Lemma renumber_strict i l :
  StronglySorted (keyLt Question.questionNumber) (Spec.renumber i l).
Proof.
  revert i; induction l as [|q l IH]; intros i; simpl; constructor.
  - apply IH.
  - eapply Forall_impl; [|apply renumber_above]. unfold keyLt. simpl. intros; lia.
Qed.

(** The loop writes like a map over the table: it distributes over [++]. *)
Lemma renumberTable_app i remaining t1 t2 :
  Spec.renumberTable i remaining (t1 ++ t2)
  = Spec.renumberTable i remaining t1 ++ Spec.renumberTable i remaining t2.
Proof.
  revert i t1 t2; induction remaining as [|q rest IH]; intros; simpl; [reflexivity|].
  rewrite updateById_app. apply IH.
Qed.

Lemma renumberTable_untouched i remaining table :
  (forall r, In r table -> ~ In (Question.id r) (map Question.id remaining)) ->
  Spec.renumberTable i remaining table = table.
Proof.
  revert i table; induction remaining as [|q rest IH]; intros i table H; simpl; [reflexivity|].
  rewrite updateById_absent.
  - apply IH. intros r Hr Hin. apply (H r Hr). right. exact Hin.
  - intros Hin. apply in_map_iff in Hin. destruct Hin as [r [Hk Hr]].
    apply (H r Hr). left. symmetry. exact Hk.
Qed.

Lemma renumberTable_filter i remaining (p : Question.t -> bool) table :
  (forall n r, p (Question.setQuestionNumber n r) = p r) ->
  filter p (Spec.renumberTable i remaining table)
  = Spec.renumberTable i remaining (filter p table).
Proof.
  intros Hp. revert i table; induction remaining as [|q rest IH]; intros; simpl; [reflexivity|].
  rewrite IH, updateById_filter; [reflexivity|]. intros; apply Hp.
Qed.

Lemma renumberTable_keys i remaining table :
  map Question.id (Spec.renumberTable i remaining table) = map Question.id table.
Proof.
  revert i table; induction remaining as [|q rest IH]; intros; simpl; [reflexivity|].
  rewrite IH. apply updateById_keys. reflexivity.
Qed.

(** When the rows to renumber are exactly the rows of the table, in any
    order, the table ends up holding the renumbered rows. *)
Lemma renumberTable_permutation remaining :
  forall i table,
    NoDup (map Question.id table) -> Permutation remaining table ->
    Permutation (Spec.renumberTable i remaining table) (Spec.renumber i remaining).
Proof.
  induction remaining as [|q rest IH]; intros i table Hd HP; simpl.
  - apply Permutation_nil in HP. subst. constructor.
  - assert (Hin : In q table) by (eapply Permutation_in; [exact HP | left; reflexivity]).
    apply in_split in Hin. destruct Hin as [t1 [t2 ->]].
    apply Permutation_cons_app_inv in HP.
    rewrite map_app in Hd. simpl in Hd.
    pose proof (NoDup_remove_1 _ _ _ Hd) as Hd'.
    pose proof (NoDup_remove_2 _ _ _ Hd) as Hq.
    rewrite <- map_app in Hd', Hq.
    assert (Hrest : ~ In (Question.id q) (map Question.id rest)).
    { intros H. apply Hq. eapply Permutation_in; [|exact H].
      apply Permutation_map, HP. }
    rewrite updateById_app. simpl. rewrite Z.eqb_refl.
    rewrite !updateById_absent.
    2:{ intros H. apply Hq. rewrite map_app. apply in_or_app. right. exact H. }
    2:{ intros H. apply Hq. rewrite map_app. apply in_or_app. left. exact H. }
    change (t1 ++ Question.setQuestionNumber (i + 1) q :: t2)
      with (t1 ++ [Question.setQuestionNumber (i + 1) q] ++ t2).
    rewrite !renumberTable_app.
    rewrite (renumberTable_untouched (i + 1) rest [_]).
    2:{ intros r [<- | []]. exact Hrest. }
    simpl. apply Permutation_sym, Permutation_cons_app, Permutation_sym.
    rewrite <- renumberTable_app. apply IH; assumption.
Qed.

(** The loop finds every row it updates and so never throws. *)
Lemma renumberFrom_run remaining :
  forall i st,
    incl (map Question.id remaining) (map Question.id (question st)) ->
    renumberFrom i remaining st
    = (Ok tt, setQuestion (Spec.renumberTable i remaining (question st)) st).
Proof.
  induction remaining as [|q rest IH]; intros i st Hincl; simpl.
  - unfold ret. destruct st; reflexivity.
  - unfold bind, question_update.
    destruct (findById_of_key Question.id (Question.id q) (question st)) as [r Hr].
    { apply Hincl. left. reflexivity. }
    rewrite Hr. rewrite IH.
    + reflexivity.
    + simpl. rewrite updateById_keys by reflexivity.
      intros k Hk. apply Hincl. right. exact Hk.
Qed.

Lemma find_of_In {A} (p : A -> bool) (l : list A) (x : A) :
  In x l -> p x = true -> exists y, find p l = Some y.
Proof.
  intros Hin Hp. destruct (find p l) eqn:E; [eauto|].
  pose proof (find_none _ _ E x Hin). congruence.
Qed.

Lemma questionsOf_In examPaperId st q :
  In q (questionsOf examPaperId st) <->
  In q (question st) /\ Question.assessmentId q = examPaperId.
Proof.
  unfold questionsOf. split.
  - intros H. eapply Permutation_in in H; [|apply sortBy_permutation].
    apply filter_In in H. destruct H as [H1 H2]. apply Z.eqb_eq in H2. tauto.
  - intros [H1 H2]. eapply Permutation_in; [apply Permutation_sym, sortBy_permutation|].
    apply filter_In. split; [exact H1 | apply Z.eqb_eq, H2].
Qed.

(** The state after the transaction of [deleteQuestionById]. *)
Lemma questionsOf_after_renumbering examPaperId questionId st :
  NoDup (map Question.id (question st)) ->
  let survivors :=
    filter (fun x => negb (Question.id x =? questionId)) (questionsOf examPaperId st) in
  questionsOf examPaperId
    (setQuestion
       (Spec.renumberTable 0 (sortBy Question.questionNumber survivors)
          (deleteById Question.id questionId (question st))) st)
  = Spec.renumber 0 survivors.
Proof.
  intros Hd survivors.
  assert (Hsorted : sortBy Question.questionNumber survivors = survivors).
  { apply sortBy_of_sorted. apply filter_sorted. apply sortBy_sorted. }
  rewrite Hsorted. unfold questionsOf at 1. simpl.
  rewrite renumberTable_filter by reflexivity.
  apply (sorted_strict_unique Question.questionNumber).
  - apply sortBy_sorted.
  - apply renumber_strict.
  - eapply perm_trans; [apply sortBy_permutation|].
    apply renumberTable_permutation.
    + apply NoDup_keys_filter. unfold deleteById. apply NoDup_keys_filter. exact Hd.
    + unfold survivors, questionsOf, deleteById.
      rewrite filter_comm. apply filter_permutation, sortBy_permutation.
Qed.

Lemma renumberTable_owners i remaining table :
  map Question.assessmentId (Spec.renumberTable i remaining table)
  = map Question.assessmentId table.
Proof.
  revert i table; induction remaining as [|q rest IH]; intros; simpl; [reflexivity|].
  rewrite IH. apply updateById_map. reflexivity.
Qed.

(** The run of a delete whose question is found. *)
Lemma deleteQuestionById_run st questionId examPaperId paper q :
  findById Assessment.id examPaperId (addAssessment st) = Some paper ->
  In q (questionsOf examPaperId st) ->
  Question.id q = questionId ->
  deleteQuestionById questionId examPaperId st
  = (Ok "Question deleted successfully and questions renumbered"%string,
     setQuestion
       (Spec.renumberTable 0
          (sortBy Question.questionNumber
             (filter (fun x => negb (Question.id x =? questionId))
                (questionsOf examPaperId st)))
          (deleteById Question.id questionId (question st))) st).
Proof.
  intros Hpaper Hq Hid.
  pose proof (proj1 (questionsOf_In _ _ _) Hq) as [Hq_table Hq_owner].
  unfold deleteQuestionById, bind, addAssessment_findUnique_questions, gets.
  rewrite Hpaper.
  destruct (find_of_In (fun x => Question.id x =? questionId) _ q Hq) as [y Hy].
  { apply Z.eqb_eq, Hid. }
  rewrite Hy.
  unfold transaction, bind, question_delete.
  destruct (findById_of_key Question.id questionId (question st)) as [r Hr].
  { subst questionId. apply in_map, Hq_table. }
  rewrite Hr. rewrite renumberFrom_run.
  - reflexivity.
  - simpl. intros k Hk. apply in_map_iff in Hk. destruct Hk as [x [<- Hx]].
    eapply Permutation_in in Hx; [|apply sortBy_permutation].
    apply filter_In in Hx. destruct Hx as [Hx Hne].
    apply questionsOf_In in Hx. apply in_map. unfold deleteById.
    apply filter_In. tauto.
Qed.

(** The questions of the other assessments are left as they are. *)
Lemma questionsOf_other_after_renumbering examPaperId questionId other st q :
  NoDup (map Question.id (question st)) ->
  In q (questionsOf examPaperId st) -> Question.id q = questionId ->
  other <> examPaperId ->
  let survivors :=
    filter (fun x => negb (Question.id x =? questionId)) (questionsOf examPaperId st) in
  questionsOf other
    (setQuestion
       (Spec.renumberTable 0 (sortBy Question.questionNumber survivors)
          (deleteById Question.id questionId (question st))) st)
  = questionsOf other st.
Proof.
  intros Hd Hq Hid Hother survivors.
  unfold questionsOf at 1. cbn [question setQuestion]. unfold questionsOf. f_equal.
  rewrite renumberTable_filter by reflexivity.
  assert (Hfilter : filter (fun x => Question.assessmentId x =? other)
                      (deleteById Question.id questionId (question st))
                    = filter (fun x => Question.assessmentId x =? other) (question st)).
  { unfold deleteById. rewrite filter_comm.
    apply (deleteById_absent Question.id). intros Hin.
    apply in_map_iff in Hin. destruct Hin as [r [Hr Hin]].
    apply filter_In in Hin. destruct Hin as [Hin Hown]. apply Z.eqb_eq in Hown.
    apply questionsOf_In in Hq. destruct Hq as [Hq Hqown].
    assert (r = q) by (eapply (unique_row Question.id); eauto; congruence).
    subst r. congruence. }
  rewrite Hfilter. apply renumberTable_untouched.
  intros r Hr Hin. apply filter_In in Hr. destruct Hr as [Hr Hown]. apply Z.eqb_eq in Hown.
  apply in_map_iff in Hin. destruct Hin as [x [Hx Hin]].
  eapply Permutation_in in Hin; [|apply sortBy_permutation].
  apply filter_In in Hin. destruct Hin as [Hin _].
  apply questionsOf_In in Hin. destruct Hin as [Hin Hxown].
  assert (x = r) by (eapply (unique_row Question.id); eauto).
  subst x. congruence.
Qed.

(** The order of the rows of a list, and what sorting does to it. *)

Section Order.

Context {R : Type}.

Lemma before_In (x y : R) (l : list R) : Spec.before x y l -> In x l /\ In y l.
Proof.
  induction l as [|z l IH]; simpl; [tauto|].
  intros [[-> H] | H]; [tauto|]. destruct (IH H). tauto.
Qed.

Lemma filter_before (p : R -> bool) (x y : R) (l : list R) :
  p x = true -> p y = true -> Spec.before x y l -> Spec.before x y (filter p l).
Proof.
  intros Hx Hy. induction l as [|z l IH]; simpl; [tauto|].
  intros [[-> H] | H].
  - rewrite Hx. simpl. left. split; [reflexivity|]. apply filter_In. tauto.
  - destruct (p z); simpl; [right|]; apply IH, H.
Qed.

End Order.

Section Stability.

Context {R : Type} (key : R -> Z).

Lemma insertBy_In (x a : R) (l : list R) : In a (insertBy key x l) <-> a = x \/ In a l.
Proof.
  split; intros H.
  - eapply Permutation_in in H; [|apply insertBy_permutation]. simpl in H.
    destruct H as [<- | H]; auto.
  - eapply Permutation_in; [apply Permutation_sym, insertBy_permutation|].
    simpl. destruct H as [-> | H]; auto.
Qed.

(** Inserting leaves the rows that were there in their order. *)
Lemma insertBy_before_old (x a b : R) (l : list R) :
  Spec.before a b l -> Spec.before a b (insertBy key x l).
Proof.
  induction l as [|z l IH]; simpl; [tauto|].
  destruct (key x <=? key z); simpl; [tauto|].
  intros [[-> H] | H].
  - left. split; [reflexivity|]. apply insertBy_In. tauto.
  - right. apply IH, H.
Qed.

(** The inserted row goes before the rows that are not below it. *)
Lemma insertBy_before_new (x b : R) (l : list R) :
  In b l -> key x <= key b -> Spec.before x b (insertBy key x l).
Proof.
  induction l as [|z l IH]; simpl; [tauto|]. intros Hb Hle.
  destruct (key x <=? key z) eqn:E; simpl.
  - left. tauto.
  - apply Z.leb_gt in E. right. destruct Hb as [-> | Hb]; [lia|]. apply IH; assumption.
Qed.

(** It goes after the rows that are below it. *)
Lemma insertBy_after_lower (x a : R) (l : list R) :
  StronglySorted (keyLe key) l ->
  In a l -> key a < key x -> Spec.before a x (insertBy key x l).
Proof.
  induction 1 as [|z l Hs IH Hall]; simpl; [tauto|]. intros Ha Hlt.
  rewrite Forall_forall in Hall. unfold keyLe in Hall.
  destruct (key x <=? key z) eqn:E; simpl.
  - apply Z.leb_le in E. exfalso. destruct Ha as [-> | Ha]; [lia|].
    specialize (Hall a Ha). lia.
  - destruct Ha as [-> | Ha].
    + left. split; [reflexivity|]. apply insertBy_In. tauto.
    + right. apply IH; assumption.
Qed.

(** Sorting puts a row before every row with a higher key and, being
    stable, before the rows with the same key that came after it. *)
Lemma sortBy_before (l : list R) (x y : R) :
  (key x < key y /\ In x l /\ In y l) \/ (key x = key y /\ Spec.before x y l) ->
  Spec.before x y (sortBy key l).
Proof.
  induction l as [|z l IH]; simpl.
  - intros [(_ & [] & _) | (_ & [])].
  - assert (Hin : forall a, In a l -> In a (sortBy key l))
      by (intros a Ha; eapply Permutation_in;
          [apply Permutation_sym, sortBy_permutation | exact Ha]).
    intros [(Hlt & Hx & Hy) | (Heq & [[-> Hy] | Hb])].
    + destruct Hx as [-> | Hx], Hy as [-> | Hy].
      * lia.
      * apply insertBy_before_new; [apply Hin, Hy | lia].
      * apply insertBy_after_lower; [apply sortBy_sorted | apply Hin, Hx | exact Hlt].
      * apply insertBy_before_old, IH. left. tauto.
    + apply insertBy_before_new; [apply Hin, Hy | lia].
    + apply insertBy_before_old, IH. right. tauto.
Qed.

End Stability.

Section Renumbering.

Lemma renumber_In i l x' :
  In x' (Spec.renumber i l) ->
  exists x, In x l /\ x' = Question.setQuestionNumber (Question.questionNumber x') x.
Proof.
  revert i. induction l as [|z l IH]; intros i; simpl; [tauto|].
  intros [<- | H]; [exists z; auto|].
  destruct (IH _ H) as [x [Hx Hx']]. exists x. auto.
Qed.

(** Renumbering a list gives its rows ascending numbers in list order. *)
Lemma renumber_before (l : list Question.t) :
  NoDup (map Question.id l) ->
  forall i x y x' y',
    Spec.before x y l ->
    In x' (Spec.renumber i l) -> In y' (Spec.renumber i l) ->
    Question.id x' = Question.id x -> Question.id y' = Question.id y ->
    Question.questionNumber x' < Question.questionNumber y'.
Proof.
  induction l as [|z l IH]; intros Hd i x y x' y' Hb Hx' Hy' Hidx Hidy; [destruct Hb|].
  inversion Hd as [|? ? Hn Hd']; subst.
  assert (Hhead : forall q, In q (Spec.renumber (i + 1) l) ->
                            Question.id q <> Question.id z).
  { intros q Hq Heq. apply Hn. rewrite <- Heq, <- (renumber_ids (i + 1) l).
    apply in_map, Hq. }
  assert (Hlater : forall q q0, In q (Spec.renumber i (z :: l)) -> In q0 l ->
                                Question.id q = Question.id q0 ->
                                In q (Spec.renumber (i + 1) l)).
  { intros q q0 Hq Hq0 Heq. simpl in Hq. destruct Hq as [<- | Hq]; [|exact Hq].
    exfalso. apply Hn. simpl in Heq. rewrite Heq. apply in_map, Hq0. }
  simpl in Hb. destruct Hb as [[-> Hy] | Hb].
  - assert (Hy2 : In y' (Spec.renumber (i + 1) l)) by (eapply Hlater; eauto).
    simpl in Hx'. destruct Hx' as [<- | Hx'].
    + pose proof (renumber_above (i + 1) l) as Ha. rewrite Forall_forall in Ha.
      specialize (Ha y' Hy2). simpl. lia.
    + exfalso. apply (Hhead x' Hx'). exact Hidx.
  - destruct (before_In x y l Hb) as [Hx Hy].
    apply (IH Hd' (i + 1) x y x' y' Hb); try assumption.
    + apply (Hlater x' x); assumption.
    + apply (Hlater y' y); assumption.
Qed.

End Renumbering.

(** C1. In a question table whose ids are unique (they are the primary key),
    deleting a question that belongs to an assessment with N questions
    succeeds and leaves that assessment N-1 questions, whose numbers are
    exactly 1, ..., N-1.  They are the survivors, each changed in its number
    only, and numbered in the order of the numbers they had: a survivor that
    had a lower number than another (or the same number and an earlier place
    in the table) has the lower number afterwards.  The ids stay unique and
    the questions of the other assessments are untouched, so the same holds
    for the next delete.  The count, the numbers and the order are stated on
    the rows of the table as well as on the ordered query. *)
Theorem deleteQuestionById_dense_numbering :
  forall (st : Store) (questionId examPaperId : Z) (paper : Assessment.t) (q : Question.t),
    uniqueKeys Question.id (question st) = true ->
    findById Assessment.id examPaperId (addAssessment st) = Some paper ->
    In q (questionsOf examPaperId st) ->
    Question.id q = questionId ->
    let before := questionsOf examPaperId st in
    let survivors := filter (fun x => negb (Question.id x =? questionId)) before in
    let own := fun x => Question.assessmentId x =? examPaperId in
    exists st',
      deleteQuestionById questionId examPaperId st
      = (Ok "Question deleted successfully and questions renumbered"%string, st')
      /\ S (List.length (questionsOf examPaperId st')) = List.length before
      /\ map Question.questionNumber (questionsOf examPaperId st')
         = Spec.oneTo (List.length before - 1)
      /\ questionsOf examPaperId st' = Spec.renumber 0 survivors
      /\ uniqueKeys Question.id (question st') = true
      /\ (forall other, other <> examPaperId -> questionsOf other st' = questionsOf other st)
      /\ S (List.length (filter own (question st'))) = List.length (filter own (question st))
      /\ Permutation (map Question.questionNumber (filter own (question st')))
                     (Spec.oneTo (List.length (filter own (question st)) - 1))
      /\ (forall x',
            In x' (question st') -> Question.assessmentId x' = examPaperId ->
            exists x,
              In x (question st)
              /\ Question.assessmentId x = examPaperId
              /\ Question.id x <> questionId
              /\ x' = Question.setQuestionNumber (Question.questionNumber x') x)
      /\ (forall x y x' y',
            In x (question st) -> In y (question st) ->
            Question.assessmentId x = examPaperId -> Question.assessmentId y = examPaperId ->
            Question.id x <> questionId -> Question.id y <> questionId ->
            In x' (question st') -> In y' (question st') ->
            Question.id x' = Question.id x -> Question.id y' = Question.id y ->
            Spec.precedes (question st) x y ->
            Question.questionNumber x' < Question.questionNumber y').
Proof.
  intros st questionId examPaperId paper q Hu Hpaper Hq Hid before survivors own.
  apply uniqueKeys_NoDup in Hu.
  set (st' := setQuestion
                (Spec.renumberTable 0 (sortBy Question.questionNumber survivors)
                   (deleteById Question.id questionId (question st))) st).
  assert (Hafter : questionsOf examPaperId st' = Spec.renumber 0 survivors)
    by (apply questionsOf_after_renumbering; exact Hu).
  assert (Hlen : S (List.length survivors) = List.length before).
  { subst questionId. apply (deleteById_length Question.id q before); [|exact Hq].
    eapply Permutation_NoDup.
    - apply Permutation_map, Permutation_sym, sortBy_permutation.
    - apply NoDup_keys_filter, Hu. }
  assert (Hu' : NoDup (map Question.id (question st'))).
  { subst st'. cbn [question setQuestion].
    rewrite renumberTable_keys. unfold deleteById. apply NoDup_keys_filter, Hu. }
  assert (Hraw' : Permutation (filter own (question st')) (Spec.renumber 0 survivors)).
  { rewrite <- Hafter. apply Permutation_sym, sortBy_permutation. }
  assert (Hraw : Permutation (filter own (question st)) before)
    by apply Permutation_sym, sortBy_permutation.
  assert (Hsurv : forall x, In x survivors <->
                            In x (question st) /\ Question.assessmentId x = examPaperId
                            /\ Question.id x <> questionId).
  { intros x. unfold survivors. rewrite filter_In. unfold before. rewrite questionsOf_In.
    rewrite negb_true_iff, Z.eqb_neq. tauto. }
  assert (Hsd : NoDup (map Question.id survivors)).
  { unfold survivors. apply NoDup_keys_filter.
    eapply Permutation_NoDup; [apply Permutation_map, Hraw|].
    apply NoDup_keys_filter, Hu. }
  exists st'. repeat match goal with |- _ /\ _ => split end.
  - apply (deleteQuestionById_run st questionId examPaperId paper q); assumption.
  - rewrite Hafter, renumber_length. exact Hlen.
  - rewrite Hafter, renumber_numbers. unfold Spec.oneTo.
    replace (List.length before - 1)%nat with (List.length survivors) by lia.
    apply map_ext. intros k. lia.
  - exact Hafter.
  - apply NoDup_uniqueKeys, Hu'.
  - intros other Hother. subst st'.
    apply (questionsOf_other_after_renumbering examPaperId questionId other st q);
      assumption.
  - rewrite (Permutation_length Hraw'), (Permutation_length Hraw), renumber_length.
    exact Hlen.
  - eapply perm_trans; [apply Permutation_map, Hraw'|].
    rewrite renumber_numbers, (Permutation_length Hraw). unfold Spec.oneTo.
    replace (List.length before - 1)%nat with (List.length survivors) by lia.
    erewrite map_ext; [apply Permutation_refl|]. intros k. cbv beta. lia.
  - intros x' Hx' Hown.
    assert (Hin : In x' (Spec.renumber 0 survivors)).
    { rewrite <- Hafter. apply questionsOf_In. tauto. }
    apply renumber_In in Hin. destruct Hin as [x [Hx Heq]].
    exists x. apply Hsurv in Hx. tauto.
  - intros x y x' y' Hx Hy Hxo Hyo Hxi Hyi Hx' Hy' Hidx Hidy Hprec.
    assert (Hpx : own x = true) by (apply Z.eqb_eq, Hxo).
    assert (Hpy : own y = true) by (apply Z.eqb_eq, Hyo).
    assert (Hb : Spec.before x y survivors).
    { unfold survivors.
      apply filter_before; [apply negb_true_iff, Z.eqb_neq, Hxi
                           | apply negb_true_iff, Z.eqb_neq, Hyi |].
      unfold before, questionsOf. apply sortBy_before.
      destruct Hprec as [Hlt | [Heq Hb]].
      - left. split; [exact Hlt|]. split; apply filter_In; tauto.
      - right. split; [exact Heq|]. apply filter_before; assumption. }
    assert (Hfind : forall z z', In z survivors -> In z' (question st') ->
                                 Question.id z' = Question.id z ->
                                 In z' (Spec.renumber 0 survivors)).
    { intros z z' Hz Hz' Hidz.
      assert (Hk : In (Question.id z) (map Question.id (Spec.renumber 0 survivors)))
        by (rewrite renumber_ids; apply in_map, Hz).
      apply in_map_iff in Hk. destruct Hk as [r [Hr Hrin]].
      assert (Hr' : In r (question st')).
      { rewrite <- Hafter in Hrin. apply questionsOf_In in Hrin. tauto. }
      assert (z' = r) by (apply (unique_row Question.id (question st')); auto; congruence).
      subst z'. exact Hrin. }
    apply (renumber_before survivors Hsd 0 x y x' y' Hb); try assumption.
    + apply (Hfind x); [apply Hsurv; tauto | assumption..].
    + apply (Hfind y); [apply Hsurv; tauto | assumption..].
Qed.

Lemma deleteQuestionById_dense_numbering_witness :
  exists st',
    deleteQuestionById 11 1 Sample.shuffled
    = (Ok "Question deleted successfully and questions renumbered"%string, st')
    /\ S (List.length (questionsOf 1 st')) = 3%nat
    /\ map Question.questionNumber (questionsOf 1 st') = [1; 2]
    /\ questionsOf 1 st' = [Sample.question 12 1 "Q2" "b"; Sample.question 10 2 "Q3" "c"]
    /\ uniqueKeys Question.id (question st') = true
    /\ (forall other, other <> 1 -> questionsOf other st' = questionsOf other Sample.shuffled)
    /\ S (List.length (filter (fun x => Question.assessmentId x =? 1) (question st'))) = 3%nat
    /\ Permutation
         (map Question.questionNumber
            (filter (fun x => Question.assessmentId x =? 1) (question st')))
         [1; 2]
    /\ (forall x',
          In x' (question st') -> Question.assessmentId x' = 1 ->
          exists x,
            In x (question Sample.shuffled)
            /\ Question.assessmentId x = 1
            /\ Question.id x <> 11
            /\ x' = Question.setQuestionNumber (Question.questionNumber x') x)
    /\ (forall x y x' y',
          In x (question Sample.shuffled) -> In y (question Sample.shuffled) ->
          Question.assessmentId x = 1 -> Question.assessmentId y = 1 ->
          Question.id x <> 11 -> Question.id y <> 11 ->
          In x' (question st') -> In y' (question st') ->
          Question.id x' = Question.id x -> Question.id y' = Question.id y ->
          Spec.precedes (question Sample.shuffled) x y ->
          Question.questionNumber x' < Question.questionNumber y').
Proof.
  apply (deleteQuestionById_dense_numbering Sample.shuffled 11 1 (Sample.paper true)
           (Sample.question 11 1 "Q1" "a")).
  - reflexivity.
  - reflexivity.
  - vm_compute. tauto.
  - reflexivity.
Defined.

(* ================================================================== *)
(** ** Uploading an exam paper *)

Lemma orStr_present (s : string) : Js.orStr (Some s) EmptyString = s.
Proof.
  simpl. destruct (String.eqb s EmptyString) eqn:E; [|reflexivity].
  apply String.eqb_eq in E. congruence.
Qed.

Lemma createQuestions_run (parsed : list Csv.Parsed) :
  forall index examPaperId st,
    createQuestions index examPaperId parsed st
    = (Ok (Spec.createdRows (questionSeq st) index examPaperId parsed),
       mkStore (addAssessment st)
               (question st ++ Spec.createdRows (questionSeq st) index examPaperId parsed)
               (addAssessmentSeq st)
               (questionSeq st + Z.of_nat (List.length parsed))).
Proof.
  induction parsed as [|p rest IH]; intros index examPaperId st.
  - simpl. unfold ret. rewrite app_nil_r, Z.add_0_r. destruct st; reflexivity.
  - cbn [createQuestions]. unfold bind at 1. unfold question_create at 1.
    unfold bind at 1. rewrite IH. unfold ret. cbn [Spec.createdRows List.length
      addAssessment question addAssessmentSeq questionSeq].
    rewrite orStr_present, <- app_assoc.
    replace (questionSeq st + Z.of_nat (S (List.length rest)))
      with (questionSeq st + 1 + Z.of_nat (List.length rest)) by lia.
    reflexivity.
Qed.


Lemma createdRows_numbers parsed :
  forall seq index owner,
    map Question.questionNumber (Spec.createdRows seq index owner parsed)
    = map (fun k => index + Z.of_nat k) (List.seq 1 (List.length parsed)).
Proof.
  induction parsed as [|p rest IH]; intros; simpl; [reflexivity|].
  f_equal. rewrite IH, <- (seq_shift _ 1), map_map. apply map_ext. intros k. lia.
Qed.

Lemma createdRows_contents parsed :
  forall seq index owner,
    map (fun q => (Question.content q, Question.answer q, Question.options q))
        (Spec.createdRows seq index owner parsed)
    = map (fun p => (Csv.content p, Csv.answer p, Csv.options p)) parsed.
Proof. induction parsed as [|p rest IH]; intros; simpl; [reflexivity|]. now rewrite IH. Qed.

Lemma createdRows_owner parsed :
  forall seq index owner,
    Forall (fun q => Question.assessmentId q = owner) (Spec.createdRows seq index owner parsed).
Proof. induction parsed; intros; simpl; constructor; auto. Qed.

Lemma createdRows_above parsed :
  forall seq index owner,
    Forall (fun q => index < Question.questionNumber q)
           (Spec.createdRows seq index owner parsed).
Proof.
  induction parsed as [|p rest IH]; intros; simpl; constructor.
  - simpl. lia.
  - eapply Forall_impl; [|apply IH]. simpl. intros; lia.
Qed.

Lemma createdRows_sorted parsed :
  forall seq index owner,
    StronglySorted (keyLe Question.questionNumber) (Spec.createdRows seq index owner parsed).
Proof.
  induction parsed as [|p rest IH]; intros; simpl; constructor.
  - apply IH.
  - eapply Forall_impl; [|apply createdRows_above]. unfold keyLe. simpl. intros; lia.
Qed.

Lemma filter_all {A} (p : A -> bool) (l : list A) :
  Forall (fun x => p x = true) l -> filter p l = l.
Proof. induction 1 as [|x l Hx _ IH]; simpl; [reflexivity|]. now rewrite Hx, IH. Qed.

Lemma filter_none {A} (p : A -> bool) (l : list A) :
  Forall (fun x => p x = false) l -> filter p l = [].
Proof. induction 1 as [|x l Hx _ IH]; simpl; [reflexivity|]. now rewrite Hx, IH. Qed.

(** In a consistent store no question refers to the next assessment id, and
    no assessment carries it. *)
Lemma consistent_fresh_owner st :
  Spec.consistent st = true ->
  Forall (fun q => (Question.assessmentId q =? addAssessmentSeq st) = false) (question st).
Proof.
  unfold Spec.consistent. intros H.
  repeat (apply andb_true_iff in H; destruct H as [H ?]).
  rewrite forallb_forall in *. apply Forall_forall. intros q Hq.
  apply Z.eqb_neq. intros Heq.
  match goal with Hfk : forall x, In x (question st) -> existsb _ _ = true |- _ =>
    specialize (Hfk q Hq); apply existsb_exists in Hfk; destruct Hfk as [a [Ha Hid]] end.
  match goal with Hlt : forall x, In x (addAssessment st) -> (_ <? _) = true |- _ =>
    specialize (Hlt a Ha); apply Z.ltb_lt in Hlt end.
  apply Z.eqb_eq in Hid. lia.
Qed.

Lemma consistent_fresh_assessment st (a : Assessment.t) :
  Spec.consistent st = true -> Assessment.id a = addAssessmentSeq st ->
  findById Assessment.id (addAssessmentSeq st) (addAssessment st ++ [a]) = Some a.
Proof.
  unfold Spec.consistent. intros H Hid.
  repeat (apply andb_true_iff in H; destruct H as [H ?]).
  match goal with Hlt : forallb (fun a => Assessment.id a <? _) _ = true |- _ =>
    rename Hlt into Hb end.
  rewrite forallb_forall in Hb. unfold findById.
  revert Hb. generalize (addAssessment st) as l.
  induction l as [|x l IH]; intros Hb; simpl.
  - rewrite Hid, Z.eqb_refl. reflexivity.
  - pose proof (Hb x (or_introl eq_refl)) as Hx. apply Z.ltb_lt in Hx.
    destruct (Assessment.id x =? addAssessmentSeq st) eqn:E.
    + apply Z.eqb_eq in E. lia.
    + apply IH. intros y Hy. apply Hb. right. exact Hy.
Qed.

Section UploadFacts.

Variable fs : string -> Csv.Stream.
Variable setTimeOfDay : Moment.DateTime -> list string -> option Moment.DateTime.

(** What a successful upload went through and what it left behind. *)
Lemma uploadExamPaper_success file dto st resp st' :
  uploadExamPaper fs setTimeOfDay file dto st = (Ok resp, st') ->
  exists f rows scheduledDate startTime endTime,
    file = Some f
    /\ JsString.endsWith ".csv" (Csv.originalname f) = true
    /\ fs (Csv.path f) = Csv.End_ rows
    /\ parseRows rows <> []
    /\ Moment.parseStrict (UploadExamPaperDto.scheduledDate dto) = Some scheduledDate
    /\ st' = Spec.uploaded st
               (Spec.createdAssessment (addAssessmentSeq st) dto scheduledDate startTime endTime)
               (parseRows rows)
    /\ findById Assessment.id (addAssessmentSeq st) (addAssessment st') = Some (examPaper resp)
    /\ questions resp = questionsOf (addAssessmentSeq st) st'.
Proof.
  unfold uploadExamPaper. intros H.
  destruct file as [f|]; [|discriminate].
  destruct (JsString.endsWith ".csv" (Csv.originalname f)) eqn:Ecsv; [|discriminate].
  cbn [negb] in H.
  unfold bind at 1 in H. unfold parseCsv in H.
  destruct (fs (Csv.path f)) as [rows | rows msg | rows] eqn:Efs; [|discriminate..].
  unfold ret at 1 in H.
  destruct (List.length (parseRows rows) =? 0)%nat eqn:Elen; [discriminate|].
  destruct (Moment.parseStrict (UploadExamPaperDto.scheduledDate dto)) as [sd|] eqn:Edate;
    [|discriminate].
  cbv zeta in H.
  match type of H with (if ?c then _ else _) _ = _ => destruct c; [discriminate|] end.
  destruct (setTimeOfDay sd (JsString.split ":" (UploadExamPaperDto.startTime dto)))
    as [t1|]; [|discriminate].
  destruct (setTimeOfDay sd (JsString.split ":" (UploadExamPaperDto.endTime dto)))
    as [t2|]; [|discriminate].
  unfold transaction in H. unfold bind at 1 in H. unfold addAssessment_create in H.
  unfold bind at 1 in H. rewrite createQuestions_run in H.
  unfold bind, addAssessment_findUnique_questions, gets in H.
  cbn [Assessment.id addAssessment question addAssessmentSeq questionSeq] in H.
  fold (Spec.createdAssessment (addAssessmentSeq st) dto sd t1 t2) in H.
  fold (Spec.uploaded st (Spec.createdAssessment (addAssessmentSeq st) dto sd t1 t2)
          (parseRows rows)) in H.
  destruct (findById Assessment.id (addAssessmentSeq st)
              (addAssessment st ++ [Spec.createdAssessment (addAssessmentSeq st) dto sd t1 t2]))
    as [complete|] eqn:Efind; [|discriminate].
  unfold ret in H. inversion H; subst. clear H.
  exists f, rows, sd, t1, t2. repeat split; try assumption; try reflexivity.
  apply Nat.eqb_neq in Elen. intros Hnil. rewrite Hnil in Elen. apply Elen. reflexivity.
Qed.

End UploadFacts.

Section StringMore.

Lemma endsWith_suffix (p s : string) :
  JsString.endsWith p s = true <-> exists pre, s = (pre ++ p)%string.
Proof.
  split.
  - induction s as [|c s IH]; simpl; intros H.
    + apply orb_true_iff in H. destruct H as [H | H]; [|discriminate].
      apply String.eqb_eq in H. subst p. exists EmptyString. reflexivity.
    + apply orb_true_iff in H. destruct H as [H | H].
      * apply String.eqb_eq in H. subst p. exists EmptyString. reflexivity.
      * destruct (IH H) as [pre ->]. exists (String c pre). reflexivity.
  - intros [pre ->]. induction pre as [|c pre IH].
    + simpl. destruct p; simpl; rewrite ?String.eqb_refl, ?Ascii.eqb_refl; reflexivity.
    + cbn [append JsString.endsWith]. rewrite IH. apply orb_true_r.
Qed.

Lemma split_length (sep : ascii) (s : string) :
  List.length (JsString.split sep s) = S (JsString.occurrences sep s).
Proof.
  induction s as [|c s IH]; simpl; [reflexivity|].
  destruct (Ascii.eqb c sep); simpl; [now rewrite IH|].
  destruct (JsString.split sep s); simpl in *; [discriminate | exact IH].
Qed.

End StringMore.

(* ================================================================== *)
(** ** The CSV repair *)

Lemma append_empty_r (s : string) : (s ++ EmptyString)%string = s.
Proof. induction s as [|c s IH]; simpl; [reflexivity | now rewrite IH]. Qed.

Lemma append_assoc (a b c : string) : ((a ++ b) ++ c)%string = (a ++ (b ++ c))%string.
Proof. induction a as [|x a IH]; simpl; [reflexivity | now rewrite IH]. Qed.

(** Joining with the empty separator is plain concatenation. *)
Lemma join_cons (s : string) (l : list string) :
  JsString.join (s :: l) = (s ++ JsString.join l)%string.
Proof.
  unfold JsString.join. destruct l as [|t l]; simpl; [now rewrite append_empty_r | reflexivity].
Qed.

(** Dropping the falsy cells does not change the concatenation. *)
Lemma join_truthy (cells : list (option string)) :
  JsString.join (map text (filter Js.truthyStr cells)) = JsString.join (map text cells).
Proof.
  induction cells as [|o cells IH]; [reflexivity|].
  cbn [filter map]. destruct o as [s|]; cbn [Js.truthyStr].
  - destruct (String.eqb s EmptyString) eqn:E; cbn [negb map].
    + apply String.eqb_eq in E. subst s. rewrite join_cons, IH. reflexivity.
    + rewrite !join_cons, IH. reflexivity.
  - cbn [map text]. rewrite join_cons, IH. reflexivity.
Qed.

Lemma text_prop data name : text (Csv.prop data name) = Spec.cell data name.
Proof. reflexivity. Qed.

Lemma joined_fields data :
  JsString.join (map text (filter Js.truthyStr (map (Csv.prop data) optionFields)))
  = Spec.concatenated data.
Proof.
  rewrite join_truthy. unfold optionFields. cbn [map].
  rewrite !join_cons, !text_prop. unfold Spec.concatenated.
  unfold JsString.join. cbn [String.concat]. rewrite append_empty_r. reflexivity.
Qed.

Lemma endsWith_after_bracket (s : string) :
  JsString.endsWith "]" ("[" ++ s) = JsString.endsWith "]" s.
Proof. reflexivity. Qed.

Lemma startsWith_append (s t : string) :
  JsString.startsWith "[" s = true -> JsString.startsWith "[" (s ++ t) = true.
Proof.
  unfold JsString.startsWith. destruct s as [|c s]; [discriminate|].
  cbn [prefix append]. destruct (ascii_dec "["%char c); [|discriminate].
  destruct s, t; reflexivity.
Qed.

(** The repaired text of the code is the one the specification describes,
    and it opens with a bracket. *)
Lemma combinedOptions_repaired data : combinedOptions data = Spec.repaired data.
Proof.
  unfold combinedOptions, Spec.repaired, Spec.cleaned. rewrite joined_fields.
  set (s := JsString.trim _).
  destruct (JsString.startsWith "[" s) eqn:Es; cbn [negb].
  - destruct (JsString.endsWith "]" s) eqn:Ee; cbn [negb]; simpl.
    + now rewrite append_empty_r.
    + reflexivity.
  - rewrite endsWith_after_bracket.
    destruct (JsString.endsWith "]" s) eqn:Ee; cbn [negb]; simpl.
    + now rewrite append_empty_r.
    + reflexivity.
Qed.

Lemma repaired_opens data : JsString.startsWith "[" (Spec.repaired data) = true.
Proof.
  unfold Spec.repaired. set (s := Spec.cleaned data).
  destruct (JsString.startsWith "[" s) eqn:Es.
  - simpl. apply startsWith_append. exact Es.
  - unfold JsString.startsWith. cbn [append prefix].
    destruct (ascii_dec "["%char "["%char); [|congruence].
    destruct (s ++ _)%string; reflexivity.
Qed.

Lemma repaired_closes data : JsString.endsWith "]" (Spec.repaired data) = true.
Proof.
  assert (Hclose : forall s, JsString.endsWith "]" (s ++ "]") = true).
  { induction s as [|c s IH]; [reflexivity|].
    cbn [append JsString.endsWith]. rewrite IH. apply orb_true_r. }
  assert (Hpre : forall c s, JsString.endsWith "]" s = true ->
                             JsString.endsWith "]" (String c s) = true).
  { intros c s H. cbn [JsString.endsWith]. rewrite H. apply orb_true_r. }
  unfold Spec.repaired. set (s := Spec.cleaned data).
  destruct (JsString.endsWith "]" s) eqn:Ee, (JsString.startsWith "[" s);
    cbn [append]; rewrite ?append_empty_r.
  - exact Ee.
  - apply Hpre, Ee.
  - apply Hclose.
  - apply Hpre, Hclose.
Qed.

Lemma orStr_cell data name : Js.orStr (Csv.prop data name) EmptyString = Spec.cell data name.
Proof.
  unfold Js.orStr, Spec.cell. destruct (Csv.prop data name) as [s|]; [|reflexivity].
  destruct (String.eqb s EmptyString) eqn:E; [|reflexivity].
  apply String.eqb_eq in E. congruence.
Qed.

Lemma removeAll_absent c s :
  forall d, In d (list_ascii_of_string (JsString.removeAll c s)) -> d <> c.
Proof.
  induction s as [|x s IH]; simpl; intros d H; [tauto|].
  destruct (Ascii.eqb_spec x c).
  - apply IH, H.
  - destruct H as [<- | H]; [assumption | apply IH, H].
Qed.


Lemma trimStart_chars s c :
  In c (list_ascii_of_string (JsString.trimStart s)) -> In c (list_ascii_of_string s).
Proof.
  induction s as [|x s IH]; simpl; [tauto|].
  destruct (JsString.isWhiteSpace x); simpl; auto.
Qed.

Lemma trimEnd_chars s c :
  In c (list_ascii_of_string (JsString.trimEnd s)) -> In c (list_ascii_of_string s).
Proof.
  induction s as [|x s IH]; simpl; [tauto|].
  destruct (JsString.trimEnd s) as [|y t].
  - destruct (JsString.isWhiteSpace x); simpl; tauto.
  - simpl in *. tauto.
Qed.

Lemma append_chars a b c :
  In c (list_ascii_of_string (a ++ b)) ->
  In c (list_ascii_of_string a) \/ In c (list_ascii_of_string b).
Proof. induction a as [|x a IH]; simpl; tauto. Qed.

(** No backslash reaches JSON.parse: the escape sequences of JSON strings,
    and with them the code units above 0xFF, cannot occur in a row's text. *)
Lemma repaired_no_backslash data c :
  In c (list_ascii_of_string (Spec.repaired data)) -> c <> JsString.backslash.
Proof.
  unfold Spec.repaired. intros H.
  apply append_chars in H. destruct H as [H | H].
  { destruct (JsString.startsWith "[" (Spec.cleaned data)); simpl in H;
      [tauto | destruct H as [<- | []]; discriminate]. }
  apply append_chars in H. destruct H as [H | H].
  - unfold Spec.cleaned, JsString.trim in H.
    apply trimEnd_chars, trimStart_chars in H.
    eapply removeAll_absent; exact H.
  - destruct (JsString.endsWith "]" (Spec.cleaned data)); simpl in H;
      [tauto | destruct H as [<- | []]; discriminate].
Qed.

(** The rows of the sample file: the second one is skipped. *)
Example parseRows_sample :
  parseRows Sample.rows
  = [Csv.mkParsed (Some "Q1"%string) EmptyString
       (Json.JArray [Json.JString "A"; Json.JString "B"]);
     Csv.mkParsed (Some "Q2"%string) "C" (Json.JArray [Json.JString "C"])].
Proof. reflexivity. Qed.

(** JSON.parse does not look at the type of the elements: a row whose
    options cell is 1,2 yields an array of numbers. *)
Example parseRows_numeric_options :
  combinedOptions Sample.numericRow = "[1,2]"%string
  /\ parseRows [Sample.numericRow]
     = [Csv.mkParsed (Some "Q"%string) EmptyString
          (Json.JArray [Json.JNumber "1"; Json.JNumber "2"])].
Proof. split; reflexivity. Qed.

(** *** The steps of the repair meet their descriptions *)

Lemma isWhiteSpace_spec (c : ascii) : JsString.isWhiteSpace c = true <-> Spec.whiteSpace c.
Proof.
  unfold JsString.isWhiteSpace, Spec.whiteSpace, JsString.code. cbn [In].
  generalize (nat_of_ascii c) as n. intros n.
  rewrite !orb_true_iff, andb_true_iff, !Nat.leb_le, !Nat.eqb_eq. lia.
Qed.

Lemma not_whiteSpace (c : ascii) : JsString.isWhiteSpace c = false <-> ~ Spec.whiteSpace c.
Proof.
  rewrite <- isWhiteSpace_spec. destruct (JsString.isWhiteSpace c); split; congruence.
Qed.

Lemma backslash_code (c : ascii) :
  Ascii.eqb c JsString.backslash = (nat_of_ascii c =? 92)%nat.
Proof. destruct c as [[] [] [] [] [] [] [] []]; reflexivity. Qed.

Lemma removeAll_stripped (s : string) :
  Spec.stripped s (JsString.removeAll JsString.backslash s).
Proof.
  unfold Spec.stripped, Spec.chars. induction s as [|c s IH]; [reflexivity|].
  cbn [JsString.removeAll list_ascii_of_string filter]. rewrite backslash_code.
  destruct (nat_of_ascii c =? 92)%nat; cbn [negb list_ascii_of_string]; now rewrite IH.
Qed.

Lemma trimStart_split (s : string) :
  exists pre,
    s = (pre ++ JsString.trimStart s)%string
    /\ Forall Spec.whiteSpace (Spec.chars pre)
    /\ (forall c r, JsString.trimStart s = String c r -> ~ Spec.whiteSpace c).
Proof.
  induction s as [|c s (pre & Hs & Hpre & Hfirst)].
  - exists EmptyString. repeat split; [constructor | discriminate].
  - cbn [JsString.trimStart]. destruct (JsString.isWhiteSpace c) eqn:E.
    + exists (String c pre). split; [cbn [append]; congruence|]. split; [|exact Hfirst].
      constructor; [apply isWhiteSpace_spec, E | exact Hpre].
    + exists EmptyString. split; [reflexivity|]. split; [constructor|].
      intros c' r H. injection H as <- _. apply not_whiteSpace, E.
Qed.

Lemma trimEnd_split (s : string) :
  exists suf,
    s = (JsString.trimEnd s ++ suf)%string
    /\ Forall Spec.whiteSpace (Spec.chars suf)
    /\ (forall r c, JsString.trimEnd s = (r ++ String c EmptyString)%string ->
                    ~ Spec.whiteSpace c).
Proof.
  induction s as [|c s (suf & Hs & Hsuf & Hlast)].
  - exists EmptyString. repeat split; [constructor|]. intros [|? ?] ? H; discriminate H.
  - cbn [JsString.trimEnd]. destruct (JsString.trimEnd s) as [|y t] eqn:Et.
    + cbn [append] in Hs. subst suf.
      destruct (JsString.isWhiteSpace c) eqn:E.
      * exists (String c s). split; [reflexivity|]. split.
        -- constructor; [apply isWhiteSpace_spec, E | exact Hsuf].
        -- intros [|? ?] ? H; discriminate H.
      * exists s. split; [reflexivity|]. split; [exact Hsuf|].
        intros [|x r] c' H; cbn [append] in H.
        -- injection H as <-. apply not_whiteSpace, E.
        -- injection H as _ H. destruct r; discriminate H.
    + exists suf. split; [change (String c s = String c (String y t ++ suf)%string); congruence|].
      split; [exact Hsuf|].
      intros [|x r] c' H; cbn [append] in H; [discriminate H|].
      injection H as _ H. apply (Hlast r c'). exact H.
Qed.

(** [trim] does what trimming asks for. *)
Lemma trim_trimmed (s : string) : Spec.trimmed s (JsString.trim s).
Proof.
  unfold JsString.trim.
  destruct (trimStart_split s) as (pre & Hs & Hpre & Hfirst).
  destruct (trimEnd_split (JsString.trimStart s)) as (suf & Ht & Hsuf & Hlast).
  exists pre, suf. split; [congruence|]. split; [exact Hpre|]. split; [exact Hsuf|].
  split; [|exact Hlast].
  intros c r H. apply (Hfirst c (r ++ suf)%string). rewrite Ht, H. reflexivity.
Qed.

Lemma trimStart_spaces (s : string) :
  Forall Spec.whiteSpace (Spec.chars s) -> JsString.trimStart s = EmptyString.
Proof.
  unfold Spec.chars. induction s as [|c s IH]; [reflexivity|].
  cbn [list_ascii_of_string JsString.trimStart]. intros H. inversion H; subst.
  replace (JsString.isWhiteSpace c) with true by (symmetry; now apply isWhiteSpace_spec).
  auto.
Qed.

Lemma trimEnd_spaces (s : string) :
  Forall Spec.whiteSpace (Spec.chars s) -> JsString.trimEnd s = EmptyString.
Proof.
  unfold Spec.chars. induction s as [|c s IH]; [reflexivity|].
  cbn [list_ascii_of_string JsString.trimEnd]. intros H. inversion H; subst.
  rewrite IH by assumption.
  replace (JsString.isWhiteSpace c) with true by (symmetry; now apply isWhiteSpace_spec).
  reflexivity.
Qed.

Lemma trimStart_prefix (pre rest : string) :
  Forall Spec.whiteSpace (Spec.chars pre) ->
  JsString.trimStart (pre ++ rest) = JsString.trimStart rest.
Proof.
  unfold Spec.chars. induction pre as [|c pre IH]; [reflexivity|].
  cbn [list_ascii_of_string append JsString.trimStart]. intros H. inversion H; subst.
  replace (JsString.isWhiteSpace c) with true by (symmetry; now apply isWhiteSpace_spec).
  auto.
Qed.

Lemma trimEnd_suffix (t suf : string) :
  Forall Spec.whiteSpace (Spec.chars suf) ->
  (forall r c, t = (r ++ String c EmptyString)%string -> ~ Spec.whiteSpace c) ->
  JsString.trimEnd (t ++ suf) = t.
Proof.
  intros Hsuf. induction t as [|c t IH]; intros Hlast.
  - apply trimEnd_spaces, Hsuf.
  - cbn [append JsString.trimEnd]. destruct t as [|y t].
    + cbn [append]. rewrite (trimEnd_spaces suf Hsuf).
      replace (JsString.isWhiteSpace c) with false; [reflexivity|].
      symmetry. apply not_whiteSpace. apply (Hlast EmptyString c). reflexivity.
    + rewrite IH; [reflexivity|].
      intros r c' H. apply (Hlast (String c r) c'). cbn [append]. now rewrite H.
Qed.

(** Trimming has one outcome. *)
Lemma trimmed_trim (s t : string) : Spec.trimmed s t -> t = JsString.trim s.
Proof.
  intros (pre & suf & -> & Hpre & Hsuf & Hfirst & Hlast).
  unfold JsString.trim. rewrite trimStart_prefix by exact Hpre.
  destruct t as [|c t].
  - cbn [append]. rewrite (trimStart_spaces suf Hsuf). reflexivity.
  - cbn [append JsString.trimStart].
    replace (JsString.isWhiteSpace c) with false
      by (symmetry; apply not_whiteSpace, (Hfirst c t); reflexivity).
    symmetry. apply (trimEnd_suffix (String c t) suf Hsuf Hlast).
Qed.

Lemma stripped_removeAll (s t : string) :
  Spec.stripped s t -> t = JsString.removeAll JsString.backslash s.
Proof.
  intros H. pose proof (removeAll_stripped s) as H'. unfold Spec.stripped, Spec.chars in *.
  rewrite <- (string_of_list_ascii_of_string t), H, <- H'.
  apply string_of_list_ascii_of_string.
Qed.

Lemma startsWith_opens (s : string) : JsString.startsWith "[" s = true <-> Spec.opens s.
Proof.
  unfold JsString.startsWith, Spec.opens. destruct s as [|c s]; cbn [prefix].
  - split; [discriminate | intros [r H]; discriminate H].
  - destruct (ascii_dec "["%char c) as [<- | Hne].
    + split; [eauto|]. intros _. destruct s; reflexivity.
    + split; [discriminate|]. intros [r H]. injection H as H _. congruence.
Qed.

Lemma endsWith_closes (s : string) : JsString.endsWith "]" s = true <-> Spec.closes s.
Proof. apply endsWith_suffix. Qed.

Lemma repaired_bracketed (data : Csv.Row) :
  Spec.bracketed (Spec.cleaned data) (Spec.repaired data).
Proof.
  unfold Spec.repaired, Spec.bracketed. set (t := Spec.cleaned data).
  exists (if JsString.startsWith "[" t then EmptyString else "["%string),
    (if JsString.endsWith "]" t then EmptyString else "]"%string).
  split; [reflexivity|]. split.
  - destruct (JsString.startsWith "[" t) eqn:E.
    + left. split; [apply startsWith_opens, E | reflexivity].
    + right. split; [|reflexivity]. intros H. apply startsWith_opens in H. congruence.
  - destruct (JsString.endsWith "]" t) eqn:E.
    + left. split; [apply endsWith_closes, E | reflexivity].
    + right. split; [|reflexivity]. intros H. apply endsWith_closes in H. congruence.
Qed.

Lemma bracketed_unique (t u u' : string) :
  Spec.bracketed t u -> Spec.bracketed t u' -> u = u'.
Proof.
  intros (l & r & -> & Hl & Hr) (l' & r' & -> & Hl' & Hr').
  assert (l = l') by (destruct Hl as [[? ->] | [? ->]], Hl' as [[? ->] | [? ->]]; tauto).
  assert (r = r') by (destruct Hr as [[? ->] | [? ->]], Hr' as [[? ->] | [? ->]]; tauto).
  congruence.
Qed.

(** C3, as the code has it. For every CSV row the text handed to
    JSON.parse is the one, and the only one, that the recipe describes: the
    option-bearing cells written out in their fixed order (an absent or
    empty cell adding nothing), without the backslashes, without the white
    space at the two ends, and with a bracket added on each side that lacks
    one.  When that text parses, the handler pushes the record with the
    row's content, its answer (empty when absent) and the parsed value,
    which is always an array; its elements are whatever JSON values the text
    holds, strings or not.  When it does not parse, the results stay as they
    are. *)
Theorem onData_follows_repair_recipe :
  forall (results : list Csv.Parsed) (data : Csv.Row),
    (exists s t,
        Spec.stripped (Spec.concatenated data) s
        /\ Spec.trimmed s t
        /\ Spec.bracketed t (combinedOptions data))
    /\ (forall s t u,
          Spec.stripped (Spec.concatenated data) s ->
          Spec.trimmed s t ->
          Spec.bracketed t u ->
          u = combinedOptions data)
    /\ onData results data
       = match Json.parse (combinedOptions data) with
         | Some options =>
             results ++ [Csv.mkParsed (Csv.prop data "content") (Spec.cell data "answer")
                           options]
         | None => results
         end
    /\ (forall options,
          Json.parse (combinedOptions data) = Some options ->
          exists elems, options = Json.JArray elems).
Proof.
  intros results data.
  assert (Hrecipe : Spec.bracketed (Spec.cleaned data) (combinedOptions data))
    by (rewrite combinedOptions_repaired; apply repaired_bracketed).
  split; [|split; [|split]].
  - exists (JsString.removeAll JsString.backslash (Spec.concatenated data)),
      (Spec.cleaned data).
    split; [apply removeAll_stripped|]. split; [apply trim_trimmed | exact Hrecipe].
  - intros s t u Hs Ht Hu. apply stripped_removeAll in Hs. subst s.
    apply trimmed_trim in Ht. subst t. exact (bracketed_unique _ _ _ Hu Hrecipe).
  - unfold onData. rewrite orStr_cell. reflexivity.
  - intros options H. rewrite combinedOptions_repaired in H.
    exact (parse_bracket_array _ _ (repaired_opens data) H).
Qed.

(** C3 as stated fails: the parsed options need not be strings.  The row
    whose options cell reads 1,2 gives an array of two numbers. *)
Lemma onData_options_not_strings_counterexample :
  combinedOptions Sample.numericRow = "[1,2]"%string
  /\ onData [] Sample.numericRow
     = [Csv.mkParsed (Some "Q"%string) EmptyString
          (Json.JArray [Json.JNumber "1"; Json.JNumber "2"])]
  /\ forall l : list string,
       Json.JArray [Json.JNumber "1"; Json.JNumber "2"] <> Json.JArray (map Json.JString l).
Proof.
  split; [reflexivity|]. split; [reflexivity|].
  intros [|s l] H; discriminate H.
Qed.

(* ================================================================== *)
(** ** Rows that do not parse, and the empty question set *)





Section UploadOutcomes.

Variable fs : string -> Csv.Stream.
Variable setTimeOfDay : Moment.DateTime -> list string -> option Moment.DateTime.


Lemma uploadExamPaper_bad_date f dto st rows :
  JsString.endsWith ".csv" (Csv.originalname f) = true ->
  fs (Csv.path f) = Csv.End_ rows ->
  parseRows rows <> [] ->
  Moment.parseStrict (UploadExamPaperDto.scheduledDate dto) = None ->
  uploadExamPaper fs setTimeOfDay (Some f) dto st = (Throw InvalidScheduleFormat, st).
Proof.
  intros Hcsv Hfs Hne Hdate. unfold uploadExamPaper. rewrite Hcsv. cbn [negb].
  unfold bind at 1. unfold parseCsv. rewrite Hfs. unfold ret at 1.
  destruct (parseRows rows) as [|p l]; [congruence|].
  cbn [List.length Nat.eqb]. rewrite Hdate. reflexivity.
Qed.


(** Whatever an upload throws, the store is the one it started from. *)
Lemma uploadExamPaper_rollback file dto st e st' :
  uploadExamPaper fs setTimeOfDay file dto st = (Throw e, st') -> st' = st.
Proof.
  unfold uploadExamPaper. intros H.
  destruct file as [f|]; [|inversion H; reflexivity].
  destruct (negb (JsString.endsWith ".csv" (Csv.originalname f))); [inversion H; reflexivity|].
  unfold bind at 1 in H. unfold parseCsv in H.
  destruct (fs (Csv.path f)) as [rows | rows msg | rows]; [|inversion H; reflexivity..].
  unfold ret at 1 in H.
  destruct (List.length (parseRows rows) =? 0)%nat; [inversion H; reflexivity|].
  destruct (Moment.parseStrict (UploadExamPaperDto.scheduledDate dto)) as [sd|];
    [|inversion H; reflexivity].
  cbv zeta in H.
  match type of H with (if ?c then _ else _) _ = _ => destruct c; [inversion H; reflexivity|] end.
  destruct (setTimeOfDay sd (JsString.split ":" (UploadExamPaperDto.startTime dto)))
    as [t1|]; [|inversion H; reflexivity].
  destruct (setTimeOfDay sd (JsString.split ":" (UploadExamPaperDto.endTime dto)))
    as [t2|]; [|inversion H; reflexivity].
  unfold transaction in H.
  match type of H with
  | match ?body with _ => _ end = _ => destruct body as [[r | e' |] s']
  end; inversion H; reflexivity.
Qed.

(** An upload whose promise never settles has written nothing: the CSV is
    read before anything is stored. *)
Lemma uploadExamPaper_unsettled file dto st st' :
  uploadExamPaper fs setTimeOfDay file dto st = (Pending, st') ->
  st' = st
  /\ exists f rows,
       file = Some f
       /\ JsString.endsWith ".csv" (Csv.originalname f) = true
       /\ fs (Csv.path f) = Csv.ReadFailure_ rows.
Proof.
  unfold uploadExamPaper. intros H.
  destruct file as [f|]; [|discriminate].
  destruct (JsString.endsWith ".csv" (Csv.originalname f)) eqn:Ecsv; [|discriminate].
  cbn [negb] in H.
  unfold bind at 1 in H. unfold parseCsv in H.
  destruct (fs (Csv.path f)) as [rows | rows msg | rows] eqn:Efs; [|discriminate|].
  2:{ inversion H. split; [reflexivity|]. exists f, rows. auto. }
  exfalso. unfold ret at 1 in H.
  destruct (List.length (parseRows rows) =? 0)%nat; [discriminate|].
  destruct (Moment.parseStrict (UploadExamPaperDto.scheduledDate dto)) as [sd|];
    [|discriminate].
  cbv zeta in H.
  match type of H with (if ?c then _ else _) _ = _ => destruct c; [discriminate|] end.
  destruct (setTimeOfDay sd (JsString.split ":" (UploadExamPaperDto.startTime dto)))
    as [t1|]; [|discriminate].
  destruct (setTimeOfDay sd (JsString.split ":" (UploadExamPaperDto.endTime dto)))
    as [t2|]; [|discriminate].
  unfold transaction in H. unfold bind at 1 in H. unfold addAssessment_create in H.
  unfold bind at 1 in H. rewrite createQuestions_run in H.
  unfold bind, addAssessment_findUnique_questions, gets in H.
  match type of H with
  | context [match findById ?k ?i ?l with _ => _ end] => destruct (findById k i l)
  end; discriminate.
Qed.


End UploadOutcomes.




Example parseStrict_examples :
  Moment.parseStrict "2025-13-40" = None
  /\ Moment.parseStrict "2025-13-40 00:00:00" = None
  /\ Moment.parseStrict "2025-02-29 10:00:00" = None
  /\ Moment.parseStrict "2025-1-01 10:00:00" = None
  /\ Moment.parseStrict "2025-01-01 10:00:00 " = None
  /\ Moment.parseStrict "2024-02-29 23:59:59" = Some (Moment.mkDateTime 2024 2 29 23 59 59)
  /\ Moment.parseStrict "2024-12-31 24:00:00" = Some (Moment.mkDateTime 2025 1 1 0 0 0).
Proof. repeat split. Qed.

(** C5. An upload that has reached the date check (its file passed the
    file check and its CSV gave at least one question) and whose
    scheduledDate does not parse strictly against YYYY-MM-DD HH:mm:ss fails
    with InvalidScheduleFormat and leaves the store as it was, whatever the
    store, the rest of the request and the time-of-day arithmetic.  Whatever
    the file, an upload with such a date never returns a response and never
    changes the store. *)
Theorem uploadExamPaper_malformed_date :
  forall (fs : string -> Csv.Stream)
         (setTimeOfDay : Moment.DateTime -> list string -> option Moment.DateTime)
         (f : Csv.File) (dto : UploadExamPaperDto.t) (st : Store) (rows : list Csv.Row),
    JsString.endsWith ".csv" (Csv.originalname f) = true ->
    fs (Csv.path f) = Csv.End_ rows ->
    parseRows rows <> [] ->
    Moment.parseStrict (UploadExamPaperDto.scheduledDate dto) = None ->
    uploadExamPaper fs setTimeOfDay (Some f) dto st = (Throw InvalidScheduleFormat, st)
    /\ addAssessment (snd (uploadExamPaper fs setTimeOfDay (Some f) dto st)) = addAssessment st
    /\ question (snd (uploadExamPaper fs setTimeOfDay (Some f) dto st)) = question st
    /\ (forall fs' file,
          (forall resp, fst (uploadExamPaper fs' setTimeOfDay file dto st) <> Ok resp)
          /\ snd (uploadExamPaper fs' setTimeOfDay file dto st) = st).
Proof.
  intros fs setTimeOfDay f dto st rows Hcsv Hfs Hne Hdate.
  assert (Hthrow : uploadExamPaper fs setTimeOfDay (Some f) dto st
                   = (Throw InvalidScheduleFormat, st))
    by (eapply uploadExamPaper_bad_date; eassumption).
  split; [exact Hthrow|]. rewrite Hthrow. split; [reflexivity|]. split; [reflexivity|].
  intros fs' file.
  destruct (uploadExamPaper fs' setTimeOfDay file dto st) as [[resp | e |] st'] eqn:E.
  - apply uploadExamPaper_success in E.
    destruct E as (f' & rows' & sd & t1 & t2 & _ & _ & _ & _ & Hsd & _). congruence.
  - apply uploadExamPaper_rollback in E. subst st'. split; [discriminate | reflexivity].
  - apply uploadExamPaper_unsettled in E. destruct E as [-> _].
    split; [discriminate | reflexivity].
Qed.

Lemma uploadExamPaper_malformed_date_witness :
  Sample.upload Sample.malformedDateDto Sample.empty
  = (Throw InvalidScheduleFormat, Sample.empty)
  /\ addAssessment (snd (Sample.upload Sample.malformedDateDto Sample.empty)) = []
  /\ question (snd (Sample.upload Sample.malformedDateDto Sample.empty)) = []
  /\ (forall fs' file,
        (forall resp,
            fst (uploadExamPaper fs' Sample.setTimeOfDay file Sample.malformedDateDto
                   Sample.empty) <> Ok resp)
        /\ snd (uploadExamPaper fs' Sample.setTimeOfDay file Sample.malformedDateDto
                  Sample.empty) = Sample.empty).
Proof.
  apply (uploadExamPaper_malformed_date Sample.fs Sample.setTimeOfDay Sample.file
           Sample.malformedDateDto Sample.empty Sample.rows).
  - reflexivity.
  - reflexivity.
  - vm_compute. discriminate.
  - reflexivity.
Defined.

(** The file check and the question check come before the date check: with
    the same malformed date, an upload without a file is refused as
    InvalidFile and one whose CSV yields no question as EmptyQuestionSet. *)
Example uploadExamPaper_earlier_guards :
  Moment.parseStrict (UploadExamPaperDto.scheduledDate Sample.malformedDateDto) = None
  /\ uploadExamPaper Sample.fs Sample.setTimeOfDay None Sample.malformedDateDto Sample.empty
     = (Throw InvalidFile, Sample.empty)
  /\ uploadExamPaper Sample.fs Sample.setTimeOfDay (Some Sample.badFile)
       Sample.malformedDateDto Sample.empty
     = (Throw EmptyQuestionSet, Sample.empty).
Proof. repeat split. Qed.

(** C6, as the code has it. A successful upload persists one new assessment
    row whose isDraft is Boolean(dto.isDraft): false when the caller leaves
    isDraft out. *)
Theorem uploadExamPaper_isDraft_as_supplied :
  forall (fs : string -> Csv.Stream)
         (setTimeOfDay : Moment.DateTime -> list string -> option Moment.DateTime)
         (file : option Csv.File) (dto : UploadExamPaperDto.t) (st st' : Store)
         (resp : UploadResponse),
    uploadExamPaper fs setTimeOfDay file dto st = (Ok resp, st') ->
    exists row,
      addAssessment st' = addAssessment st ++ [row]
      /\ Assessment.id row = addAssessmentSeq st
      /\ Assessment.isDraft row = Js.Boolean (UploadExamPaperDto.isDraft dto)
      /\ (UploadExamPaperDto.isDraft dto = Js.VUndefined -> Assessment.isDraft row = false)
      /\ (Spec.consistent st = true -> examPaper resp = row).
Proof.
  intros fs setTimeOfDay file dto st st' resp H.
  apply uploadExamPaper_success in H.
  destruct H as (f & rows & sd & t1 & t2 & _ & _ & _ & _ & _ & -> & Hfind & _).
  exists (Spec.createdAssessment (addAssessmentSeq st) dto sd t1 t2).
  repeat split.
  - simpl. intros ->. reflexivity.
  - intros Hc. simpl in Hfind.
    rewrite (consistent_fresh_assessment st
               (Spec.createdAssessment (addAssessmentSeq st) dto sd t1 t2) Hc eq_refl) in Hfind. congruence.
Qed.

Lemma uploadExamPaper_isDraft_as_supplied_witness :
  Sample.upload Sample.dto Sample.empty = (Ok Sample.response, Sample.afterUpload)
  /\ exists row,
       addAssessment Sample.afterUpload = [] ++ [row]
       /\ Assessment.id row = 1
       /\ Assessment.isDraft row = false
       /\ (UploadExamPaperDto.isDraft Sample.dto = Js.VUndefined ->
           Assessment.isDraft row = false)
       /\ (Spec.consistent Sample.empty = true -> examPaper Sample.response = row).
Proof.
  assert (H : Sample.upload Sample.dto Sample.empty = (Ok Sample.response, Sample.afterUpload))
    by (vm_compute; reflexivity).
  split; [exact H|].
  exact (uploadExamPaper_isDraft_as_supplied Sample.fs Sample.setTimeOfDay
           (Some Sample.file) Sample.dto Sample.empty Sample.afterUpload Sample.response H).
Defined.

(** C6 as stated fails: the upload of the sample file with isDraft left out
    succeeds and persists the assessment with isDraft = false. *)
Lemma uploadExamPaper_isDraft_counterexample :
  exists resp st',
    Sample.upload Sample.dto Sample.empty = (Ok resp, st')
    /\ UploadExamPaperDto.isDraft Sample.dto = Js.VUndefined
    /\ Assessment.isDraft (examPaper resp) = false
    /\ map Assessment.isDraft (addAssessment st') = [false].
Proof.
  eexists. eexists. split; [vm_compute; reflexivity|]. repeat split.
Qed.

(** C2. A successful upload whose CSV parse yields N records creates exactly
    N question rows, appended to the question table; their numbers are
    1, ..., N in the order of the parsed records (index + 1), whose content,
    answer and options they carry, so the numbers depend on the positions
    only.  In a store that satisfies its key constraints these rows are the
    question set of the new assessment, as returned. *)
Theorem uploadExamPaper_numbers_in_parsed_order :
  forall (fs : string -> Csv.Stream)
         (setTimeOfDay : Moment.DateTime -> list string -> option Moment.DateTime)
         (file : option Csv.File) (dto : UploadExamPaperDto.t) (st st' : Store)
         (resp : UploadResponse),
    uploadExamPaper fs setTimeOfDay file dto st = (Ok resp, st') ->
    exists f rows created,
      file = Some f
      /\ fs (Csv.path f) = Csv.End_ rows
      /\ created
         = Spec.createdRows (questionSeq st) 0 (addAssessmentSeq st) (parseRows rows)
      /\ question st' = question st ++ created
      /\ map Question.questionNumber created = Spec.oneTo (List.length (parseRows rows))
      /\ map (fun q => (Question.content q, Question.answer q, Question.options q)) created
         = map (fun p => (Csv.content p, Csv.answer p, Csv.options p)) (parseRows rows)
      /\ (Spec.consistent st = true ->
          Assessment.id (examPaper resp) = addAssessmentSeq st
          /\ questions resp = created
          /\ questionsOf (Assessment.id (examPaper resp)) st' = created).
Proof.
  intros fs setTimeOfDay file dto st st' resp H.
  apply uploadExamPaper_success in H.
  destruct H as (f & rows & sd & t1 & t2 & -> & _ & Hfs & _ & _ & -> & Hfind & Hq).
  exists f, rows, (Spec.createdRows (questionSeq st) 0 (addAssessmentSeq st) (parseRows rows)).
  split; [reflexivity|]. split; [exact Hfs|]. split; [reflexivity|].
  split; [reflexivity|].
  split; [rewrite createdRows_numbers; unfold Spec.oneTo; apply map_ext; intros; lia|].
  split; [apply createdRows_contents|].
  intros Hc. simpl in Hfind.
  rewrite (consistent_fresh_assessment st
             (Spec.createdAssessment (addAssessmentSeq st) dto sd t1 t2) Hc eq_refl) in Hfind.
  injection Hfind as <-. cbn [Assessment.id Spec.createdAssessment].
  assert (Hrows : questionsOf (addAssessmentSeq st)
                    (Spec.uploaded st (Spec.createdAssessment (addAssessmentSeq st) dto sd t1 t2)
                       (parseRows rows))
                  = Spec.createdRows (questionSeq st) 0 (addAssessmentSeq st) (parseRows rows)).
  { unfold questionsOf, Spec.uploaded. cbn [question].
    rewrite filter_app, (filter_none _ (question st)) by (apply consistent_fresh_owner, Hc).
    rewrite filter_all.
    - apply sortBy_of_sorted, createdRows_sorted.
    - eapply Forall_impl; [|apply createdRows_owner].
      simpl. intros q ->. apply Z.eqb_refl. }
  split; [reflexivity|]. split; [rewrite Hq|]; exact Hrows.
Qed.

Lemma uploadExamPaper_numbers_in_parsed_order_witness :
  Sample.upload Sample.dto Sample.empty = (Ok Sample.response, Sample.afterUpload)
  /\ Spec.consistent Sample.empty = true
  /\ exists f rows created,
       Some Sample.file = Some f
       /\ Sample.fs (Csv.path f) = Csv.End_ rows
       /\ created = Spec.createdRows 1 0 1 (parseRows rows)
       /\ question Sample.afterUpload = [] ++ created
       /\ map Question.questionNumber created = Spec.oneTo (List.length (parseRows rows))
       /\ map (fun q => (Question.content q, Question.answer q, Question.options q)) created
          = map (fun p => (Csv.content p, Csv.answer p, Csv.options p)) (parseRows rows)
       /\ (Spec.consistent Sample.empty = true ->
           Assessment.id (examPaper Sample.response) = 1
           /\ questions Sample.response = created
           /\ questionsOf (Assessment.id (examPaper Sample.response)) Sample.afterUpload
              = created).
Proof.
  assert (H : Sample.upload Sample.dto Sample.empty = (Ok Sample.response, Sample.afterUpload))
    by (vm_compute; reflexivity).
  split; [exact H|]. split; [reflexivity|].
  exact (uploadExamPaper_numbers_in_parsed_order Sample.fs Sample.setTimeOfDay
           (Some Sample.file) Sample.dto Sample.empty Sample.afterUpload Sample.response H).
Defined.

(** The scenario of the specification: two rows, numbered 1 and 2. *)
Example upload_two_questions :
  map Question.questionNumber (questions Sample.response) = [1; 2]
  /\ map Question.content (questions Sample.response) = [Some "Q1"; Some "Q2"]%string
  /\ scheduledDateText Sample.response = "2025-01-01 00:00:00"%string
  /\ startTimeText Sample.response = "09:00:00"%string
  /\ endTimeText Sample.response = "11:00:00"%string.
Proof. repeat split. Qed.

(* ================================================================== *)
(** ** Publishing *)

Lemma setIsDraft_published (a : Assessment.t) :
  Assessment.isDraft a = false -> Assessment.setIsDraft false a = a.
Proof. destruct a; simpl; intros ->; reflexivity. Qed.

(** C9. Publishing an existing assessment succeeds and stores it with
    isDraft = false; publishing again returns the same assessment and leaves
    the same store; on an assessment that is already published (its id being
    unique, as a primary key is) the first call already changes nothing and
    returns the assessment as it was. *)
Theorem publishExamPaper_idempotent :
  forall (st : Store) (id : Z) (a : Assessment.t),
    findById Assessment.id id (addAssessment st) = Some a ->
    exists st',
      publishExamPaper id st = (Ok (Assessment.setIsDraft false a), st')
      /\ findById Assessment.id id (addAssessment st') = Some (Assessment.setIsDraft false a)
      /\ Assessment.isDraft (Assessment.setIsDraft false a) = false
      /\ publishExamPaper id st' = (Ok (Assessment.setIsDraft false a), st')
      /\ (uniqueKeys Assessment.id (addAssessment st) = true ->
          Assessment.isDraft a = false ->
          publishExamPaper id st = (Ok a, st)).
Proof.
  intros st id a Hfind.
  exists (setAddAssessment
            (updateById Assessment.id id (Assessment.setIsDraft false) (addAssessment st)) st).
  assert (Hfind' : findById Assessment.id id
                     (updateById Assessment.id id (Assessment.setIsDraft false)
                        (addAssessment st))
                   = Some (Assessment.setIsDraft false a))
    by (apply findById_updateById; [apply (findById_some _ _ _ _ Hfind) | exact Hfind]).
  assert (Hrun : publishExamPaper id st
                 = (Ok (Assessment.setIsDraft false a),
                    setAddAssessment
                      (updateById Assessment.id id (Assessment.setIsDraft false)
                         (addAssessment st)) st)).
  { unfold publishExamPaper, bind, addAssessment_findUnique, gets, addAssessment_update.
    cbv beta. rewrite Hfind. cbv beta iota. rewrite Hfind. reflexivity. }
  split; [exact Hrun|]. split; [exact Hfind'|]. split; [reflexivity|]. split.
  - unfold publishExamPaper, bind, addAssessment_findUnique, gets, addAssessment_update.
    cbn [addAssessment setAddAssessment]. rewrite Hfind'. cbv beta iota.
    cbn [addAssessment setAddAssessment]. rewrite Hfind'.
    rewrite updateById_idempotent by reflexivity. reflexivity.
  - intros Hu Hpub. rewrite Hrun.
    apply findById_some in Hfind. destruct Hfind as [Hin Hid].
    rewrite (updateById_fixed Assessment.id id _ _ a).
    + rewrite (setIsDraft_published a Hpub). destruct st; reflexivity.
    + apply uniqueKeys_NoDup, Hu.
    + exact Hin.
    + exact Hid.
    + apply setIsDraft_published, Hpub.
Qed.

Lemma publishExamPaper_idempotent_witness :
  exists st',
    publishExamPaper 1 Sample.published = (Ok (Sample.paper false), st')
    /\ findById Assessment.id 1 (addAssessment st') = Some (Sample.paper false)
    /\ Assessment.isDraft (Sample.paper false) = false
    /\ publishExamPaper 1 st' = (Ok (Sample.paper false), st')
    /\ (uniqueKeys Assessment.id (addAssessment Sample.published) = true ->
        Assessment.isDraft (Sample.paper false) = false ->
        publishExamPaper 1 Sample.published = (Ok (Sample.paper false), Sample.published)).
Proof.
  exact (publishExamPaper_idempotent Sample.published 1 (Sample.paper false) eq_refl).
Defined.

(** Publishing the draft of the sample store clears the flag and touches
    nothing else. *)
Example publish_draft :
  publishExamPaper 1 Sample.three
  = (Ok (Sample.paper false),
     setAddAssessment [Sample.paper false] Sample.three).
Proof. reflexivity. Qed.

(* ================================================================== *)
(** ** The view without answers *)

Section Agreement.

Context {R : Type} (key : R -> Z) (same : R -> R -> Prop).

Hypothesis same_key : forall a b, same a b -> key a = key b.

Lemma Forall2_insertBy x y l1 l2 :
  same x y -> Forall2 same l1 l2 ->
  Forall2 same (insertBy key x l1) (insertBy key y l2).
Proof.
  intros Hxy H. induction H as [|a b l1 l2 Hab H IH]; simpl.
  - repeat constructor. exact Hxy.
  - rewrite (same_key _ _ Hxy), (same_key _ _ Hab).
    destruct (key y <=? key b); repeat constructor; assumption.
Qed.

Lemma Forall2_sortBy l1 l2 :
  Forall2 same l1 l2 -> Forall2 same (sortBy key l1) (sortBy key l2).
Proof.
  induction 1; simpl; [constructor | apply Forall2_insertBy; assumption].
Qed.

Lemma Forall2_filter (p : R -> bool) l1 l2 :
  (forall a b, same a b -> p a = p b) ->
  Forall2 same l1 l2 -> Forall2 same (filter p l1) (filter p l2).
Proof.
  intros Hp. induction 1 as [|a b l1 l2 Hab H IH]; simpl; [constructor|].
  rewrite (Hp _ _ Hab). destruct (p b); [constructor|]; assumption.
Qed.

End Agreement.

Lemma sameButAnswer_view (a b : Question.t) :
  Spec.sameButAnswer a b -> Question.withoutAnswer a = Question.withoutAnswer b.
Proof.
  intros (H1 & H2 & H3 & H4 & H5). unfold Question.withoutAnswer, Question.object.
  cbn [filter fst String.eqb Ascii.eqb Bool.eqb negb andb].
  now rewrite H1, H2, H3, H4, H5.
Qed.

Lemma sameButAnswer_questionsOf st1 st2 assessmentId :
  Forall2 Spec.sameButAnswer (question st1) (question st2) ->
  Forall2 Spec.sameButAnswer (questionsOf assessmentId st1) (questionsOf assessmentId st2).
Proof.
  intros H. unfold questionsOf.
  apply Forall2_sortBy; [intros a b Hab; apply Hab|].
  apply Forall2_filter; [|exact H].
  intros a b (_ & _ & _ & _ & Hown). now rewrite Hown.
Qed.

Lemma Forall2_map_eq {A B} (f : A -> B) (same : A -> A -> Prop) l1 l2 :
  (forall a b, same a b -> f a = f b) -> Forall2 same l1 l2 -> map f l1 = map f l2.
Proof.
  intros Hf. induction 1 as [|a b l1 l2 Hab H IH]; simpl; [reflexivity|].
  now rewrite (Hf _ _ Hab), IH.
Qed.

(** C8. The outcome of allQuestionsNoAnswer is the same for any two question
    tables that agree, row by row, on id, number, content, options and
    assessment, whatever answers they store.  Every object it returns has
    the five other properties of its question, with the stored values and in
    column order, and no property named answer. *)
Theorem allQuestionsNoAnswer_hides_answers :
  forall (st1 st2 : Store) (assessmentId : Z),
    Forall2 Spec.sameButAnswer (question st1) (question st2) ->
    fst (allQuestionsNoAnswer assessmentId st1) = fst (allQuestionsNoAnswer assessmentId st2)
    /\ (forall views,
          fst (allQuestionsNoAnswer assessmentId st1) = Ok views ->
          Forall (fun v => Question.get "answer" v = None
                           /\ ~ In "answer"%string (map fst v)) views
          /\ Forall2 (fun v q =>
                        map fst v
                        = ["id"; "questionNumber"; "content"; "options"; "assessmentId"]%string
                        /\ Question.get "id" v = Some (Question.VInt (Question.id q))
                        /\ Question.get "questionNumber" v
                           = Some (Question.VInt (Question.questionNumber q))
                        /\ Question.get "content" v
                           = Some (Question.VText (Question.content q))
                        /\ Question.get "options" v
                           = Some (Question.VJson (Question.options q))
                        /\ Question.get "assessmentId" v
                           = Some (Question.VInt (Question.assessmentId q)))
                     views (questionsOf assessmentId st1)).
Proof.
  intros st1 st2 assessmentId Hsame.
  pose proof (sameButAnswer_questionsOf st1 st2 assessmentId Hsame) as Hq.
  assert (Hviews : map Question.withoutAnswer (questionsOf assessmentId st1)
                   = map Question.withoutAnswer (questionsOf assessmentId st2))
    by (eapply Forall2_map_eq; [apply sameButAnswer_view | exact Hq]).
  unfold allQuestionsNoAnswer, bind, question_findMany, gets, ret, throw. cbv beta iota. split.
  - rewrite <- (length_map Question.withoutAnswer (questionsOf assessmentId st1)).
    rewrite <- (length_map Question.withoutAnswer (questionsOf assessmentId st2)).
    rewrite Hviews.
    destruct (List.length (map Question.withoutAnswer (questionsOf assessmentId st2)) =? 0)%nat;
      reflexivity.
  - intros views.
    destruct (List.length (questionsOf assessmentId st1) =? 0)%nat; cbn [fst]; [discriminate|].
    intros H. injection H as <-. split.
    + apply Forall_forall. intros v Hv. apply in_map_iff in Hv. destruct Hv as [q [<- _]].
      split; [reflexivity|]. cbn. intros Hin.
      repeat (destruct Hin as [Hin | Hin]; [discriminate|]). exact Hin.
    + clear. induction (questionsOf assessmentId st1) as [|q l IH]; simpl.
      * constructor.
      * constructor; [repeat split | exact IH].
Qed.

Lemma allQuestionsNoAnswer_hides_answers_witness :
  fst (allQuestionsNoAnswer 1 Sample.three) = fst (allQuestionsNoAnswer 1 Sample.threeOtherAnswers)
  /\ (forall views,
        fst (allQuestionsNoAnswer 1 Sample.three) = Ok views ->
        Forall (fun v => Question.get "answer" v = None
                         /\ ~ In "answer"%string (map fst v)) views
        /\ Forall2 (fun v q =>
                      map fst v
                      = ["id"; "questionNumber"; "content"; "options"; "assessmentId"]%string
                      /\ Question.get "id" v = Some (Question.VInt (Question.id q))
                      /\ Question.get "questionNumber" v
                         = Some (Question.VInt (Question.questionNumber q))
                      /\ Question.get "content" v
                         = Some (Question.VText (Question.content q))
                      /\ Question.get "options" v
                         = Some (Question.VJson (Question.options q))
                      /\ Question.get "assessmentId" v
                         = Some (Question.VInt (Question.assessmentId q)))
                   views (questionsOf 1 Sample.three)).
Proof.
  apply (allQuestionsNoAnswer_hides_answers Sample.three Sample.threeOtherAnswers 1).
  repeat constructor.
Defined.

(* ================================================================== *)
(** ** The integrity constraints are kept *)

Lemma Forall_by_map {A B} (g : A -> B) (P : B -> Prop) (l : list A) :
  Forall (fun x => P (g x)) l <-> Forall P (map g l).
Proof. rewrite Forall_map. reflexivity. Qed.

(** The constraints of [Spec.consistent], as propositions. *)
Lemma consistent_iff st :
  Spec.consistent st = true <->
  NoDup (map Assessment.id (addAssessment st))
  /\ NoDup (map Question.id (question st))
  /\ Forall (fun a => Assessment.id a < addAssessmentSeq st) (addAssessment st)
  /\ Forall (fun q => Question.id q < questionSeq st) (question st)
  /\ Forall (fun q => In (Question.assessmentId q) (map Assessment.id (addAssessment st)))
       (question st).
Proof.
  unfold Spec.consistent. rewrite !andb_true_iff, !forallb_forall, !Forall_forall.
  split.
  - intros [[[[H1 H2] H3] H4] H5]. repeat split.
    + apply uniqueKeys_NoDup, H1.
    + apply uniqueKeys_NoDup, H2.
    + intros a Ha. apply Z.ltb_lt, H3, Ha.
    + intros q Hq. apply Z.ltb_lt, H4, Hq.
    + intros q Hq. specialize (H5 q Hq). apply existsb_exists in H5.
      destruct H5 as [a [Ha Hid]]. apply Z.eqb_eq in Hid. rewrite <- Hid. apply in_map, Ha.
  - intros (H1 & H2 & H3 & H4 & H5). repeat split.
    + apply NoDup_uniqueKeys, H1.
    + apply NoDup_uniqueKeys, H2.
    + intros a Ha. apply Z.ltb_lt, H3, Ha.
    + intros q Hq. apply Z.ltb_lt, H4, Hq.
    + intros q Hq. specialize (H5 q Hq). apply in_map_iff in H5.
      destruct H5 as [a [Hid Ha]]. apply existsb_exists. exists a.
      split; [exact Ha | apply Z.eqb_eq, Hid].
Qed.

Lemma createdRows_ids parsed :
  forall seq index owner,
    map Question.id (Spec.createdRows seq index owner parsed)
    = map (fun k => seq + Z.of_nat k) (List.seq 0 (List.length parsed)).
Proof.
  induction parsed as [|p rest IH]; intros; simpl; [reflexivity|].
  f_equal; [lia|]. rewrite IH, <- seq_shift, map_map. apply map_ext. intros k. lia.
Qed.

Lemma createdRows_ids_range seq index owner parsed k :
  In k (map Question.id (Spec.createdRows seq index owner parsed)) ->
  seq <= k < seq + Z.of_nat (List.length parsed).
Proof.
  rewrite createdRows_ids. intros H. apply in_map_iff in H.
  destruct H as [n [<- Hn]]. apply in_seq in Hn. lia.
Qed.

Lemma createdRows_ids_NoDup seq index owner parsed :
  NoDup (map Question.id (Spec.createdRows seq index owner parsed)).
Proof.
  rewrite createdRows_ids. apply NoDup_map_NoDup_ForallPairs.
  - intros a b _ _ H. lia.
  - apply seq_NoDup.
Qed.

(** The constraints survive an upload. *)
Lemma uploaded_consistent st row parsed :
  Spec.consistent st = true -> Assessment.id row = addAssessmentSeq st ->
  Spec.consistent (Spec.uploaded st row parsed) = true.
Proof.
  rewrite !consistent_iff. intros (H1 & H2 & H3 & H4 & H5) Hid.
  unfold Spec.uploaded. cbn [addAssessment question addAssessmentSeq questionSeq].
  rewrite Forall_forall in H3, H4, H5. repeat split.
  - rewrite map_app. simpl. apply NoDup_app; [exact H1 | repeat constructor; simpl; tauto |].
    intros k Hk [<- | []]. apply in_map_iff in Hk. destruct Hk as [a [Hk Ha]].
    specialize (H3 a Ha). lia.
  - rewrite map_app. apply NoDup_app; [exact H2 | apply createdRows_ids_NoDup |].
    intros k Hk Hk'. apply createdRows_ids_range in Hk'.
    apply in_map_iff in Hk. destruct Hk as [q [Hk Hq]]. specialize (H4 q Hq). lia.
  - apply Forall_app. split; [|repeat constructor; lia].
    apply Forall_forall. intros a Ha. specialize (H3 a Ha). lia.
  - apply Forall_app. split.
    + apply Forall_forall. intros q Hq. specialize (H4 q Hq). lia.
    + apply Forall_forall. intros q Hq.
      assert (In (Question.id q)
                (map Question.id (Spec.createdRows (questionSeq st) 0 (addAssessmentSeq st) parsed)))
        by (apply in_map, Hq).
      apply createdRows_ids_range in H. lia.
  - apply Forall_app. split.
    + apply Forall_forall. intros q Hq. rewrite map_app. apply in_or_app. left. apply H5, Hq.
    + eapply Forall_impl; [|apply createdRows_owner].
      simpl. intros q ->. rewrite map_app. apply in_or_app. right. simpl. tauto.
Qed.

(** The constraints survive a delete, whatever its outcome. *)
Lemma deleteQuestionById_consistent st questionId examPaperId r st' :
  Spec.consistent st = true ->
  deleteQuestionById questionId examPaperId st = (r, st') ->
  Spec.consistent st' = true.
Proof.
  intros Hc Hrun.
  destruct (findById Assessment.id examPaperId (addAssessment st)) as [paper|] eqn:Hpaper.
  2:{ unfold deleteQuestionById, bind, addAssessment_findUnique_questions, gets in Hrun.
      rewrite Hpaper in Hrun. inversion Hrun; subst. exact Hc. }
  destruct (find (fun x => Question.id x =? questionId) (questionsOf examPaperId st))
    as [q|] eqn:Hfind.
  2:{ unfold deleteQuestionById, bind, addAssessment_findUnique_questions, gets in Hrun.
      rewrite Hpaper in Hrun. cbv beta iota in Hrun. rewrite Hfind in Hrun.
      inversion Hrun; subst. exact Hc. }
  apply find_some in Hfind. destruct Hfind as [Hq Hid]. apply Z.eqb_eq in Hid.
  rewrite (deleteQuestionById_run st questionId examPaperId paper q Hpaper Hq Hid) in Hrun.
  inversion Hrun; subst r st'. clear Hrun.
  apply consistent_iff in Hc. destruct Hc as (H1 & H2 & H3 & H4 & H5).
  apply consistent_iff. cbn [addAssessment question addAssessmentSeq questionSeq setQuestion].
  split; [exact H1|].
  assert (Hsub : forall x, In x (deleteById Question.id questionId (question st)) ->
                           In x (question st))
    by (intros x Hx; apply filter_In in Hx; tauto).
  split; [|split; [exact H3|split]].
  - rewrite renumberTable_keys. unfold deleteById. apply NoDup_keys_filter, H2.
  - apply (Forall_by_map Question.id (fun k => k < questionSeq st)).
    rewrite renumberTable_keys. apply Forall_by_map.
    rewrite Forall_forall in H4. apply Forall_forall. intros x Hx. apply H4, Hsub, Hx.
  - apply (Forall_by_map Question.assessmentId
             (fun k => In k (map Assessment.id (addAssessment st)))).
    rewrite renumberTable_owners. apply Forall_by_map.
    rewrite Forall_forall in H5. apply Forall_forall. intros x Hx. apply H5, Hsub, Hx.
Qed.

(** The constraints survive an upload, whatever its outcome. *)
Lemma uploadExamPaper_consistent fs setTimeOfDay file dto st r st' :
  Spec.consistent st = true ->
  uploadExamPaper fs setTimeOfDay file dto st = (r, st') ->
  Spec.consistent st' = true.
Proof.
  intros Hc Hrun. destruct r as [resp | e |].
  - apply uploadExamPaper_success in Hrun.
    destruct Hrun as (f & rows & sd & t1 & t2 & _ & _ & _ & _ & _ & -> & _).
    apply uploaded_consistent; [exact Hc | reflexivity].
  - apply uploadExamPaper_rollback in Hrun. subst st'. exact Hc.
  - apply uploadExamPaper_unsettled in Hrun. destruct Hrun as [-> _]. exact Hc.
Qed.

(** The constraints survive publishing. *)
Lemma publishExamPaper_consistent st id r st' :
  Spec.consistent st = true ->
  publishExamPaper id st = (r, st') ->
  Spec.consistent st' = true.
Proof.
  intros Hc Hrun.
  unfold publishExamPaper, bind, addAssessment_findUnique, gets, addAssessment_update in Hrun.
  cbv beta in Hrun.
  destruct (findById Assessment.id id (addAssessment st)) as [a|] eqn:Hfind;
    cbv beta iota in Hrun.
  2:{ inversion Hrun; subst. exact Hc. }
  rewrite Hfind in Hrun. inversion Hrun; subst r st'. clear Hrun.
  apply consistent_iff in Hc. destruct Hc as (H1 & H2 & H3 & H4 & H5).
  apply consistent_iff. cbn [addAssessment question addAssessmentSeq questionSeq setAddAssessment].
  rewrite (updateById_keys Assessment.id) by reflexivity.
  split; [exact H1|]. split; [exact H2|]. split; [|split; [exact H4 | exact H5]].
  apply (Forall_by_map Assessment.id (fun k => k < addAssessmentSeq st)).
  rewrite (updateById_keys Assessment.id) by reflexivity. apply Forall_by_map. exact H3.
Qed.

End ExamPaperFacts.

Section ManualAssessmentFacts.

Import ManualAssessmentService.

(* ================================================================== *)
(** ** Updating a manual assessment *)

Lemma nestedCreate_data questions :
  forall seq owner, map QuestionManual.data (nestedCreate seq owner questions) = questions.
Proof. induction questions as [|d l IH]; intros; simpl; [reflexivity | now rewrite IH]. Qed.

Lemma nestedCreate_owner questions :
  forall seq owner,
    Forall (fun q => (QuestionManual.manualAssessmentId q =? owner) = true)
           (nestedCreate seq owner questions).
Proof.
  induction questions as [|d l IH]; intros; simpl; constructor; [apply Z.eqb_refl | apply IH].
Qed.

(** The merged row an update writes. *)
Lemma update_run (st : Store) (id : Z) (data : ManualAssessmentDto.t) (a : ManualAssessment.t) :
  findById ManualAssessment.id id (manualAssessment st) = Some a ->
  exists a',
    update id data st
    = (Ok a',
       mkStore (updateById ManualAssessment.id id (fun _ => a') (manualAssessment st))
               (questionManual st
                  ++ nestedCreate (questionManualSeq st) id
                       (mapQuestions (ManualAssessmentDto.questions data)))
               (manualAssessmentSeq st)
               (questionManualSeq st
                + Z.of_nat (List.length (mapQuestions (ManualAssessmentDto.questions data)))))
    /\ ManualAssessment.id a' = id
    /\ forall f, stored f a' = Js.or (supplied f data) (stored f a).
Proof.
  intros Hfind.
  pose proof (findById_some _ _ _ _ Hfind) as [_ Hid].
  eexists. split; [|split].
  - unfold update, bind, findOne, manualAssessment_update. rewrite Hfind.
    cbv beta iota. cbn [fst]. rewrite Hfind. cbv beta iota.
    f_equal. f_equal.
    unfold updateById. apply map_ext_in. intros r Hr.
    destruct (ManualAssessment.id r =? id) eqn:E; [|reflexivity].
    apply Z.eqb_eq in E. rewrite E, <- Hid. reflexivity.
  - exact Hid.
  - intros []; reflexivity.
Qed.

(** C7, as the code has it. An update of an existing manual assessment
    inserts one row per supplied question object, each derived as
    {questions: questionText, options: JSON-serialized, correctAnswer}, and
    keeps the rows the assessment had: afterwards its questions are the prior
    ones followed by the derived ones. *)
Theorem update_appends_questions :
  forall (st : Store) (id : Z) (data : ManualAssessmentDto.t) (a : ManualAssessment.t),
    findById ManualAssessment.id id (manualAssessment st) = Some a ->
    exists a' st',
      update id data st = (Ok a', st')
      /\ map QuestionManual.data (questionsOf id st')
         = map QuestionManual.data (questionsOf id st)
           ++ mapQuestions (ManualAssessmentDto.questions data)
      /\ questionManual st'
         = questionManual st
           ++ nestedCreate (questionManualSeq st) id
                (mapQuestions (ManualAssessmentDto.questions data)).
Proof.
  intros st id data a Hfind.
  destruct (update_run st id data a Hfind) as (a' & Hrun & _ & _).
  eexists. eexists. split; [exact Hrun|]. split; [|reflexivity].
  unfold questionsOf. cbn [questionManual].
  rewrite filter_app, map_app. f_equal.
  rewrite filter_all by apply nestedCreate_owner.
  apply nestedCreate_data.
Qed.

Lemma update_appends_questions_witness :
  exists a' st',
    update 1 Sample.manualUpdate Sample.manual = (Ok a', st')
    /\ map QuestionManual.data (questionsOf 1 st')
       = map QuestionManual.data (questionsOf 1 Sample.manual)
         ++ [toData Sample.newQuestion]
    /\ questionManual st'
       = questionManual Sample.manual ++ [QuestionManual.mk 2 (toData Sample.newQuestion) 1].
Proof.
  exact (update_appends_questions Sample.manual 1 Sample.manualUpdate Sample.manualRow eq_refl).
Defined.

(** C7 as stated fails: after updating an assessment that had one question
    with a list of one question, the assessment has two questions, not only
    the one derived from the list. *)
Lemma update_recreates_questions_counterexample :
  exists a' st',
    update 1 Sample.manualUpdate Sample.manual = (Ok a', st')
    /\ List.length (questionsOf 1 st') = 2%nat
    /\ map QuestionManual.data (questionsOf 1 st')
       <> mapQuestions (ManualAssessmentDto.questions Sample.manualUpdate).
Proof.
  eexists. eexists. split; [vm_compute; reflexivity|].
  split; [reflexivity|]. vm_compute. discriminate.
Qed.

(** C10. On an update of an existing manual assessment each of the ten
    scalar columns ends up as [supplied || prior]: a supplied value that is
    falsy (undefined, null, false, 0, NaN or the empty string) leaves the
    prior value in place, so no falsy value can be written by an update. *)
Theorem update_keeps_prior_on_falsy :
  forall (st : Store) (id : Z) (data : ManualAssessmentDto.t) (a : ManualAssessment.t),
    findById ManualAssessment.id id (manualAssessment st) = Some a ->
    exists a' st',
      update id data st = (Ok a', st')
      /\ findById ManualAssessment.id id (manualAssessment st') = Some a'
      /\ (forall f, stored f a' = Js.or (supplied f data) (stored f a))
      /\ (forall f, Js.truthy (supplied f data) = false -> stored f a' = stored f a)
      /\ (forall f, Js.truthy (stored f a') = false -> stored f a' = stored f a).
Proof.
  intros st id data a Hfind.
  destruct (update_run st id data a Hfind) as (a' & Hrun & Hid & Hor).
  eexists. eexists. split; [exact Hrun|].
  split; [|split; [exact Hor|split]].
  - cbn [manualAssessment].
    rewrite (findById_updateById ManualAssessment.id id (fun _ => a') _ a); auto.
  - intros f Hf. rewrite Hor. unfold Js.or. now rewrite Hf.
  - intros f Hf. rewrite Hor in *. unfold Js.or in *.
    destruct (Js.truthy (supplied f data)) eqn:E; [congruence | reflexivity].
Qed.

Lemma update_keeps_prior_on_falsy_witness :
  exists a' st',
    update 1 Sample.manualUpdate Sample.manual = (Ok a', st')
    /\ findById ManualAssessment.id 1 (manualAssessment st') = Some a'
    /\ (forall f, stored f a' = Js.or (supplied f Sample.manualUpdate) (stored f Sample.manualRow))
    /\ (forall f, Js.truthy (supplied f Sample.manualUpdate) = false ->
                  stored f a' = stored f Sample.manualRow)
    /\ (forall f, Js.truthy (stored f a') = false -> stored f a' = stored f Sample.manualRow).
Proof.
  exact (update_keeps_prior_on_falsy Sample.manual 1 Sample.manualUpdate Sample.manualRow
           eq_refl).
Defined.

(** The zero duration and the empty description of the sample update are
    not stored. *)
Example update_zero_duration_not_stored :
  exists a' st',
    update 1 Sample.manualUpdate Sample.manual = (Ok a', st')
    /\ ManualAssessmentDto.duration Sample.manualUpdate = Js.VNum (Js.Num 0)
    /\ ManualAssessment.duration a' = Js.VNum (Js.Num 60)
    /\ ManualAssessmentDto.description Sample.manualUpdate = Js.VStr EmptyString
    /\ ManualAssessment.description a' = Js.VStr "Week 1".
Proof. eexists. eexists. split; [vm_compute; reflexivity|]. repeat split. Qed.

End ManualAssessmentFacts.

(* ================================================================== *)
(** * Further properties of the services *)

Section MoreTables.

Context {R : Type} (key : R -> Z).

Lemma findById_deleteById_same (i : Z) (rows : list R) :
  findById key i (deleteById key i rows) = None.
Proof.
  unfold findById, deleteById. induction rows as [|x rows IH]; simpl; [reflexivity|].
  destruct (key x =? i) eqn:E; simpl; [exact IH | rewrite E; exact IH].
Qed.

Lemma findById_deleteById_other (i j : Z) (rows : list R) :
  j <> i -> findById key j (deleteById key i rows) = findById key j rows.
Proof.
  intros Hne. unfold findById, deleteById.
  induction rows as [|x rows IH]; simpl; [reflexivity|].
  destruct (key x =? i) eqn:E; simpl.
  - apply Z.eqb_eq in E. destruct (key x =? j) eqn:E'; [|exact IH].
    apply Z.eqb_eq in E'. congruence.
  - destruct (key x =? j); [reflexivity | exact IH].
Qed.


Lemma sortBy_nil_iff (l : list R) : sortBy key l = [] <-> l = [].
Proof.
  split; [|intros ->; reflexivity].
  intros H. pose proof (sortBy_permutation key l) as HP. rewrite H in HP.
  apply Permutation_nil in HP. exact HP.
Qed.

Lemma sortBy_length (l : list R) : List.length (sortBy key l) = List.length l.
Proof. apply Permutation_length, sortBy_permutation. Qed.

End MoreTables.

Section ExamPaperMore.

Import ExamPaperService.

Lemma questionsOf_nil_iff id st :
  questionsOf id st = []
  <-> filter (fun q => Question.assessmentId q =? id) (question st) = [].
Proof. unfold questionsOf. apply sortBy_nil_iff. Qed.

(** X1. deleteExamPaper is guarded: it succeeds exactly when the paper exists
    and owns no question; a failure leaves the store as it was; a success
    removes that paper and nothing else. *)
Theorem deleteExamPaper_guarded :
  forall (st st' : Store) (id : Z) (r : Result string),
    deleteExamPaper id st = (r, st') ->
    question st' = question st
    /\ ((exists m, r = Ok m)
        <-> (exists a, findById Assessment.id id (addAssessment st) = Some a)
            /\ questionsOf id st = [])
    /\ ((exists e, r = Throw e) -> st' = st)
    /\ ((exists m, r = Ok m) ->
        findById Assessment.id id (addAssessment st') = None
        /\ forall other, other <> id ->
             findById Assessment.id other (addAssessment st')
             = findById Assessment.id other (addAssessment st)).
Proof.
  intros st st' id r. rewrite questionsOf_nil_iff.
  unfold deleteExamPaper, bind, addAssessment_findUnique, question_findMany_where, gets,
    addAssessment_delete. cbv beta.
  destruct (findById Assessment.id id (addAssessment st)) as [a|] eqn:Hfind; cbv beta iota.
  - destruct (filter (fun q => Question.assessmentId q =? id) (question st)) as [|q l] eqn:Hq;
      cbn [List.length Nat.ltb Nat.leb]; cbv beta iota.
    + rewrite Hfind. unfold ret. intros H. injection H as <- <-.
      cbn [question addAssessment setAddAssessment].
      split; [reflexivity|]. split; [split; eauto|]. split.
      * intros [e He]. discriminate.
      * intros _. split; [apply findById_deleteById_same|].
        intros other Hother. apply findById_deleteById_other, Hother.
    + unfold throw. intros H. injection H as <- <-.
      split; [reflexivity|]. split; [|split; [reflexivity|intros [m Hm]; discriminate]].
      split; [intros [m Hm]; discriminate | intros [_ Hnil]; discriminate].
  - unfold throw. intros H. injection H as <- <-.
    split; [reflexivity|]. split; [|split; [reflexivity|intros [m Hm]; discriminate]].
    split; [intros [m Hm]; discriminate | intros [[a Ha] _]; discriminate].
Qed.

Lemma deleteExamPaper_guarded_witness :
  question (snd (deleteExamPaper 1 Sample.bare)) = question Sample.bare
  /\ ((exists m, fst (deleteExamPaper 1 Sample.bare) = Ok m)
      <-> (exists a, findById Assessment.id 1 (addAssessment Sample.bare) = Some a)
          /\ questionsOf 1 Sample.bare = [])
  /\ ((exists e, fst (deleteExamPaper 1 Sample.bare) = Throw e) ->
      snd (deleteExamPaper 1 Sample.bare) = Sample.bare)
  /\ ((exists m, fst (deleteExamPaper 1 Sample.bare) = Ok m) ->
      findById Assessment.id 1 (addAssessment (snd (deleteExamPaper 1 Sample.bare))) = None
      /\ forall other, other <> 1 ->
           findById Assessment.id other (addAssessment (snd (deleteExamPaper 1 Sample.bare)))
           = findById Assessment.id other (addAssessment Sample.bare)).
Proof.
  apply (deleteExamPaper_guarded Sample.bare (snd (deleteExamPaper 1 Sample.bare)) 1
           (fst (deleteExamPaper 1 Sample.bare))).
  reflexivity.
Defined.

End ExamPaperMore.

Section ExamPaperMore2.

Import ExamPaperService.

Lemma filter_filter_neg {A} (p : A -> bool) (l : list A) :
  filter p (filter (fun x => negb (p x)) l) = [].
Proof.
  induction l as [|x l IH]; simpl; [reflexivity|].
  destruct (p x) eqn:E; simpl; rewrite ?E; exact IH.
Qed.

Lemma filter_filter_other (i j : Z) (l : list Question.t) :
  j <> i ->
  filter (fun q => Question.assessmentId q =? j)
    (filter (fun q => negb (Question.assessmentId q =? i)) l)
  = filter (fun q => Question.assessmentId q =? j) l.
Proof.
  intros Hne. induction l as [|x l IH]; simpl; [reflexivity|].
  destruct (Question.assessmentId x =? i) eqn:E; simpl.
  - apply Z.eqb_eq in E. destruct (Question.assessmentId x =? j) eqn:E'; [|exact IH].
    apply Z.eqb_eq in E'. congruence.
  - now rewrite IH.
Qed.

(** X2. deleteAllQuestions removes the questions of the one assessment and
    nothing else: afterwards previews of it find no question, the other
    assessments have the questions they had, and deleteExamPaper, which was
    refused while questions were left, goes through. *)
Theorem deleteAllQuestions_then_deleteExamPaper :
  forall (st : Store) (assessmentId : Z) (a : Assessment.t),
    findById Assessment.id assessmentId (addAssessment st) = Some a ->
    exists st1 st2,
      deleteAllQuestions assessmentId st = (Ok "All questions deleted successfully"%string, st1)
      /\ addAssessment st1 = addAssessment st
      /\ questionsOf assessmentId st1 = []
      /\ (forall other, other <> assessmentId -> questionsOf other st1 = questionsOf other st)
      /\ previewAllQuestions assessmentId st1
         = (Throw (NotFoundException "No questions found for this assessment"), st1)
      /\ fst (allQuestionsNoAnswer assessmentId st1)
         = Throw (NotFoundException "No questions found for this assessment")
      /\ deleteExamPaper assessmentId st1 = (Ok "Exam paper deleted successfully"%string, st2)
      /\ findById Assessment.id assessmentId (addAssessment st2) = None
      /\ question st2 = question st1.
Proof.
  intros st assessmentId a Hfind.
  set (st1 := setQuestion
                (filter (fun q => negb (Question.assessmentId q =? assessmentId)) (question st))
                st).
  assert (Hnil : questionsOf assessmentId st1 = []).
  { apply questionsOf_nil_iff. apply (filter_filter_neg (fun q => Question.assessmentId q =? assessmentId)). }
  exists st1, (setAddAssessment (deleteById Assessment.id assessmentId (addAssessment st1)) st1).
  split; [|split; [reflexivity|split; [exact Hnil|split; [|split; [|split; [|split; [|split]]]]]]].
  - unfold deleteAllQuestions, bind, addAssessment_findUnique, gets, question_deleteMany.
    cbv beta. rewrite Hfind. reflexivity.
  - intros other Hother. unfold questionsOf, st1. cbn [question setQuestion].
    now rewrite filter_filter_other.
  - unfold previewAllQuestions, bind, question_findMany, gets. cbv beta. rewrite Hnil.
    reflexivity.
  - unfold allQuestionsNoAnswer, bind, question_findMany, gets. cbv beta. rewrite Hnil.
    reflexivity.
  - apply questionsOf_nil_iff in Hnil.
    unfold deleteExamPaper, bind, addAssessment_findUnique, question_findMany_where, gets,
      addAssessment_delete. cbv beta.
    assert (Hfind1 : findById Assessment.id assessmentId (addAssessment st1) = Some a)
      by exact Hfind.
    rewrite Hfind1. cbv beta iota. rewrite Hnil. cbn [List.length Nat.ltb Nat.leb].
    cbv beta iota. rewrite Hfind1. reflexivity.
  - apply findById_deleteById_same.
  - reflexivity.
Qed.

Lemma deleteAllQuestions_then_deleteExamPaper_witness :
  exists st1 st2,
    deleteAllQuestions 1 Sample.two = (Ok "All questions deleted successfully"%string, st1)
    /\ addAssessment st1 = addAssessment Sample.two
    /\ questionsOf 1 st1 = []
    /\ (forall other, other <> 1 -> questionsOf other st1 = questionsOf other Sample.two)
    /\ previewAllQuestions 1 st1
       = (Throw (NotFoundException "No questions found for this assessment"), st1)
    /\ fst (allQuestionsNoAnswer 1 st1)
       = Throw (NotFoundException "No questions found for this assessment")
    /\ deleteExamPaper 1 st1 = (Ok "Exam paper deleted successfully"%string, st2)
    /\ findById Assessment.id 1 (addAssessment st2) = None
    /\ question st2 = question st1.
Proof.
  exact (deleteAllQuestions_then_deleteExamPaper Sample.two 1 (Sample.paper true) eq_refl).
Defined.

End ExamPaperMore2.

Section ExamPaperMore3.

Import ExamPaperService.





Lemma getQuestionById_found st examPaperId questionId q a :
  NoDup (map Question.id (question st)) ->
  findById Assessment.id examPaperId (addAssessment st) = Some a ->
  In q (question st) -> Question.id q = questionId ->
  Question.assessmentId q = examPaperId ->
  getQuestionById examPaperId questionId st = (Ok q, st).
Proof.
  intros Hu Hfind Hq Hqid Hown.
  unfold getQuestionById, bind, addAssessment_findUnique_questions, question_findFirst, gets.
  cbv beta. rewrite Hfind. cbv beta iota.
  destruct (find (fun x => (Question.id x =? questionId)
                           && (Question.assessmentId x =? examPaperId)) (question st))
    as [y|] eqn:Hy.
  - apply find_some in Hy. destruct Hy as [Hin Hy]. apply andb_true_iff in Hy.
    destruct Hy as [Hy1 Hy2]. apply Z.eqb_eq in Hy1, Hy2.
    unfold ret. do 2 f_equal.
    apply (unique_row Question.id (question st)); auto. congruence.
  - exfalso. pose proof (find_none _ _ Hy q Hq) as Hnone. cbv beta in Hnone.
    rewrite Hqid, Hown, !Z.eqb_refl in Hnone. discriminate.
Qed.

(** X4. getQuestionById returns a question exactly when the paper exists and
    the question table holds that question under that id and that paper; it
    never changes the store. *)
Theorem getQuestionById_finds_own_questions :
  forall (st : Store) (examPaperId questionId : Z) (q : Question.t),
    uniqueKeys Question.id (question st) = true ->
    (getQuestionById examPaperId questionId st = (Ok q, st)
     <-> (exists a, findById Assessment.id examPaperId (addAssessment st) = Some a)
         /\ In q (question st)
         /\ Question.id q = questionId
         /\ Question.assessmentId q = examPaperId)
    /\ snd (getQuestionById examPaperId questionId st) = st.
Proof.
  intros st examPaperId questionId q Hu. apply uniqueKeys_NoDup in Hu. split.
  - split.
    + unfold getQuestionById, bind, addAssessment_findUnique_questions, question_findFirst,
        gets. cbv beta.
      destruct (findById Assessment.id examPaperId (addAssessment st)) as [a|] eqn:Hfind;
        cbv beta iota; [|discriminate].
      destruct (find _ (question st)) as [y|] eqn:Hy; [|discriminate].
      apply find_some in Hy. destruct Hy as [Hin Hy]. apply andb_true_iff in Hy.
      destruct Hy as [Hy1 Hy2]. apply Z.eqb_eq in Hy1, Hy2.
      intros H. injection H as <-. eauto.
    + intros ([a Ha] & Hq & Hqid & Hown). eapply getQuestionById_found; eassumption.
  - unfold getQuestionById, bind, addAssessment_findUnique_questions, question_findFirst,
      gets. cbv beta.
    destruct (findById Assessment.id examPaperId (addAssessment st)); cbv beta iota;
      [|reflexivity].
    destruct (find _ (question st)); reflexivity.
Qed.

Lemma getQuestionById_finds_own_questions_witness :
  (getQuestionById 1 11 Sample.two = (Ok (Sample.question 11 2 "Q2" "b"), Sample.two)
   <-> (exists a, findById Assessment.id 1 (addAssessment Sample.two) = Some a)
       /\ In (Sample.question 11 2 "Q2" "b") (question Sample.two)
       /\ Question.id (Sample.question 11 2 "Q2" "b") = 11
       /\ Question.assessmentId (Sample.question 11 2 "Q2" "b") = 1)
  /\ snd (getQuestionById 1 11 Sample.two) = Sample.two.
Proof.
  apply (getQuestionById_finds_own_questions Sample.two 1 11 (Sample.question 11 2 "Q2" "b")).
  reflexivity.
Defined.

(** X5. getQuestionById and deleteQuestionById refuse the same requests with
    the same exception (their two parameters come in opposite orders): a
    missing paper, or a question that is not of that paper, another paper's
    question included. *)
Theorem getQuestionById_refuses_as_deleteQuestionById :
  forall (st : Store) (examPaperId questionId : Z) (e : Exception),
    uniqueKeys Question.id (question st) = true ->
    getQuestionById examPaperId questionId st = (Throw e, st)
    <-> deleteQuestionById questionId examPaperId st = (Throw e, st).
Proof.
  intros st examPaperId questionId e Hu.
  destruct (findById Assessment.id examPaperId (addAssessment st)) as [a|] eqn:Hfind.
  2:{ unfold getQuestionById, deleteQuestionById, bind, addAssessment_findUnique_questions,
        gets. cbv beta. rewrite Hfind. unfold throw.
      split; intros H; inversion H; reflexivity. }
  destruct (find (fun x => Question.id x =? questionId) (questionsOf examPaperId st))
    as [q|] eqn:Hq.
  - apply find_some in Hq. destruct Hq as [Hq Hid]. apply Z.eqb_eq in Hid.
    rewrite (deleteQuestionById_run st questionId examPaperId a q Hfind Hq Hid).
    apply questionsOf_In in Hq. destruct Hq as [Hq Hown].
    rewrite (getQuestionById_found st examPaperId questionId q a)
      by (try apply uniqueKeys_NoDup; assumption).
    split; discriminate.
  - assert (Hnone : find (fun x => (Question.id x =? questionId)
                                   && (Question.assessmentId x =? examPaperId)) (question st)
                    = None).
    { destruct (find _ (question st)) as [y|] eqn:Hy; [|reflexivity]. exfalso.
      apply find_some in Hy. destruct Hy as [Hin Hy]. apply andb_true_iff in Hy.
      destruct Hy as [Hy1 Hy2]. apply Z.eqb_eq in Hy2.
      assert (Hy' : In y (questionsOf examPaperId st)) by (apply questionsOf_In; tauto).
      pose proof (find_none _ _ Hq y Hy') as Hc. cbv beta in Hc. congruence. }
    unfold getQuestionById, deleteQuestionById, bind, addAssessment_findUnique_questions,
      question_findFirst, gets. cbv beta. rewrite Hfind. cbv beta iota.
    rewrite Hq, Hnone. unfold throw. split; intros H; inversion H; reflexivity.
Qed.

Lemma getQuestionById_refuses_as_deleteQuestionById_witness :
  getQuestionById 1 20 Sample.two
  = (Throw (NotFoundException "Question not found in this exam paper"), Sample.two)
  <-> deleteQuestionById 20 1 Sample.two
      = (Throw (NotFoundException "Question not found in this exam paper"), Sample.two).
Proof.
  apply (getQuestionById_refuses_as_deleteQuestionById Sample.two 1 20). reflexivity.
Defined.

End ExamPaperMore3.

Section ExamPaperMore4.

Import ExamPaperService.

Lemma updateById_sortBy_map {B} (g : Question.t -> B) i f rows owner :
  (forall q, g (f q) = g q) ->
  (forall q, Question.questionNumber (f q) = Question.questionNumber q) ->
  (forall q, Question.assessmentId (f q) = Question.assessmentId q) ->
  map g (sortBy Question.questionNumber
           (filter (fun q => Question.assessmentId q =? owner)
              (updateById Question.id i f rows)))
  = map g (sortBy Question.questionNumber
             (filter (fun q => Question.assessmentId q =? owner) rows)).
Proof.
  intros Hg Hn Ho.
  rewrite updateById_filter by (intros r; now rewrite Ho).
  generalize (filter (fun q => Question.assessmentId q =? owner) rows) as l.
  assert (Hins : forall x l,
             insertBy Question.questionNumber (if Question.id x =? i then f x else x)
               (updateById Question.id i f l)
             = updateById Question.id i f (insertBy Question.questionNumber x l)).
  { intros x l. induction l as [|y l IH]; simpl.
    - reflexivity.
    - replace (Question.questionNumber (if Question.id x =? i then f x else x))
        with (Question.questionNumber x) by (destruct (Question.id x =? i); now rewrite ?Hn).
      replace (Question.questionNumber (if Question.id y =? i then f y else y))
        with (Question.questionNumber y) by (destruct (Question.id y =? i); now rewrite ?Hn).
      destruct (Question.questionNumber x <=? Question.questionNumber y); simpl;
        [reflexivity | now rewrite IH]. }
  assert (Hsort : forall l, sortBy Question.questionNumber (updateById Question.id i f l)
                            = updateById Question.id i f (sortBy Question.questionNumber l)).
  { induction l as [|x l IH]; simpl; [reflexivity|]. now rewrite IH, Hins. }
  intros l. rewrite Hsort. apply updateById_map. exact Hg.
Qed.

(** X6. updateQuestion never looks at the exam paper named in the request: it
    updates the question with the given id whatever paper it belongs to.  It
    leaves the question's id, number and paper as they are, so every paper
    keeps its questions in the same order under the same numbers; the stored
    answer is the supplied one, or the empty string. *)
Theorem updateQuestion_keeps_numbering :
  forall (st : Store) (id questionId : Z) (dto : UpdateQuestionDto.t) (q : Question.t),
    findById Question.id questionId (question st) = Some q ->
    exists q' st',
      updateQuestion id questionId dto st = (Ok q', st')
      /\ (Question.id q', Question.questionNumber q', Question.assessmentId q')
         = (Question.id q, Question.questionNumber q, Question.assessmentId q)
      /\ Question.answer q' = Js.orStr (UpdateQuestionDto.answer dto) EmptyString
      /\ findById Question.id questionId (question st') = Some q'
      /\ addAssessment st' = addAssessment st
      /\ forall paper,
           map (fun x => (Question.id x, Question.questionNumber x)) (questionsOf paper st')
           = map (fun x => (Question.id x, Question.questionNumber x)) (questionsOf paper st).
Proof.
  intros st id questionId dto q Hfind.
  pose proof (findById_some _ _ _ _ Hfind) as [_ Hid].
  exists (updatedQuestion dto q),
    (setQuestion (updateById Question.id questionId (updatedQuestion dto) (question st)) st).
  split; [|split; [reflexivity|split; [reflexivity|split; [|split; [reflexivity|]]]]].
  - unfold updateQuestion, bind, question_findUnique, gets, question_update.
    cbv beta. rewrite Hfind. cbv beta iota. rewrite Hfind. reflexivity.
  - cbn [question setQuestion]. apply findById_updateById; [exact Hid | exact Hfind].
  - intros paper. unfold questionsOf. cbn [question setQuestion].
    apply updateById_sortBy_map; reflexivity.
Qed.

Lemma updateQuestion_keeps_numbering_witness :
  exists q' st',
    updateQuestion 2 11 Sample.questionPatch Sample.two = (Ok q', st')
    /\ (Question.id q', Question.questionNumber q', Question.assessmentId q') = (11, 2, 1)
    /\ Question.answer q' = EmptyString
    /\ findById Question.id 11 (question st') = Some q'
    /\ addAssessment st' = addAssessment Sample.two
    /\ forall paper,
         map (fun x => (Question.id x, Question.questionNumber x)) (questionsOf paper st')
         = map (fun x => (Question.id x, Question.questionNumber x))
               (questionsOf paper Sample.two).
Proof.
  exact (updateQuestion_keeps_numbering Sample.two 2 11 Sample.questionPatch
           (Sample.question 11 2 "Q2" "b") eq_refl).
Defined.

(** X7. Once deleted, a question is gone for both operations: getQuestionById
    and a second deleteQuestionById throw NotFound, the second delete
    changing nothing. *)
Theorem deleteQuestionById_twice :
  forall (st : Store) (questionId examPaperId : Z) (paper : Assessment.t) (q : Question.t),
    findById Assessment.id examPaperId (addAssessment st) = Some paper ->
    In q (questionsOf examPaperId st) ->
    Question.id q = questionId ->
    exists st',
      deleteQuestionById questionId examPaperId st
      = (Ok "Question deleted successfully and questions renumbered"%string, st')
      /\ getQuestionById examPaperId questionId st'
         = (Throw (NotFoundException "Question not found in this exam paper"), st')
      /\ deleteQuestionById questionId examPaperId st'
         = (Throw (NotFoundException "Question not found in this exam paper"), st').
Proof.
  intros st questionId examPaperId paper q Hpaper Hq Hid.
  eexists. split; [apply (deleteQuestionById_run st questionId examPaperId paper q); assumption|].
  set (st' := setQuestion _ st).
  assert (Hgone : forall x, In x (question st') -> Question.id x <> questionId).
  { intros x Hx Hxid. subst st'. cbn [question setQuestion] in Hx.
    assert (Hk : In questionId (map Question.id (deleteById Question.id questionId (question st)))).
    { apply (in_map Question.id) in Hx. rewrite renumberTable_keys, Hxid in Hx. exact Hx. }
    apply in_map_iff in Hk. destruct Hk as [y [Hy Hin]].
    apply filter_In in Hin. destruct Hin as [_ Hne].
    apply negb_true_iff, Z.eqb_neq in Hne. contradiction. }
  assert (Hpaper' : findById Assessment.id examPaperId (addAssessment st') = Some paper)
    by exact Hpaper.
  assert (Hget : getQuestionById examPaperId questionId st'
                 = (Throw (NotFoundException "Question not found in this exam paper"), st')).
  { unfold getQuestionById, bind, addAssessment_findUnique_questions, question_findFirst, gets.
    cbv beta. rewrite Hpaper'. cbv beta iota.
    destruct (find _ (question st')) as [y|] eqn:Hy; [|reflexivity]. exfalso.
    apply find_some in Hy. destruct Hy as [Hin Hy]. apply andb_true_iff in Hy.
    destruct Hy as [Hy _]. apply Z.eqb_eq in Hy. exact (Hgone y Hin Hy). }
  split; [exact Hget|].
  unfold deleteQuestionById, bind, addAssessment_findUnique_questions, gets.
  cbv beta. rewrite Hpaper'. cbv beta iota.
  destruct (find _ (questionsOf examPaperId st')) as [y|] eqn:Hy; [|reflexivity]. exfalso.
  apply find_some in Hy. destruct Hy as [Hin Hy]. apply Z.eqb_eq in Hy.
  apply questionsOf_In in Hin. exact (Hgone y (proj1 Hin) Hy).
Qed.

Lemma deleteQuestionById_twice_witness :
  exists st',
    deleteQuestionById 11 1 Sample.three
    = (Ok "Question deleted successfully and questions renumbered"%string, st')
    /\ getQuestionById 1 11 st'
       = (Throw (NotFoundException "Question not found in this exam paper"), st')
    /\ deleteQuestionById 11 1 st'
       = (Throw (NotFoundException "Question not found in this exam paper"), st').
Proof.
  apply (deleteQuestionById_twice Sample.three 11 1 (Sample.paper true)
           (Sample.question 11 2 "Q2" "b")).
  - reflexivity.
  - vm_compute. tauto.
  - reflexivity.
Defined.

End ExamPaperMore4.

Section ExamPaperMore5.

Import ExamPaperService.

(** X8. Upload and preview agree: in a store that satisfies its key
    constraints, previewExamPaper of the assessment an upload returned gives
    that assessment and those questions, and previewAllQuestions gives those
    questions. *)
Theorem previewExamPaper_after_upload :
  forall (fs : string -> Csv.Stream)
         (setTimeOfDay : Moment.DateTime -> list string -> option Moment.DateTime)
         (file : option Csv.File) (dto : UploadExamPaperDto.t) (st st' : Store)
         (resp : UploadResponse),
    Spec.consistent st = true ->
    uploadExamPaper fs setTimeOfDay file dto st = (Ok resp, st') ->
    previewExamPaper (Assessment.id (examPaper resp)) st'
    = (Ok (examPaper resp, questions resp), st')
    /\ previewAllQuestions (Assessment.id (examPaper resp)) st' = (Ok (questions resp), st')
    /\ questions resp <> [].
Proof.
  intros fs setTimeOfDay file dto st st' resp Hc H.
  apply uploadExamPaper_success in H.
  destruct H as (f & rows & sd & t1 & t2 & _ & _ & _ & Hne & _ & -> & Hfind & Hq).
  pose proof Hfind as Hfind0. simpl in Hfind0.
  rewrite (consistent_fresh_assessment st
             (Spec.createdAssessment (addAssessmentSeq st) dto sd t1 t2) Hc eq_refl) in Hfind0.
  injection Hfind0 as Hpaper.
  assert (Hid : Assessment.id (examPaper resp) = addAssessmentSeq st)
    by (rewrite <- Hpaper; reflexivity).
  rewrite Hid.
  assert (Hlen : questions resp <> []).
  { rewrite Hq. unfold questionsOf, Spec.uploaded. cbn [question].
    rewrite filter_app, (filter_none _ (question st)) by (apply consistent_fresh_owner, Hc).
    rewrite filter_all.
    - rewrite sortBy_of_sorted by apply createdRows_sorted.
      destruct (parseRows rows); [congruence | discriminate].
    - eapply Forall_impl; [|apply createdRows_owner].
      simpl. intros q ->. apply Z.eqb_refl. }
  split; [|split; [|exact Hlen]].
  - unfold previewExamPaper, bind, addAssessment_findUnique_questions, gets. cbv beta.
    rewrite Hfind. cbv beta iota. rewrite <- Hq. reflexivity.
  - unfold previewAllQuestions, bind, question_findMany, gets. cbv beta. rewrite <- Hq.
    destruct (questions resp); [congruence | reflexivity].
Qed.

Lemma previewExamPaper_after_upload_witness :
  previewExamPaper (Assessment.id (examPaper Sample.response)) Sample.afterUpload
  = (Ok (examPaper Sample.response, questions Sample.response), Sample.afterUpload)
  /\ previewAllQuestions (Assessment.id (examPaper Sample.response)) Sample.afterUpload
     = (Ok (questions Sample.response), Sample.afterUpload)
  /\ questions Sample.response <> [].
Proof.
  apply (previewExamPaper_after_upload Sample.fs Sample.setTimeOfDay (Some Sample.file)
           Sample.dto Sample.empty).
  - reflexivity.
  - vm_compute. reflexivity.
Defined.

Lemma count_updateById (p : Assessment.t -> bool) (i : Z) (f : Assessment.t -> Assessment.t)
      (rows : list Assessment.t) (a : Assessment.t) :
  NoDup (map Assessment.id rows) -> In a rows -> Assessment.id a = i ->
  p a = false ->
  List.length (filter p (updateById Assessment.id i f rows))
  = (List.length (filter p rows) + (if p (f a) then 1 else 0))%nat.
Proof.
  unfold updateById. induction rows as [|x rows IH]; simpl; intros Hd Hin Hid Hp; [tauto|].
  inversion Hd as [|? ? Hn Hd']; subst.
  destruct Hin as [-> | Hin].
  - rewrite Z.eqb_refl, Hp.
    assert (Hrest : map (fun r => if Assessment.id r =? Assessment.id a then f r else r) rows
                    = rows).
    { apply (updateById_absent Assessment.id). exact Hn. }
    rewrite Hrest. destruct (p (f a)); simpl; lia.
  - destruct (Assessment.id x =? Assessment.id a) eqn:E.
    + apply Z.eqb_eq in E. exfalso. apply Hn. rewrite E. apply in_map, Hin.
    + destruct (p x); simpl; rewrite (IH Hd' Hin eq_refl Hp); lia.
Qed.

(** X9. Publishing and the counts: publishing a draft adds it to the ongoing
    count exactly when [now] lies between its start and end, and to the
    upcoming count exactly when it is scheduled after [now]; as a draft it
    was in neither. *)
Theorem publishExamPaper_counts :
  forall (st : Store) (id : Z) (a : Assessment.t) (now : Moment.DateTime),
    uniqueKeys Assessment.id (addAssessment st) = true ->
    findById Assessment.id id (addAssessment st) = Some a ->
    Assessment.isDraft a = true ->
    exists st' ongoingBefore upcomingBefore,
      publishExamPaper id st = (Ok (Assessment.setIsDraft false a), st')
      /\ getOngoingAssessmentsCount now st = (Ok ongoingBefore, st)
      /\ getUpcomingAssessmentsCount now st = (Ok upcomingBefore, st)
      /\ getOngoingAssessmentsCount now st'
         = (Ok (ongoingBefore
                + (if Moment.leb (Assessment.startTime a) now
                      && Moment.leb now (Assessment.endTime a)
                   then 1 else 0))%nat, st')
      /\ getUpcomingAssessmentsCount now st'
         = (Ok (upcomingBefore
                + (if Moment.ltb now (Assessment.scheduledDate a) then 1 else 0))%nat, st').
Proof.
  intros st id a now Hu Hfind Hdraft.
  pose proof (findById_some _ _ _ _ Hfind) as [Hin Hid].
  apply uniqueKeys_NoDup in Hu.
  eexists. eexists. eexists. split; [|split; [reflexivity|split; [reflexivity|]]].
  - unfold publishExamPaper, bind, addAssessment_findUnique, gets, addAssessment_update.
    cbv beta. rewrite Hfind. cbv beta iota. rewrite Hfind. reflexivity.
  - unfold getOngoingAssessmentsCount, getUpcomingAssessmentsCount, gets.
    cbn [addAssessment setAddAssessment]. split.
    + rewrite (count_updateById (ongoing now) id _ _ a Hu Hin Hid)
        by (unfold ongoing; rewrite Hdraft; reflexivity).
      reflexivity.
    + rewrite (count_updateById (upcoming now) id _ _ a Hu Hin Hid)
        by (unfold upcoming; rewrite Hdraft; reflexivity).
      reflexivity.
Qed.

Lemma publishExamPaper_counts_witness :
  exists st' ongoingBefore upcomingBefore,
    publishExamPaper 1 Sample.three = (Ok (Sample.paper false), st')
    /\ getOngoingAssessmentsCount Sample.when Sample.three = (Ok ongoingBefore, Sample.three)
    /\ getUpcomingAssessmentsCount Sample.when Sample.three = (Ok upcomingBefore, Sample.three)
    /\ getOngoingAssessmentsCount Sample.when st' = (Ok (ongoingBefore + 1)%nat, st')
    /\ getUpcomingAssessmentsCount Sample.when st' = (Ok (upcomingBefore + 0)%nat, st').
Proof.
  exact (publishExamPaper_counts Sample.three 1 (Sample.paper true) Sample.when
           eq_refl eq_refl eq_refl).
Defined.

(** X10. The upcoming count of countAllExamPapers takes drafts in, the one of
    getUpcomingAssessmentsCount leaves them out: they differ by the number of
    drafts scheduled after [now]. *)
Theorem countAllExamPapers_counts_drafts :
  forall (st : Store) (courses users : nat) (now : Moment.DateTime),
    exists published,
      getUpcomingAssessmentsCount now st = (Ok published, st)
      /\ countAllExamPapers courses users now st
         = (Ok (mkCounts courses users
                  (published
                   + List.length
                       (filter (fun a => Assessment.isDraft a
                                         && Moment.ltb now (Assessment.scheduledDate a))
                               (addAssessment st)))%nat), st).
Proof.
  intros st courses users now. eexists. split; [reflexivity|].
  unfold countAllExamPapers, gets, upcoming. do 3 f_equal.
  induction (addAssessment st) as [|a l IH]; simpl; [reflexivity|].
  destruct (Assessment.isDraft a), (Moment.ltb now (Assessment.scheduledDate a)); simpl; lia.
Qed.

End ExamPaperMore5.

Section ExamPaperMore6.

Import ExamPaperService.

Lemma Forall_filter_keep {A} (P : A -> Prop) (p : A -> bool) (l : list A) :
  Forall P l -> Forall P (filter p l).
Proof.
  rewrite !Forall_forall. intros H x Hx. apply filter_In in Hx. apply H, Hx.
Qed.

Lemma deleteExamPaper_consistent st id r st' :
  Spec.consistent st = true ->
  deleteExamPaper id st = (r, st') ->
  Spec.consistent st' = true.
Proof.
  intros Hc. unfold deleteExamPaper, bind, addAssessment_findUnique, question_findMany_where,
    gets, addAssessment_delete. cbv beta.
  destruct (findById Assessment.id id (addAssessment st)) as [a|] eqn:Hfind; cbv beta iota.
  2:{ intros H. inversion H; subst. exact Hc. }
  destruct (filter (fun q => Question.assessmentId q =? id) (question st)) as [|q l] eqn:Hq;
    cbn [List.length Nat.ltb Nat.leb]; cbv beta iota.
  2:{ intros H. inversion H; subst. exact Hc. }
  rewrite Hfind. intros H. inversion H; subst r st'. clear H.
  apply consistent_iff in Hc. destruct Hc as (H1 & H2 & H3 & H4 & H5).
  apply consistent_iff. cbn [addAssessment question addAssessmentSeq questionSeq setAddAssessment].
  unfold deleteById. split; [apply NoDup_keys_filter, H1|]. split; [exact H2|].
  split; [apply Forall_filter_keep; exact H3 |]. split; [exact H4|].
  rewrite Forall_forall in *. intros x Hx. specialize (H5 x Hx).
  apply in_map_iff in H5. destruct H5 as [b [Hb Hin]].
  apply in_map_iff. exists b. split; [exact Hb|]. apply filter_In. split; [exact Hin|].
  apply negb_true_iff, Z.eqb_neq. intros Hbid.
  assert (Hx' : In x (filter (fun q => Question.assessmentId q =? id) (question st)))
    by (apply filter_In; split; [exact Hx | apply Z.eqb_eq; congruence]).
  rewrite Hq in Hx'. exact Hx'.
Qed.

Lemma deleteAllQuestions_consistent st id r st' :
  Spec.consistent st = true ->
  deleteAllQuestions id st = (r, st') ->
  Spec.consistent st' = true.
Proof.
  intros Hc. unfold deleteAllQuestions, bind, addAssessment_findUnique, gets,
    question_deleteMany. cbv beta.
  destruct (findById Assessment.id id (addAssessment st)) as [a|] eqn:Hfind; cbv beta iota.
  2:{ intros H. inversion H; subst. exact Hc. }
  intros H. inversion H; subst r st'. clear H.
  apply consistent_iff in Hc. destruct Hc as (H1 & H2 & H3 & H4 & H5).
  apply consistent_iff. cbn [addAssessment question addAssessmentSeq questionSeq setQuestion].
  split; [exact H1|]. split; [apply NoDup_keys_filter, H2|]. split; [exact H3|].
  split; apply Forall_filter_keep; assumption.
Qed.

Lemma updateExamPaper_consistent st id d r st' :
  Spec.consistent st = true ->
  updateExamPaper id d st = (r, st') ->
  Spec.consistent st' = true.
Proof.
  intros Hc. unfold updateExamPaper, bind, addAssessment_findUnique, gets,
    addAssessment_update. cbv beta.
  destruct (findById Assessment.id id (addAssessment st)) as [a|] eqn:Hfind; cbv beta iota.
  2:{ intros H. inversion H; subst. exact Hc. }
  rewrite Hfind. intros H. inversion H; subst r st'. clear H.
  apply consistent_iff in Hc. destruct Hc as (H1 & H2 & H3 & H4 & H5).
  apply consistent_iff. cbn [addAssessment question addAssessmentSeq questionSeq setAddAssessment].
  rewrite (updateById_keys Assessment.id) by reflexivity.
  split; [exact H1|]. split; [exact H2|]. split; [|split; [exact H4 | exact H5]].
  apply (Forall_by_map Assessment.id (fun k => k < addAssessmentSeq st)).
  rewrite (updateById_keys Assessment.id) by reflexivity. apply Forall_by_map. exact H3.
Qed.

Lemma updateQuestion_consistent st id questionId d r st' :
  Spec.consistent st = true ->
  updateQuestion id questionId d st = (r, st') ->
  Spec.consistent st' = true.
Proof.
  intros Hc. unfold updateQuestion, bind, question_findUnique, gets, question_update. cbv beta.
  destruct (findById Question.id questionId (question st)) as [q|] eqn:Hfind; cbv beta iota.
  2:{ intros H. inversion H; subst. exact Hc. }
  rewrite Hfind. intros H. inversion H; subst r st'. clear H.
  apply consistent_iff in Hc. destruct Hc as (H1 & H2 & H3 & H4 & H5).
  apply consistent_iff. cbn [addAssessment question addAssessmentSeq questionSeq setQuestion].
  rewrite (updateById_keys Question.id) by reflexivity.
  split; [exact H1|]. split; [exact H2|]. split; [exact H3|]. split.
  - apply (Forall_by_map Question.id (fun k => k < questionSeq st)).
    rewrite (updateById_keys Question.id) by reflexivity. apply Forall_by_map. exact H4.
  - apply (Forall_by_map Question.assessmentId
             (fun k => In k (map Assessment.id (addAssessment st)))).
    rewrite (updateById_map Question.id Question.assessmentId) by reflexivity.
    apply Forall_by_map. exact H5.
Qed.

(** X11. The key constraints of the exam tables (unique ids below the sequences,
    every question owned by a stored assessment) are kept by every writing
    operation of the service, whatever its arguments and its outcome: no
    operation leaves a question without its assessment. *)
Theorem consistent_kept :
  forall (st : Store),
    Spec.consistent st = true ->
    (forall fs setTimeOfDay file dto,
        Spec.consistent (snd (uploadExamPaper fs setTimeOfDay file dto st)) = true)
    /\ (forall questionId examPaperId,
          Spec.consistent (snd (deleteQuestionById questionId examPaperId st)) = true)
    /\ (forall id, Spec.consistent (snd (deleteAllQuestions id st)) = true)
    /\ (forall id, Spec.consistent (snd (deleteExamPaper id st)) = true)
    /\ (forall id, Spec.consistent (snd (publishExamPaper id st)) = true)
    /\ (forall id updateData, Spec.consistent (snd (updateExamPaper id updateData st)) = true)
    /\ (forall id questionId dto,
          Spec.consistent (snd (updateQuestion id questionId dto st)) = true).
Proof.
  intros st Hc. repeat split; intros.
  - eapply uploadExamPaper_consistent; [exact Hc | apply surjective_pairing].
  - eapply deleteQuestionById_consistent; [exact Hc | apply surjective_pairing].
  - eapply deleteAllQuestions_consistent; [exact Hc | apply surjective_pairing].
  - eapply deleteExamPaper_consistent; [exact Hc | apply surjective_pairing].
  - eapply publishExamPaper_consistent; [exact Hc | apply surjective_pairing].
  - eapply updateExamPaper_consistent; [exact Hc | apply surjective_pairing].
  - eapply updateQuestion_consistent; [exact Hc | apply surjective_pairing].
Qed.

Lemma consistent_kept_witness :
  (forall fs setTimeOfDay file dto,
      Spec.consistent (snd (uploadExamPaper fs setTimeOfDay file dto Sample.two)) = true)
  /\ (forall questionId examPaperId,
        Spec.consistent (snd (deleteQuestionById questionId examPaperId Sample.two)) = true)
  /\ (forall id, Spec.consistent (snd (deleteAllQuestions id Sample.two)) = true)
  /\ (forall id, Spec.consistent (snd (deleteExamPaper id Sample.two)) = true)
  /\ (forall id, Spec.consistent (snd (publishExamPaper id Sample.two)) = true)
  /\ (forall id updateData,
        Spec.consistent (snd (updateExamPaper id updateData Sample.two)) = true)
  /\ (forall id questionId dto,
        Spec.consistent (snd (updateQuestion id questionId dto Sample.two)) = true).
Proof. exact (consistent_kept Sample.two eq_refl). Defined.

End ExamPaperMore6.

Section UploadMore.

Import ExamPaperService.

Variable fs : string -> Csv.Stream.
Variable setTimeOfDay : Moment.DateTime -> list string -> option Moment.DateTime.


(** X13. The file check: an upload is refused as InvalidFile exactly when there
    is no file or the original name of the file does not end in .csv, and
    such an upload never reads the file. *)
Theorem uploadExamPaper_file_check :
  forall (file : option Csv.File) (dto : UploadExamPaperDto.t) (st : Store),
    (fst (uploadExamPaper fs setTimeOfDay file dto st) = Throw InvalidFile
     <-> (forall f, file = Some f ->
                    ~ exists stem, Csv.originalname f = (stem ++ ".csv")%string))
    /\ (fst (uploadExamPaper fs setTimeOfDay file dto st) = Throw InvalidFile ->
        forall fs', uploadExamPaper fs' setTimeOfDay file dto st = (Throw InvalidFile, st)).
Proof.
  intros file dto st.
  assert (Hno : forall fs',
             (forall f, file = Some f ->
                        ~ exists stem, Csv.originalname f = (stem ++ ".csv")%string) ->
             uploadExamPaper fs' setTimeOfDay file dto st = (Throw InvalidFile, st)).
  { intros fs' H. unfold uploadExamPaper. destruct file as [f|]; [|reflexivity].
    destruct (JsString.endsWith ".csv" (Csv.originalname f)) eqn:Ecsv; [|reflexivity].
    exfalso. apply (H f eq_refl). apply endsWith_suffix. exact Ecsv. }
  assert (Hyes : fst (uploadExamPaper fs setTimeOfDay file dto st) = Throw InvalidFile ->
                 forall f, file = Some f ->
                           ~ exists stem, Csv.originalname f = (stem ++ ".csv")%string).
  { intros H f -> Hex. apply endsWith_suffix in Hex. revert H.
    unfold uploadExamPaper. rewrite Hex. cbn [negb].
    unfold bind at 1. unfold parseCsv.
    destruct (fs (Csv.path f)) as [rows | rows msg | rows]; [|simpl; discriminate..].
    unfold ret at 1.
    destruct (List.length (parseRows rows) =? 0)%nat; [simpl; discriminate|].
    destruct (Moment.parseStrict (UploadExamPaperDto.scheduledDate dto)) as [sd|];
      [|simpl; discriminate].
    cbv zeta.
    match goal with |- fst ((if ?c then _ else _) _) = _ -> _ =>
      destruct c; [simpl; discriminate|] end.
    destruct (setTimeOfDay sd (JsString.split ":" (UploadExamPaperDto.startTime dto)))
      as [t1|]; [|simpl; discriminate].
    destruct (setTimeOfDay sd (JsString.split ":" (UploadExamPaperDto.endTime dto)))
      as [t2|]; [|simpl; discriminate].
    unfold transaction. unfold bind at 1. unfold addAssessment_create.
    unfold bind at 1. rewrite createQuestions_run.
    unfold bind, addAssessment_findUnique_questions, gets.
    match goal with
    | |- context [match findById ?k ?i ?l with _ => _ end] => destruct (findById k i l)
    end; simpl; discriminate. }
  split; [split|].
  - exact Hyes.
  - intros H. rewrite (Hno fs H). reflexivity.
  - intros H fs'. apply Hno, Hyes, H.
Qed.

(** X14. The time check: once the file, the questions and the scheduled date
    have passed, a start or end time that does not hold exactly two colons
    is refused as InvalidTimeFormat, whatever the time-of-day arithmetic
    would make of it, and the store is left as it was. *)
Theorem uploadExamPaper_time_needs_two_colons :
  forall (f : Csv.File) (dto : UploadExamPaperDto.t) (st : Store) (rows : list Csv.Row)
         (scheduledDate : Moment.DateTime),
    JsString.endsWith ".csv" (Csv.originalname f) = true ->
    fs (Csv.path f) = Csv.End_ rows ->
    parseRows rows <> [] ->
    Moment.parseStrict (UploadExamPaperDto.scheduledDate dto) = Some scheduledDate ->
    JsString.occurrences ":" (UploadExamPaperDto.startTime dto) <> 2%nat
    \/ JsString.occurrences ":" (UploadExamPaperDto.endTime dto) <> 2%nat ->
    uploadExamPaper fs setTimeOfDay (Some f) dto st = (Throw InvalidTimeFormat, st).
Proof.
  intros f dto st rows sd Hcsv Hfs Hne Hdate Hparts.
  unfold uploadExamPaper. rewrite Hcsv. cbn [negb].
  unfold bind at 1. unfold parseCsv. rewrite Hfs. unfold ret at 1.
  destruct (parseRows rows) as [|p l]; [congruence|].
  cbn [List.length Nat.eqb]. rewrite Hdate. cbv zeta.
  rewrite !split_length.
  assert (Hc : negb (S (JsString.occurrences ":" (UploadExamPaperDto.startTime dto)) =? 3)%nat
               || negb (S (JsString.occurrences ":" (UploadExamPaperDto.endTime dto)) =? 3)%nat
               = true).
  { apply orb_true_iff. destruct Hparts as [H | H]; [left | right];
      apply negb_true_iff, Nat.eqb_neq; lia. }
  rewrite Hc. reflexivity.
Qed.

End UploadMore.

Lemma uploadExamPaper_time_needs_two_colons_witness :
  ExamPaperService.uploadExamPaper Sample.fs Sample.setTimeOfDay (Some Sample.file)
    Sample.badTimeDto Sample.empty
  = (Throw ExamPaperService.InvalidTimeFormat, Sample.empty).
Proof.
  apply (uploadExamPaper_time_needs_two_colons Sample.fs Sample.setTimeOfDay Sample.file
           Sample.badTimeDto Sample.empty Sample.rows (Moment.mkDateTime 2025 1 1 0 0 0)).
  - reflexivity.
  - reflexivity.
  - vm_compute. discriminate.
  - reflexivity.
  - left. vm_compute. discriminate.
Defined.

Section Partition.

Context {A Q : Type} (key : A -> Z) (owner : Q -> Z).

Lemma filter_split (p r : Q -> bool) (qs : list Q) :
  (forall q, In q qs -> p q = true -> r q = false) ->
  Permutation (filter p qs ++ filter r qs) (filter (fun q => p q || r q) qs).
Proof.
  induction qs as [|q qs IH]; intros H; simpl; [constructor|].
  assert (IH' := IH (fun x Hx => H x (or_intror Hx))).
  destruct (p q) eqn:Ep; simpl.
  - rewrite (H q (or_introl eq_refl) Ep). constructor. exact IH'.
  - destruct (r q); [|exact IH'].
    eapply perm_trans; [apply Permutation_sym, Permutation_middle|].
    constructor. exact IH'.
Qed.

(** Grouping the rows of a table by the keys of their owners loses and
    repeats none of the rows that have an owner. *)
Lemma group_by_owner (rows : list A) (qs : list Q) :
  NoDup (map key rows) ->
  Permutation (flat_map (fun a => filter (fun q => owner q =? key a) qs) rows)
              (filter (fun q => existsb (fun a => key a =? owner q) rows) qs).
Proof.
  induction rows as [|a rows IH]; intros Hd; simpl.
  - induction qs; simpl; [constructor | assumption].
  - inversion Hd as [|? ? Hn Hd']; subst.
    eapply perm_trans; [apply Permutation_app_head, IH, Hd'|].
    eapply perm_trans; [apply filter_split|].
    + intros q _ Hq. apply Z.eqb_eq in Hq.
      destruct (existsb (fun a0 => key a0 =? owner q) rows) eqn:E; [|reflexivity].
      apply existsb_exists in E. destruct E as [b [Hb Hk]]. apply Z.eqb_eq in Hk.
      exfalso. apply Hn. rewrite <- Hq, <- Hk. apply in_map, Hb.
    + erewrite filter_ext; [reflexivity|].
      intros q. simpl. rewrite (Z.eqb_sym (owner q)). reflexivity.
Qed.

Lemma flat_map_permutation {B} (f g : A -> list B) (rows : list A) :
  (forall a, Permutation (f a) (g a)) ->
  Permutation (flat_map f rows) (flat_map g rows).
Proof.
  intros H. induction rows; simpl; [constructor|]. apply Permutation_app; auto.
Qed.

End Partition.

Section ExamPaperMore8.

Import ExamPaperService.

(** X15. In a store that satisfies its key constraints getAllExamPapers lists
    the assessments in table order, each with its own questions in
    ascending number order, and the question lists partition the question
    table: every stored question appears under exactly one assessment. *)
Theorem getAllExamPapers_partitions_questions :
  forall (st : Store),
    Spec.consistent st = true ->
    exists papers,
      getAllExamPapers st = (Ok papers, st)
      /\ map fst papers = addAssessment st
      /\ Permutation (List.concat (map snd papers)) (question st)
      /\ Forall (fun p =>
                   StronglySorted (keyLe Question.questionNumber) (snd p)
                   /\ Forall (fun q => Question.assessmentId q = Assessment.id (fst p)) (snd p))
                papers.
Proof.
  intros st Hc. apply consistent_iff in Hc. destruct Hc as (Hd & _ & _ & _ & Hfk).
  eexists. split; [reflexivity|]. split; [|split].
  - rewrite map_map. simpl. apply map_id.
  - rewrite map_map. cbn [snd]. rewrite <- flat_map_concat_map.
    eapply perm_trans.
    { apply flat_map_permutation. intros a. apply sortBy_permutation. }
    eapply perm_trans; [apply (group_by_owner Assessment.id Question.assessmentId), Hd|].
    rewrite filter_all; [apply Permutation_refl|].
    eapply Forall_impl; [|exact Hfk]. intros q Hq. cbv beta in Hq.
    apply in_map_iff in Hq. destruct Hq as [a [Ha Hin]].
    apply existsb_exists. exists a. split; [exact Hin | apply Z.eqb_eq, Ha].
  - apply Forall_forall. intros p Hp. apply in_map_iff in Hp.
    destruct Hp as [a [<- _]]. cbn [fst snd]. split.
    + apply sortBy_sorted.
    + apply Forall_forall. intros q Hq. apply questionsOf_In in Hq. tauto.
Qed.

Lemma getAllExamPapers_partitions_questions_witness :
  exists papers,
    getAllExamPapers Sample.two = (Ok papers, Sample.two)
    /\ map fst papers = addAssessment Sample.two
    /\ Permutation (List.concat (map snd papers)) (question Sample.two)
    /\ Forall (fun p =>
                 StronglySorted (keyLe Question.questionNumber) (snd p)
                 /\ Forall (fun q => Question.assessmentId q = Assessment.id (fst p)) (snd p))
              papers.
Proof. exact (getAllExamPapers_partitions_questions Sample.two eq_refl). Defined.

(** X16. In a store that satisfies its key constraints previewAllQuestions
    returns a list exactly when the list is not empty and previewExamPaper
    returns a paper with that list: questions are never previewed for an
    assessment that is not stored. *)
Theorem previewAllQuestions_agrees_with_previewExamPaper :
  forall (st : Store) (id : Z) (qs : list Question.t),
    Spec.consistent st = true ->
    (previewAllQuestions id st = (Ok qs, st)
     <-> qs <> [] /\ exists a, previewExamPaper id st = (Ok (a, qs), st)).
Proof.
  intros st id qs Hc. apply consistent_iff in Hc. destruct Hc as (_ & _ & _ & _ & Hfk).
  unfold previewExamPaper, previewAllQuestions, bind, addAssessment_findUnique_questions,
    question_findMany, gets. cbv beta. split.
  - destruct (questionsOf id st) as [|q l] eqn:E; cbn [List.length Nat.eqb]; [discriminate|].
    intros H. injection H as <-. split; [discriminate|].
    assert (Hq : In q (questionsOf id st)) by (rewrite E; left; reflexivity).
    apply questionsOf_In in Hq. destruct Hq as [Hin Hown].
    rewrite Forall_forall in Hfk. specialize (Hfk q Hin). cbv beta in Hfk.
    rewrite Hown in Hfk. apply findById_of_key in Hfk. destruct Hfk as [a Ha].
    exists a. rewrite Ha. reflexivity.
  - intros [Hne [a H]].
    destruct (findById Assessment.id id (addAssessment st)); [|discriminate].
    cbv beta iota in H. injection H as _ <-.
    destruct (questionsOf id st); [congruence | reflexivity].
Qed.

Lemma previewAllQuestions_agrees_with_previewExamPaper_witness :
  previewAllQuestions 1 Sample.two = (Ok (questionsOf 1 Sample.two), Sample.two)
  <-> questionsOf 1 Sample.two <> []
      /\ exists a, previewExamPaper 1 Sample.two = (Ok (a, questionsOf 1 Sample.two), Sample.two).
Proof.
  exact (previewAllQuestions_agrees_with_previewExamPaper Sample.two 1
           (questionsOf 1 Sample.two) eq_refl).
Defined.

End ExamPaperMore8.

Section CourseFacts.

Import ExamPaperService.

Lemma formatUnits_ids code units :
  forall index,
    map Course.u_id (formatUnits index code units)
    = map (fun k => index + Z.of_nat k) (seq 1 (List.length units)).
Proof.
  induction units as [|u units IH]; intros index; simpl; [reflexivity|].
  f_equal. rewrite IH, <- (seq_shift _ 1), map_map. apply map_ext. intros k. lia.
Qed.

Lemma formatUnits_names code units :
  forall index, map Course.unitName (formatUnits index code units) = units.
Proof. induction units as [|u units IH]; intros; simpl; [reflexivity | now rewrite IH]. Qed.

Lemma formatUnits_codes code units :
  forall index, Forall (fun u => Course.unitCode u = code) (formatUnits index code units).
Proof. induction units; intros; simpl; constructor; auto. Qed.

(** X17. getCourseUnits answers for a stored course with one entry per unit name,
    in the order of the names, numbered 1, 2, ... by position (the numbers
    are no database ids), each carrying the one unit code of the course; for
    an id that no course has it throws NotFound. The table is not changed. *)
Theorem getCourseUnits_numbers_by_position :
  forall (courses : list Course.t) (courseId : Z),
    (forall course,
        findById Course.id courseId courses = Some course ->
        exists units,
          getCourseUnits courseId courses = (Ok units, courses)
          /\ map Course.unitName units = Course.courseUnits course
          /\ map Course.u_id units = Spec.oneTo (List.length (Course.courseUnits course))
          /\ Forall (fun u => Course.unitCode u = Course.courseUnitCode course) units)
    /\ (findById Course.id courseId courses = None ->
        getCourseUnits courseId courses
        = (Throw (NotFoundException "Course not found"), courses)).
Proof.
  intros courses courseId. unfold getCourseUnits, bind, gets. split.
  - intros course ->. eexists. split; [reflexivity|]. split; [|split].
    + apply formatUnits_names.
    + rewrite formatUnits_ids. unfold Spec.oneTo. apply map_ext. intros; lia.
    + apply formatUnits_codes.
  - intros ->. reflexivity.
Qed.

End CourseFacts.

Section JsonRoundTrip.

Import Json.

Lemma list_ascii_of_string_app (a b : string) :
  list_ascii_of_string (a ++ b) = list_ascii_of_string a ++ list_ascii_of_string b.
Proof. induction a as [|c a IH]; simpl; [reflexivity | now rewrite IH]. Qed.

(** A code unit that emits no token only moves the lexer on. *)
Lemma lexFrom_silent st c st' cs :
  step st c = Some ([], st') -> lexFrom st (c :: cs) = lexFrom st' cs.
Proof. intros H. simpl. rewrite H. destruct (lexFrom st' cs); reflexivity. Qed.

Lemma lexFrom_emit st c t st' cs :
  step st c = Some ([t], st') ->
  lexFrom st (c :: cs)
  = match lexFrom st' cs with Some ts => Some (t :: ts) | None => None end.
Proof. intros H. simpl. rewrite H. reflexivity. Qed.

(** Inside a string literal the lexer reads what [quoteChar] writes for a
    code unit as that code unit. *)
Lemma lex_quoteChar (c : ascii) (acc : list ascii) (rest : list ascii) :
  lexFrom (LStr acc) (list_ascii_of_string (quoteChar c) ++ rest)
  = lexFrom (LStr (c :: acc)) rest.
Proof.
  destruct c as [[] [] [] [] [] [] [] []];
    match goal with
    | |- context [list_ascii_of_string (quoteChar ?c)] =>
        let q := eval vm_compute in (list_ascii_of_string (quoteChar c)) in
        change (list_ascii_of_string (quoteChar c)) with q
    end;
    cbn [app]; repeat (erewrite lexFrom_silent by (vm_compute; reflexivity)); reflexivity.
Qed.

Lemma lex_quoteBody (s : string) :
  forall acc rest,
    lexFrom (LStr acc) (list_ascii_of_string (quoteBody s) ++ rest)
    = lexFrom (LStr (rev (list_ascii_of_string s) ++ acc)) rest.
Proof.
  induction s as [|c s IH]; intros acc rest; [reflexivity|].
  cbn [quoteBody list_ascii_of_string rev].
  rewrite list_ascii_of_string_app, <- !app_assoc, lex_quoteChar, IH. reflexivity.
Qed.

Lemma lex_quote (s : string) (rest : list ascii) :
  lexFrom LIdle (list_ascii_of_string (quote s) ++ rest)
  = match lexFrom LIdle rest with Some ts => Some (TString s :: ts) | None => None end.
Proof.
  unfold quote. rewrite !list_ascii_of_string_app, <- !app_assoc.
  change (list_ascii_of_string JsString.dquote) with [JsString.chr 34].
  cbn [app]. erewrite lexFrom_silent by reflexivity.
  rewrite lex_quoteBody. erewrite lexFrom_emit by reflexivity.
  unfold ofRev. rewrite app_nil_r, rev_involutive, string_of_list_ascii_of_string.
  reflexivity.
Qed.

(** The elements of a stringified array, after the opening bracket. *)
Lemma parse_elements (l : list string) :
  forall (st0 : pstate) (acc : list JSON) (s : string),
    (forall x, pstep st0 (TString x) = pushValue (JString x) [FArr acc]) ->
    exists ts,
      lexFrom LIdle (list_ascii_of_string (String.concat "," (map quote (s :: l))) ++ ["]"%char])
      = Some ts
      /\ run st0 ts = Some (JArray (rev acc ++ map JString (s :: l))).
Proof.
  induction l as [|s' l IH]; intros st0 acc s Hst.
  - cbn [map String.concat]. rewrite lex_quote.
    eexists. split; [reflexivity|].
    cbn [run]. rewrite Hst. reflexivity.
  - destruct (IH (SValue [FArr (JString s :: acc)]) (JString s :: acc) s') as [ts [Hlex Hrun]];
      [reflexivity|].
    change (String.concat "," (map quote (s :: s' :: l)))
      with (quote s ++ "," ++ String.concat "," (map quote (s' :: l)))%string.
    rewrite !list_ascii_of_string_app, <- !app_assoc, lex_quote.
    change (list_ascii_of_string ",") with [","%char]. cbn [app].
    erewrite lexFrom_emit by reflexivity. rewrite Hlex.
    eexists. split; [reflexivity|].
    cbn [run]. rewrite Hst. cbn [pushValue run pstep].
    rewrite Hrun. cbn [rev map]. rewrite <- app_assoc. reflexivity.
Qed.

(** [JSON.parse] reads what [JSON.stringify] writes for an array of
    strings as that array. *)
Lemma parse_stringifyStrings (l : list string) :
  parse (stringifyStrings l) = Some (JArray (map JString l)).
Proof.
  destruct l as [|s l]; [reflexivity|].
  destruct (parse_elements l (SArrOpen [FArr []]) [] s) as [ts [Hlex Hrun]]; [reflexivity|].
  unfold parse, lex, stringifyStrings.
  change ("[" ++ String.concat "," (map quote (s :: l)) ++ "]")%string
    with (String "["%char (String.concat "," (map quote (s :: l)) ++ "]")%string).
  cbn [list_ascii_of_string]. rewrite list_ascii_of_string_app.
  change (list_ascii_of_string "]") with ["]"%char].
  erewrite lexFrom_emit by reflexivity. rewrite Hlex.
  cbn [run pstep startValue]. exact Hrun.
Qed.

End JsonRoundTrip.

Section ManualMore.

Import ManualAssessmentService.

Lemma manualConsistent_iff st :
  Spec.manualConsistent st = true <->
  NoDup (map ManualAssessment.id (manualAssessment st))
  /\ Forall (fun a => ManualAssessment.id a < manualAssessmentSeq st) (manualAssessment st)
  /\ Forall (fun q => In (QuestionManual.manualAssessmentId q)
                         (map ManualAssessment.id (manualAssessment st)))
            (questionManual st).
Proof.
  unfold Spec.manualConsistent. rewrite !andb_true_iff, !forallb_forall, !Forall_forall.
  split.
  - intros [[H1 H2] H3]. split; [apply uniqueKeys_NoDup, H1|]. split.
    + intros a Ha. apply Z.ltb_lt, H2, Ha.
    + intros q Hq. specialize (H3 q Hq). apply existsb_exists in H3.
      destruct H3 as [a [Ha Hid]]. apply Z.eqb_eq in Hid. rewrite <- Hid. apply in_map, Ha.
  - intros (H1 & H2 & H3). split; [split|].
    + apply NoDup_uniqueKeys, H1.
    + intros a Ha. apply Z.ltb_lt, H2, Ha.
    + intros q Hq. specialize (H3 q Hq). apply in_map_iff in H3.
      destruct H3 as [a [Hid Ha]]. apply existsb_exists. exists a.
      split; [exact Ha | apply Z.eqb_eq, Hid].
Qed.

Lemma findById_fresh {R} (key : R -> Z) (rows : list R) (r : R) (i : Z) :
  Forall (fun a => key a < i) rows -> key r = i ->
  findById key i (rows ++ [r]) = Some r.
Proof.
  intros H Hk. unfold findById. induction H as [|x l Hx _ IH]; simpl.
  - rewrite Hk, Z.eqb_refl. reflexivity.
  - destruct (key x =? i) eqn:E; [apply Z.eqb_eq in E; lia | exact IH].
Qed.

Lemma findById_app_old {R} (key : R -> Z) (rows extra : list R) (r : R) (i : Z) :
  findById key i rows = Some r -> findById key i (rows ++ extra) = Some r.
Proof.
  unfold findById. induction rows as [|x l IH]; simpl; [discriminate|].
  destruct (key x =? i); auto.
Qed.

Lemma nestedCreate_length questions :
  forall seq owner, List.length (nestedCreate seq owner questions) = List.length questions.
Proof. induction questions; intros; simpl; congruence. Qed.

Lemma nestedCreate_foreign questions :
  forall seq owner other,
    other <> owner ->
    filter (fun q => QuestionManual.manualAssessmentId q =? other)
           (nestedCreate seq owner questions) = [].
Proof.
  induction questions as [|d l IH]; intros seq owner other Hne; simpl; [reflexivity|].
  destruct (owner =? other) eqn:E; [apply Z.eqb_eq in E; congruence|]. now apply IH.
Qed.

(** X18. A created manual assessment gets the next id and holds the ten scalar
    values exactly as supplied, a zero or an empty string included (an
    update would keep the prior value there); read back by findOne
    in a store that satisfies its key constraints, it comes with one question
    per supplied question object, in the order supplied, and nothing else;
    every assessment that was stored reads back as before. *)
Theorem create_then_findOne :
  forall (st : Store) (data : ManualAssessmentDto.t),
    Spec.manualConsistent st = true ->
    exists row st' created,
      create data st = (Ok row, st')
      /\ ManualAssessment.id row = manualAssessmentSeq st
      /\ (forall f, stored f row = supplied f data)
      /\ findOne (ManualAssessment.id row) st' = (Ok (row, created), st')
      /\ map QuestionManual.data created = mapQuestions (ManualAssessmentDto.questions data)
      /\ (forall id a, findById ManualAssessment.id id (manualAssessment st) = Some a ->
                       fst (findOne id st') = fst (findOne id st))
      /\ Spec.manualConsistent st' = true.
Proof.
  intros st data Hc. apply manualConsistent_iff in Hc. destruct Hc as (Hd & Hlt & Hfk).
  set (qs := mapQuestions (ManualAssessmentDto.questions data)).
  eexists. eexists. exists (nestedCreate (questionManualSeq st) (manualAssessmentSeq st) qs).
  split; [reflexivity|]. cbn [ManualAssessment.id].
  split; [reflexivity|]. split; [intros []; reflexivity|].
  assert (Hold : filter (fun q => QuestionManual.manualAssessmentId q =? manualAssessmentSeq st)
                        (questionManual st) = []).
  { apply filter_none. eapply Forall_impl; [|exact Hfk]. intros q Hq. cbv beta in Hq.
    apply Z.eqb_neq. intros Heq. rewrite Heq in Hq. apply in_map_iff in Hq.
    destruct Hq as [a [Ha Hin]]. rewrite Forall_forall in Hlt. specialize (Hlt a Hin). lia. }
  split; [|split; [|split]].
  - unfold findOne. cbn [manualAssessment].
    erewrite findById_fresh; [|exact Hlt|reflexivity]. cbv beta iota.
    unfold questionsOf. cbn [questionManual]. rewrite filter_app, Hold.
    rewrite filter_all by apply nestedCreate_owner. reflexivity.
  - apply nestedCreate_data.
  - intros id a Hfind. unfold findOne. cbn [manualAssessment].
    rewrite (findById_app_old _ _ _ _ _ Hfind), Hfind. cbn [fst].
    unfold questionsOf. cbn [questionManual]. rewrite filter_app, nestedCreate_foreign.
    + rewrite app_nil_r. reflexivity.
    + apply findById_some in Hfind. destruct Hfind as [Hin Hid].
      rewrite Forall_forall in Hlt. specialize (Hlt a Hin). lia.
  - apply manualConsistent_iff. cbn [manualAssessment questionManual manualAssessmentSeq].
    split; [|split].
    + rewrite map_app. cbn [map ManualAssessment.id].
      apply NoDup_app; [exact Hd | repeat constructor; simpl; tauto |].
      intros i Hi [<- | []]. apply in_map_iff in Hi. destruct Hi as [a [Ha Hin]].
      rewrite Forall_forall in Hlt. specialize (Hlt a Hin). lia.
    + apply Forall_app. split.
      * eapply Forall_impl; [|exact Hlt]. intros; simpl in *; lia.
      * repeat constructor. simpl. lia.
    + apply Forall_app. split.
      * eapply Forall_impl; [|exact Hfk]. intros q Hq. cbv beta in *.
        rewrite map_app. apply in_or_app. left. exact Hq.
      * eapply Forall_impl; [|apply nestedCreate_owner]. intros q Hq. cbv beta in *.
        apply Z.eqb_eq in Hq. rewrite Hq, map_app. apply in_or_app. right. left. reflexivity.
Qed.

Lemma create_then_findOne_witness :
  exists row st' created,
    create Sample.manualCreate Sample.manual = (Ok row, st')
    /\ ManualAssessment.id row = 2
    /\ (forall f, stored f row = supplied f Sample.manualCreate)
    /\ findOne (ManualAssessment.id row) st' = (Ok (row, created), st')
    /\ map QuestionManual.data created = [toData Sample.newQuestion]
    /\ (forall id a, findById ManualAssessment.id id (manualAssessment Sample.manual) = Some a ->
                     fst (findOne id st') = fst (findOne id Sample.manual))
    /\ Spec.manualConsistent st' = true.
Proof. exact (create_then_findOne Sample.manual Sample.manualCreate eq_refl). Defined.

Lemma toData_asSupplied (seq owner : Z) (q : ManualAssessmentDto.Question) :
  Spec.asSupplied (QuestionManual.mk seq (toData q) owner) q.
Proof.
  unfold Spec.asSupplied, toData. cbn [QuestionManual.data QuestionManual.questions
    QuestionManual.correctAnswer QuestionManual.options].
  split; [reflexivity|]. split; [reflexivity|].
  destruct (ManualAssessmentDto.options q) as [|l|text]; cbn [stringify].
  - split; [tauto|]. split; intros ? H; discriminate H.
  - split; [split; discriminate|]. split; [|intros ? H; discriminate H].
    intros l' H. injection H as <-. eexists. split; [reflexivity|].
    apply parse_stringifyStrings.
  - split; [split; discriminate|]. split; [intros ? H; discriminate H|].
    intros t H. injection H as <-. reflexivity.
Qed.

Lemma nestedCreate_written (l : list ManualAssessmentDto.Question) :
  forall seq owner, Forall2 Spec.asSupplied (nestedCreate seq owner (map toData l)) l.
Proof.
  induction l as [|q l IH]; intros seq owner; cbn [map nestedCreate]; constructor.
  - apply toData_asSupplied.
  - apply IH.
Qed.

Lemma mapQuestions_written (questions : option (list ManualAssessmentDto.Question))
  (seq owner : Z) :
  Forall2 Spec.asSupplied (nestedCreate seq owner (mapQuestions questions))
          (match questions with Some l => l | None => [] end).
Proof.
  destruct questions as [l|]; cbn [mapQuestions nestedCreate];
    [apply nestedCreate_written | constructor].
Qed.

(** X19. Every question row that create or update appends says what the
    question object of the request said, one row per object and in their
    order: the same text and correct answer; for options given as an array
    of strings, JSON text that parses back to exactly these strings,
    whatever code units (up to U+00FF) they contain; for options left out,
    no text at all, JSON.stringify having returned undefined; for any other
    options value, the text JSON.stringify writes for it. *)
Theorem written_options_parse_back :
  forall (st : Store) (data : ManualAssessmentDto.t),
    let supplied :=
      match ManualAssessmentDto.questions data with Some l => l | None => [] end in
    (exists written,
        questionManual (snd (create data st)) = questionManual st ++ written
        /\ Forall2 Spec.asSupplied written supplied)
    /\ (forall id a,
          findById ManualAssessment.id id (manualAssessment st) = Some a ->
          exists written,
            questionManual (snd (update id data st)) = questionManual st ++ written
            /\ Forall2 Spec.asSupplied written supplied).
Proof.
  intros st data supplied. subst supplied. split.
  - eexists. split; [reflexivity|]. apply mapQuestions_written.
  - intros id a Hfind. destruct (update_run st id data a Hfind) as (a' & -> & _ & _).
    eexists. split; [reflexivity|]. apply mapQuestions_written.
Qed.

(** A request with one question that gives two option strings and one that
    leaves its options out: the first row holds the text of the array, the
    second none. *)
Example create_with_and_without_options :
  map (fun row => QuestionManual.options (QuestionManual.data row))
      (questionManual
         (snd (create
                 (ManualAssessmentDto.mk (Js.VStr "Quiz 3") (Js.VStr "Week 3")
                    (Js.VNum (Js.Num 7)) (Js.VStr "Algebra") (Js.VStr "MTH101")
                    (Js.VNum (Js.Num 30)) (Js.VStr "2025-03-01") (Js.VStr "09:00")
                    (Js.VStr "10:00") (Js.VStr "staff")
                    (Some [Sample.newQuestion; Sample.openQuestion]))
                 (mkStore [] [] 1 1))))
  = [Some ("[" ++ Sample.q ++ "yes" ++ Sample.q ++ "," ++ Sample.q ++ "no" ++ Sample.q ++ "]")%string;
     None].
Proof. reflexivity. Qed.

(** X20. In a store that satisfies its key constraints findAll lists the
    assessments in table order, each with its own questions, and the question
    lists partition the question table. *)
Theorem findAll_partitions_questions :
  forall (st : Store),
    Spec.manualConsistent st = true ->
    exists all,
      findAll st = (Ok all, st)
      /\ map fst all = manualAssessment st
      /\ Permutation (List.concat (map snd all)) (questionManual st)
      /\ Forall (fun p =>
                   Forall (fun q => QuestionManual.manualAssessmentId q
                                    = ManualAssessment.id (fst p)) (snd p))
                all.
Proof.
  intros st Hc. apply manualConsistent_iff in Hc. destruct Hc as (Hd & _ & Hfk).
  eexists. split; [reflexivity|]. split; [|split].
  - rewrite map_map. simpl. apply map_id.
  - rewrite map_map. cbn [snd]. rewrite <- flat_map_concat_map.
    eapply perm_trans;
      [apply (group_by_owner ManualAssessment.id QuestionManual.manualAssessmentId), Hd|].
    rewrite filter_all; [apply Permutation_refl|].
    eapply Forall_impl; [|exact Hfk]. intros q Hq. cbv beta in Hq.
    apply in_map_iff in Hq. destruct Hq as [a [Ha Hin]].
    apply existsb_exists. exists a. split; [exact Hin | apply Z.eqb_eq, Ha].
  - apply Forall_forall. intros p Hp. apply in_map_iff in Hp.
    destruct Hp as [a [<- _]]. cbn [fst snd]. apply Forall_forall. intros q Hq.
    apply filter_In in Hq. apply Z.eqb_eq, Hq.
Qed.

Lemma findAll_partitions_questions_witness :
  exists all,
    findAll Sample.manual = (Ok all, Sample.manual)
    /\ map fst all = manualAssessment Sample.manual
    /\ Permutation (List.concat (map snd all)) (questionManual Sample.manual)
    /\ Forall (fun p =>
                 Forall (fun q => QuestionManual.manualAssessmentId q
                                  = ManualAssessment.id (fst p)) (snd p))
              all.
Proof. exact (findAll_partitions_questions Sample.manual eq_refl). Defined.

(** X21. An update never breaks the key constraints of the manual tables, and it
    leaves a store without the assessment as it was, refusing with the
    NotFound of findOne. *)
Theorem update_keeps_manualConsistent :
  forall (st : Store) (id : Z) (data : ManualAssessmentDto.t),
    Spec.manualConsistent st = true ->
    Spec.manualConsistent (snd (update id data st)) = true
    /\ (findById ManualAssessment.id id (manualAssessment st) = None ->
        update id data st
        = (Throw (NotFoundException ("Assessment with ID " ++ idText id ++ " not found")), st)).
Proof.
  intros st id data Hc. split.
  - destruct (findById ManualAssessment.id id (manualAssessment st)) as [a|] eqn:Hfind.
    + destruct (update_run st id data a Hfind) as (a' & -> & Hid & _). cbn [snd].
      apply manualConsistent_iff in Hc. destruct Hc as (Hd & Hlt & Hfk).
      assert (Hkeys : map ManualAssessment.id
                        (updateById ManualAssessment.id id (fun _ => a') (manualAssessment st))
                      = map ManualAssessment.id (manualAssessment st)).
      { unfold updateById. rewrite map_map. apply map_ext. intros r.
        destruct (ManualAssessment.id r =? id) eqn:E; [|reflexivity].
        apply Z.eqb_eq in E. congruence. }
      apply manualConsistent_iff.
      cbn [manualAssessment questionManual manualAssessmentSeq]. rewrite Hkeys.
      split; [exact Hd|]. split.
      * apply Forall_forall. intros r Hr. unfold updateById in Hr. apply in_map_iff in Hr.
        destruct Hr as [x [Hx Hin]]. rewrite Forall_forall in Hlt. specialize (Hlt x Hin).
        destruct (ManualAssessment.id x =? id) eqn:E; subst r; [|exact Hlt].
        apply Z.eqb_eq in E. lia.
      * apply Forall_app. split; [exact Hfk|].
        eapply Forall_impl; [|apply nestedCreate_owner]. intros q Hq. cbv beta in *.
        apply Z.eqb_eq in Hq. rewrite Hq.
        apply findById_some in Hfind. destruct Hfind as [Hin <-]. apply in_map, Hin.
    + unfold update, bind, findOne. rewrite Hfind. exact Hc.
  - intros Hfind. unfold update, bind, findOne. rewrite Hfind. reflexivity.
Qed.

Lemma update_keeps_manualConsistent_witness :
  Spec.manualConsistent (snd (update 1 Sample.manualUpdate Sample.manual)) = true
  /\ (findById ManualAssessment.id 1 (manualAssessment Sample.manual) = None ->
      update 1 Sample.manualUpdate Sample.manual
      = (Throw (NotFoundException ("Assessment with ID " ++ idText 1 ++ " not found")),
         Sample.manual)).
Proof. exact (update_keeps_manualConsistent Sample.manual 1 Sample.manualUpdate eq_refl). Defined.

End ManualMore.

Section CsvWellFormed.

Import ExamPaperService.

Lemma occurrences_app c (a b : string) :
  JsString.occurrences c (a ++ b)
  = (JsString.occurrences c a + JsString.occurrences c b)%nat.
Proof.
  induction a as [|x a IH]; simpl; [reflexivity|].
  destruct (Ascii.eqb x c); simpl; now rewrite IH.
Qed.

Lemma removeAll_none c (s : string) :
  JsString.occurrences c s = 0%nat -> JsString.removeAll c s = s.
Proof.
  induction s as [|x s IH]; simpl; [reflexivity|].
  destruct (Ascii.eqb x c); [discriminate|]. intros H. now rewrite IH.
Qed.

Lemma quoteChar_plain (c : ascii) :
  Json.plainChar c = true ->
  Json.quoteChar c = String c EmptyString /\ Ascii.eqb c JsString.backslash = false.
Proof.
  destruct c as [[] [] [] [] [] [] [] []]; vm_compute; intros H;
    first [discriminate H | split; reflexivity].
Qed.

Lemma quoteBody_plain (s : string) :
  Json.plain s = true ->
  Json.quoteBody s = s /\ JsString.occurrences JsString.backslash s = 0%nat.
Proof.
  induction s as [|c s IH]; cbn [Json.plain Json.quoteBody JsString.occurrences];
    [split; reflexivity|].
  intros H. apply andb_true_iff in H. destruct H as [Hc Hs].
  destruct (quoteChar_plain c Hc) as [-> ->]. destruct (IH Hs) as [-> ->].
  split; reflexivity.
Qed.

(** The comma-separated quoted strings, as [JSON.stringify] writes them
    between the brackets. *)
Lemma elements_no_backslash (l : list string) :
  Forall (fun s => Json.plain s = true) l ->
  JsString.occurrences JsString.backslash (String.concat "," (map Json.quote l)) = 0%nat.
Proof.
  induction 1 as [|s l Hs Hl IH]; [reflexivity|].
  assert (Hq : JsString.occurrences JsString.backslash (Json.quote s) = 0%nat).
  { unfold Json.quote. rewrite !occurrences_app.
    destruct (quoteBody_plain s Hs) as [-> ->]. reflexivity. }
  destruct l as [|s' l]; [exact Hq|].
  change (String.concat "," (map Json.quote (s :: s' :: l)))
    with (Json.quote s ++ "," ++ String.concat "," (map Json.quote (s' :: l)))%string.
  rewrite !occurrences_app, Hq, IH. reflexivity.
Qed.

Lemma elements_shape (s : string) (l : list string) :
  exists m, String.concat "," (map Json.quote (s :: l))
            = String (JsString.chr 34) (m ++ JsString.dquote)%string.
Proof.
  revert s. induction l as [|s' l IH]; intros s.
  - exists (Json.quoteBody s). reflexivity.
  - destruct (IH s') as [m Hm].
    change (String.concat "," (map Json.quote (s :: s' :: l)))
      with (Json.quote s ++ "," ++ String.concat "," (map Json.quote (s' :: l)))%string.
    rewrite Hm. unfold Json.quote.
    exists (Json.quoteBody s ++ JsString.dquote ++ "," ++ String (JsString.chr 34) m)%string.
    change (JsString.dquote ++ Json.quoteBody s ++ JsString.dquote)%string
      with (String (JsString.chr 34) (Json.quoteBody s ++ JsString.dquote)%string).
    cbn [append]. f_equal. rewrite !append_assoc. reflexivity.
Qed.

Lemma trimEnd_closed (s : string) (c : ascii) :
  JsString.isWhiteSpace c = false ->
  JsString.trimEnd (s ++ String c EmptyString) = (s ++ String c EmptyString)%string.
Proof.
  intros Hc. induction s as [|x s IH]; cbn [append JsString.trimEnd].
  - rewrite Hc. reflexivity.
  - rewrite IH. destruct s; reflexivity.
Qed.

Lemma trim_closed (a c : ascii) (m : string) :
  JsString.isWhiteSpace a = false -> JsString.isWhiteSpace c = false ->
  JsString.trim (String a (m ++ String c EmptyString))
  = String a (m ++ String c EmptyString).
Proof.
  intros Ha Hc. unfold JsString.trim. cbn [JsString.trimStart]. rewrite Ha.
  apply (trimEnd_closed (String a m) c Hc).
Qed.

Lemma endsWith_other (p c : ascii) (s : string) :
  Ascii.eqb p c = false ->
  JsString.endsWith (String p EmptyString) (s ++ String c EmptyString) = false.
Proof.
  intros Hpc. induction s as [|x s IH]; cbn [append JsString.endsWith].
  - cbn [String.eqb]. rewrite Hpc. reflexivity.
  - rewrite IH, orb_false_r. cbn [String.eqb].
    destruct (Ascii.eqb p x); [|reflexivity]. destruct s; reflexivity.
Qed.

Lemma endsWith_same (p : ascii) (s : string) :
  JsString.endsWith (String p EmptyString) (s ++ String p EmptyString) = true.
Proof.
  induction s as [|x s IH]; cbn [append JsString.endsWith].
  - rewrite String.eqb_refl. reflexivity.
  - rewrite IH. apply orb_true_r.
Qed.

(** The repaired text of a row whose option cells spell a stringified array
    of plain strings, with or without the outer brackets, is that
    stringified array. *)
Lemma repaired_well_formed (data : Csv.Row) (l : list string) :
  Forall (fun s => Json.plain s = true) l ->
  Spec.concatenated data = Json.stringifyStrings l
  \/ Spec.concatenated data = String.concat "," (map Json.quote l) ->
  Spec.repaired data = Json.stringifyStrings l.
Proof.
  intros Hl Hcells. pose proof (elements_no_backslash l Hl) as Hnb.
  unfold Spec.repaired, Spec.cleaned. destruct Hcells as [-> | ->].
  - rewrite removeAll_none
      by (unfold Json.stringifyStrings; rewrite !occurrences_app, Hnb; reflexivity).
    unfold Json.stringifyStrings.
    set (body := String.concat "," (map Json.quote l)).
    change ("[" ++ body ++ "]")%string with (String "["%char (body ++ "]")%string).
    assert (Htrim : JsString.trim (String "["%char (body ++ "]"))
                    = String "["%char (body ++ "]")) by (apply trim_closed; reflexivity).
    assert (Hend : JsString.endsWith "]" (String "["%char (body ++ "]")) = true)
      by apply (endsWith_same "]"%char (String "["%char body)).
    assert (Hstart : JsString.startsWith "[" (String "["%char (body ++ "]")) = true).
    { unfold JsString.startsWith. cbn [prefix].
      destruct (ascii_dec "["%char "["%char); [|congruence].
      destruct (body ++ "]")%string; reflexivity. }
    rewrite Htrim, Hend, Hstart. cbn [append]. now rewrite append_empty_r.
  - rewrite removeAll_none by exact Hnb.
    destruct l as [|s l]; [reflexivity|].
    destruct (elements_shape s l) as [m Hm]. rewrite Hm.
    change (m ++ JsString.dquote)%string with (m ++ String (JsString.chr 34) EmptyString)%string.
    assert (Htrim : JsString.trim (String (JsString.chr 34)
                                     (m ++ String (JsString.chr 34) EmptyString))
                    = String (JsString.chr 34) (m ++ String (JsString.chr 34) EmptyString))
      by (apply trim_closed; reflexivity).
    assert (Hend : JsString.endsWith "]" (String (JsString.chr 34)
                                            (m ++ String (JsString.chr 34) EmptyString))
                   = false)
      by (apply (endsWith_other "]"%char (JsString.chr 34) (String (JsString.chr 34) m));
          reflexivity).
    rewrite Htrim, Hend. unfold Json.stringifyStrings. rewrite Hm. reflexivity.
Qed.

(** X22. Well-formed option cells come through the repair undamaged. For a row
    whose option cells, read in their fixed order, spell the JSON array of
    strings free of quotes, backslashes and control characters (as
    JSON.stringify writes it, or the same without the outer brackets), the
    handler pushes one record whose options are exactly these strings, with
    the content of the row and its answer (empty when absent). *)
Theorem onData_reads_well_formed_options :
  forall (results : list Csv.Parsed) (data : Csv.Row) (l : list string),
    Forall (fun s => Json.plain s = true) l ->
    Spec.concatenated data = Json.stringifyStrings l
    \/ Spec.concatenated data = String.concat "," (map Json.quote l) ->
    onData results data
    = results ++ [Csv.mkParsed (Csv.prop data "content")
                    (Js.orStr (Csv.prop data "answer") EmptyString)
                    (Json.JArray (map Json.JString l))].
Proof.
  intros results data l Hl Hcells.
  unfold onData. rewrite combinedOptions_repaired, (repaired_well_formed data l Hl Hcells).
  rewrite parse_stringifyStrings. reflexivity.
Qed.

Lemma onData_reads_well_formed_options_witness :
  onData [] [("content", "Q2"); ("options", Sample.q ++ "C" ++ Sample.q); ("answer", "C")]%string
  = [] ++ [Csv.mkParsed (Some "Q2"%string) "C" (Json.JArray (map Json.JString ["C"%string]))].
Proof.
  apply (onData_reads_well_formed_options []
           [("content", "Q2"); ("options", Sample.q ++ "C" ++ Sample.q); ("answer", "C")]%string
           ["C"%string]).
  - repeat constructor.
  - right. reflexivity.
Defined.

End CsvWellFormed.

Section MomentRoundTrip.

Import Moment.

Lemma digit_facts (a : ascii) :
  JsString.isDigit a = true ->
  0 <= JsString.digitVal a <= 9 /\ JsString.digitChar (JsString.digitVal a) = a.
Proof.
  destruct a as [[] [] [] [] [] [] [] []]; vm_compute; intros H;
    first [discriminate H | split; [split; discriminate | reflexivity]].
Qed.

Lemma digitChar_mod (m d : Z) : m mod 10 = d mod 10 -> JsString.digitChar m = JsString.digitChar d.
Proof. unfold JsString.digitChar. now intros ->. Qed.

Lemma padDigits_step (w : nat) (n d : Z) (acc : string) :
  0 <= d <= 9 ->
  JsString.padDigits (S w) (10 * n + d) acc
  = JsString.padDigits w n (String (JsString.digitChar d) acc).
Proof.
  intros Hd. cbn [JsString.padDigits].
  replace ((10 * n + d) / 10) with n by (Z.div_mod_to_equations; lia).
  rewrite (digitChar_mod (10 * n + d) d) by (Z.div_mod_to_equations; lia).
  reflexivity.
Qed.

Lemma num2_two (a b : ascii) (n : Z) :
  num2 a b = Some n -> two n = String a (String b EmptyString) /\ 0 <= n <= 99.
Proof.
  unfold num2. destruct (JsString.isDigit a) eqn:Ea; [|discriminate].
  destruct (JsString.isDigit b) eqn:Eb; [|discriminate].
  change (true && true) with true; cbv iota. intros H.
  apply (f_equal (fun o => match o with Some v => v | None => 0 end)) in H.
  cbv beta iota in H. subst.
  destruct (digit_facts a Ea) as [Ha Hca], (digit_facts b Eb) as [Hb Hcb].
  split; [|lia].
  unfold two. rewrite padDigits_step by exact Hb.
  replace (JsString.digitVal a) with (10 * 0 + JsString.digitVal a) at 1 by lia.
  rewrite padDigits_step by exact Ha. cbn [JsString.padDigits]. now rewrite Hca, Hcb.
Qed.

Lemma num4_yearText (a b c d : ascii) (y : Z) :
  num4 a b c d = Some y ->
  yearText y = String a (String b (String c (String d EmptyString))) /\ 0 <= y <= 9999.
Proof.
  unfold num4, num2.
  destruct (JsString.isDigit a) eqn:Ea; [|discriminate].
  destruct (JsString.isDigit b) eqn:Eb; [|discriminate].
  destruct (JsString.isDigit c) eqn:Ec; [|discriminate].
  destruct (JsString.isDigit d) eqn:Ed; [|discriminate].
  change (true && true) with true; cbv iota. intros H.
  apply (f_equal (fun o => match o with Some v => v | None => 0 end)) in H.
  cbv beta iota in H. subst.
  destruct (digit_facts a Ea) as [Ha Hca], (digit_facts b Eb) as [Hb Hcb],
    (digit_facts c Ec) as [Hc Hcc], (digit_facts d Ed) as [Hd Hcd].
  split; [|lia]. unfold yearText, zeroFill4.
  replace (0 <=? _) with true by (symmetry; apply Z.leb_le; lia).
  replace (_ <=? 9999) with true by (symmetry; apply Z.leb_le; lia).
  replace (100 * (10 * JsString.digitVal a + JsString.digitVal b)
           + (10 * JsString.digitVal c + JsString.digitVal d))
    with (10 * (10 * (10 * (10 * 0 + JsString.digitVal a) + JsString.digitVal b)
                + JsString.digitVal c) + JsString.digitVal d) by lia.
  rewrite !padDigits_step by assumption. cbn [JsString.padDigits].
  now rewrite Hca, Hcb, Hcc, Hcd.
Qed.

Lemma isChar_eq (n : nat) (c : ascii) : isChar n c = true -> c = JsString.chr n.
Proof.
  unfold isChar, JsString.code, JsString.chr. intros H. apply Nat.eqb_eq in H.
  rewrite <- H. symmetry. apply ascii_nat_embedding.
Qed.

(** A text in the strict format is the rendering of its own fields; its
    hour field reads 24 only when the text says so. *)
Lemma fields_format (s : string) (y m d h i sc : Z) :
  fields s = Some (y, m, d, h, i, sc) ->
  formatDateTime (mkDateTime y m d h i sc) = s
  /\ (h = 24 -> substring 11 2 s = "24"%string).
Proof.
  unfold fields. intros H.
  rewrite <- (string_of_list_ascii_of_string s).
  destruct (list_ascii_of_string s) as [|y1 l]; [discriminate|].
  destruct l as [|y2 l]; [discriminate|]. destruct l as [|y3 l]; [discriminate|].
  destruct l as [|y4 l]; [discriminate|]. destruct l as [|p1 l]; [discriminate|].
  destruct l as [|m1 l]; [discriminate|]. destruct l as [|m2 l]; [discriminate|].
  destruct l as [|p2 l]; [discriminate|]. destruct l as [|d1 l]; [discriminate|].
  destruct l as [|d2 l]; [discriminate|]. destruct l as [|p3 l]; [discriminate|].
  destruct l as [|h1 l]; [discriminate|]. destruct l as [|h2 l]; [discriminate|].
  destruct l as [|p4 l]; [discriminate|]. destruct l as [|i1 l]; [discriminate|].
  destruct l as [|i2 l]; [discriminate|]. destruct l as [|p5 l]; [discriminate|].
  destruct l as [|s1 l]; [discriminate|]. destruct l as [|s2 l]; [discriminate|].
  destruct l as [|x l]; [|discriminate].
  destruct (isChar 45 p1) eqn:E1; [|discriminate].
  destruct (isChar 45 p2) eqn:E2; [|discriminate].
  destruct (isChar 32 p3) eqn:E3; [|discriminate].
  destruct (isChar 58 p4) eqn:E4; [|discriminate].
  destruct (isChar 58 p5) eqn:E5; [|discriminate].
  cbn [andb] in H.
  destruct (num4 y1 y2 y3 y4) as [y'|] eqn:Ny; [|discriminate].
  destruct (num2 m1 m2) as [m'|] eqn:Nm; [|discriminate].
  destruct (num2 d1 d2) as [d'|] eqn:Nd; [|discriminate].
  destruct (num2 h1 h2) as [h'|] eqn:Nh; [|discriminate].
  destruct (num2 i1 i2) as [i'|] eqn:Ni; [|discriminate].
  destruct (num2 s1 s2) as [s'|] eqn:Ns; [|discriminate].
  injection H as -> -> -> -> -> ->.
  apply isChar_eq in E1, E2, E3, E4, E5. subst p1 p2 p3 p4 p5.
  destruct (num4_yearText _ _ _ _ _ Ny) as [Hy _].
  destruct (num2_two _ _ _ Nm) as [Hm _]. destruct (num2_two _ _ _ Nd) as [Hd _].
  destruct (num2_two _ _ _ Nh) as [Hh _]. destruct (num2_two _ _ _ Ni) as [Hi _].
  destruct (num2_two _ _ _ Ns) as [Hs _].
  split.
  - unfold formatDateTime, formatTime. cbn [year month day hour minute second].
    rewrite Hy, Hm, Hd, Hh, Hi, Hs. reflexivity.
  - intros ->. cbn [string_of_list_ascii substring]. rewrite <- Hh. reflexivity.
Qed.

Lemma formatDateTime_parseStrict (s : string) (t : DateTime) :
  parseStrict s = Some t ->
  substring 11 2 s <> "24"%string ->
  formatDateTime t = s.
Proof.
  unfold parseStrict. intros H H24.
  destruct (fields s) as [[[[[[y m] d] h] i] sc]|] eqn:Ef; [|discriminate].
  destruct (fields_format s y m d h i sc Ef) as [Hfmt Hh].
  destruct (inRange (y, m, d, h, i, sc)); [|discriminate].
  destruct (h =? 24) eqn:E24.
  - apply Z.eqb_eq in E24. exfalso. apply H24, Hh, E24.
  - injection H as <-. exact Hfmt.
Qed.

End MomentRoundTrip.

Section UploadEcho.

Import ExamPaperService.

Variable fs : string -> Csv.Stream.
Variable setTimeOfDay : Moment.DateTime -> list string -> option Moment.DateTime.

(** The three texts of the response are renderings of the dates of the
    paper it carries. *)
Lemma uploadExamPaper_texts file dto st resp st' :
  uploadExamPaper fs setTimeOfDay file dto st = (Ok resp, st') ->
  scheduledDateText resp = Moment.formatDateTime (Assessment.scheduledDate (examPaper resp))
  /\ startTimeText resp = Moment.formatTime (Assessment.startTime (examPaper resp))
  /\ endTimeText resp = Moment.formatTime (Assessment.endTime (examPaper resp)).
Proof.
  unfold uploadExamPaper. intros H.
  destruct file as [f|]; [|discriminate].
  destruct (JsString.endsWith ".csv" (Csv.originalname f)); [|discriminate].
  cbn [negb] in H.
  unfold bind at 1 in H. unfold parseCsv in H.
  destruct (fs (Csv.path f)) as [rows | rows msg | rows]; [|discriminate..].
  unfold ret at 1 in H.
  destruct (List.length (parseRows rows) =? 0)%nat; [discriminate|].
  destruct (Moment.parseStrict (UploadExamPaperDto.scheduledDate dto)) as [sd|];
    [|discriminate].
  cbv zeta in H.
  match type of H with (if ?c then _ else _) _ = _ => destruct c; [discriminate|] end.
  destruct (setTimeOfDay sd (JsString.split ":" (UploadExamPaperDto.startTime dto)))
    as [t1|]; [|discriminate].
  destruct (setTimeOfDay sd (JsString.split ":" (UploadExamPaperDto.endTime dto)))
    as [t2|]; [|discriminate].
  unfold transaction in H. unfold bind at 1 in H. unfold addAssessment_create in H.
  unfold bind at 1 in H. rewrite createQuestions_run in H.
  unfold bind, addAssessment_findUnique_questions, gets in H.
  match type of H with
  | context [match findById ?k ?i ?l with _ => _ end] => destruct (findById k i l)
  end; [|discriminate].
  unfold ret in H. inversion H; subst. repeat split.
Qed.

(** X23. The response of an upload into a store that satisfies its key
    constraints carries the new assessment with the scheduled date that the
    strict parse of the request gave, and shows it as text; unless the hour
    of the request reads 24 (which denotes the start of the next day), that
    text is the scheduledDate of the request, character for character.
    Dates are read and written in one time zone without clock changes. *)
Theorem uploadExamPaper_echoes_scheduledDate :
  forall (file : option Csv.File) (dto : UploadExamPaperDto.t) (st st' : Store)
         (resp : UploadResponse),
    Spec.consistent st = true ->
    uploadExamPaper fs setTimeOfDay file dto st = (Ok resp, st') ->
    Moment.parseStrict (UploadExamPaperDto.scheduledDate dto)
    = Some (Assessment.scheduledDate (examPaper resp))
    /\ scheduledDateText resp
       = Moment.formatDateTime (Assessment.scheduledDate (examPaper resp))
    /\ (substring 11 2 (UploadExamPaperDto.scheduledDate dto) <> "24"%string ->
        scheduledDateText resp = UploadExamPaperDto.scheduledDate dto).
Proof.
  intros file dto st st' resp Hc H.
  destruct (uploadExamPaper_texts _ _ _ _ _ H) as [Htext _].
  apply uploadExamPaper_success in H.
  destruct H as (f & rows & sd & t1 & t2 & _ & _ & _ & _ & Hsd & -> & Hfind & _).
  simpl in Hfind.
  rewrite (consistent_fresh_assessment st
             (Spec.createdAssessment (addAssessmentSeq st) dto sd t1 t2) Hc eq_refl) in Hfind.
  injection Hfind as Hrow.
  assert (Hdate : Assessment.scheduledDate (examPaper resp) = sd) by (rewrite <- Hrow; reflexivity).
  rewrite Hdate in *. split; [exact Hsd|]. split; [exact Htext|].
  intros H24. rewrite Htext. apply formatDateTime_parseStrict; assumption.
Qed.

End UploadEcho.

Lemma uploadExamPaper_echoes_scheduledDate_witness :
  Moment.parseStrict (UploadExamPaperDto.scheduledDate Sample.dto)
  = Some (Assessment.scheduledDate (ExamPaperService.examPaper Sample.response))
  /\ ExamPaperService.scheduledDateText Sample.response
     = Moment.formatDateTime
         (Assessment.scheduledDate (ExamPaperService.examPaper Sample.response))
  /\ (substring 11 2 (UploadExamPaperDto.scheduledDate Sample.dto) <> "24"%string ->
      ExamPaperService.scheduledDateText Sample.response
      = UploadExamPaperDto.scheduledDate Sample.dto).
Proof.
  exact (uploadExamPaper_echoes_scheduledDate Sample.fs Sample.setTimeOfDay (Some Sample.file)
           Sample.dto Sample.empty Sample.afterUpload Sample.response eq_refl eq_refl).
Defined.
